(** * YAMLTest: execution and validation core

    A shallow embedding of the batch runner ([runTests], [runSingleTest]
    of [src/runner.js]) and of the core module it requires (dispatcher,
    comparator engine, setVars extraction, expectation validators and
    the kubectl wait poller), with the properties of the specification
    stated and proved over it. The exit code of the command line
    ([src/cli.js]), the discovery of a LoadBalancer address and the
    parsing of curl output are embedded as well, each with properties
    read off the code.

    Conventions of the embedding:
    - a parsed YAML/JSON document is a [value]; JavaScript numbers are
      modelled by their integer fragment ([Z]), [NaN] only arises from
      numeric coercion and is the [None] of [option Z];
    - a function that may throw returns a [res]; a function that mutates
      [process.env] or talks to the outside world threads that state and
      returns the state it leaves behind even when it throws;
    - library calls the repository does not define (the regular
      expression engine, [JSONPath], [JSON.parse], subprocesses, the
      HTTP transports, the clock) are variables of the sections that use
      them;
    - debug logging is left out. *)

From Stdlib Require Import ZArith String Ascii List Bool Lia.
From stdpp Require Import base option list gmap strings pretty.

Set Warnings "-register-all".

(** ** JavaScript values *)

Module JS.

Inductive value : Type :=
  | VUndefined
  | VNull
  | VBool (b : bool)
  | VNum (n : Z)
  | VStr (s : string)
  | VArr (xs : list value)
  | VObj (kvs : list (string * value)).

(** A computation that returns or throws an error carrying a message. *)
Inductive res (A : Type) : Type :=
  | Ok (a : A)
  | Throw (msg : string).
Arguments Ok {A} a.
Arguments Throw {A} msg.

Definition isOk {A} (r : res A) : bool :=
  match r with Ok _ => true | Throw _ => false end.


#[export] Instance res_ret : MRet res := fun _ a => Ok a.
#[export] Instance res_bind : MBind res := fun _ _ f r =>
  match r with Ok a => f a | Throw m => Throw m end.

(** [!!v] of JavaScript. *)
Definition truthy (v : value) : bool :=
  match v with
  | VUndefined | VNull => false
  | VBool b => b
  | VNum n => negb (n =? 0)%Z
  | VStr s => negb (String.eqb s "")
  | VArr _ | VObj _ => true
  end.

Definition typeof (v : value) : string :=
  match v with
  | VUndefined => "undefined"
  | VNull | VArr _ | VObj _ => "object"
  | VBool _ => "boolean"
  | VNum _ => "number"
  | VStr _ => "string"
  end.

Definition isArray (v : value) : bool :=
  match v with VArr _ => true | _ => false end.

Definition isNullish (v : value) : bool :=
  match v with VUndefined | VNull => true | _ => false end.

(** [a || b] *)
Definition or_else (a b : value) : value := if truthy a then a else b.

(** [a ?? b] *)
Definition nullish_or (a b : value) : value := if isNullish a then b else a.

Fixpoint assoc (k : string) (kvs : list (string * value)) : option value :=
  match kvs with
  | [] => None
  | (k', v) :: rest => if String.eqb k k' then Some v else assoc k rest
  end.

Definition keys (kvs : list (string * value)) : list string := map fst kvs.

(** [v.k] for a key that is not a built-in property: reading a property
    of [undefined] or [null] throws, a missing property is [undefined]. *)
Definition getProp (v : value) (k : string) : res value :=
  match v with
  | VUndefined => Throw ("Cannot read properties of undefined (reading '" +:+ k +:+ "')")
  | VNull => Throw ("Cannot read properties of null (reading '" +:+ k +:+ "')")
  | VObj kvs => Ok (default VUndefined (assoc k kvs))
  | _ => Ok VUndefined
  end.

(** [v?.k] *)
Definition getOpt (v : value) (k : string) : value :=
  match v with
  | VObj kvs => default VUndefined (assoc k kvs)
  | _ => VUndefined
  end.

Fixpoint join (sep : string) (l : list string) : string :=
  match l with
  | [] => ""
  | [s] => s
  | s :: rest => s +:+ sep +:+ join sep rest
  end.

(** [String(v)], which is also how a template literal renders [v]. *)
Fixpoint toString (v : value) : string :=
  match v with
  | VUndefined => "undefined"
  | VNull => "null"
  | VBool true => "true"
  | VBool false => "false"
  | VNum n => pretty n
  | VStr s => s
  | VArr xs =>
      join "," (map (fun x => if isNullish x then "" else toString x) xs)
  | VObj _ => "[object Object]"
  end.

(** Strict equality [===] on primitives ([false] on two objects unless
    they are the same reference, which a caller decides). *)
Definition strict_eq_prim (a b : value) : bool :=
  match a, b with
  | VUndefined, VUndefined => true
  | VNull, VNull => true
  | VBool x, VBool y => Bool.eqb x y
  | VNum x, VNum y => (x =? y)%Z
  | VStr x, VStr y => String.eqb x y
  | _, _ => false
  end.

(** *** Strings

    Strings are byte strings; [trim] and [toLowerCase] are modelled on
    their ASCII fragment. *)

Definition dq : string := String (ascii_of_nat 34) "".

(** [s] between double quotes, as the messages of the source write it. *)
Definition quoted (s : string) : string := dq +:+ s +:+ dq.

Definition is_space (c : ascii) : bool :=
  let n := nat_of_ascii c in
  ((9 <=? n)%nat && (n <=? 13)%nat) || (n =? 32)%nat.

Fixpoint trimStart (s : string) : string :=
  match s with
  | EmptyString => EmptyString
  | String c r => if is_space c then trimStart r else s
  end.

Fixpoint trimEnd (s : string) : string :=
  match s with
  | EmptyString => EmptyString
  | String c r =>
      match trimEnd r with
      | EmptyString => if is_space c then EmptyString else String c EmptyString
      | r' => String c r'
      end
  end.

Definition trim (s : string) : string := trimEnd (trimStart s).

Definition lower_char (c : ascii) : ascii :=
  let n := nat_of_ascii c in
  if ((65 <=? n)%nat && (n <=? 90)%nat) then ascii_of_nat (n + 32) else c.

Fixpoint toLowerCase (s : string) : string :=
  match s with
  | EmptyString => EmptyString
  | String c r => String (lower_char c) (toLowerCase r)
  end.

Definition startsWith (p s : string) : bool := String.prefix p s.

(** [hay.includes(needle)] *)
Fixpoint includes (needle hay : string) : bool :=
  String.prefix needle hay ||
  match hay with
  | EmptyString => false
  | String _ r => includes needle r
  end.

(** *** [JSON.stringify] *)

Definition hexdigit (n : nat) : ascii :=
  match String.get n "0123456789abcdef" with Some c => c | None => "0"%char end.

Definition escape_char (c : ascii) : string :=
  let n := nat_of_ascii c in
  if (n =? 34)%nat then "\" +:+ dq
  else if (n =? 92)%nat then "\\"
  else if (n =? 8)%nat then "\b"
  else if (n =? 9)%nat then "\t"
  else if (n =? 10)%nat then "\n"
  else if (n =? 12)%nat then "\f"
  else if (n =? 13)%nat then "\r"
  else if (n <? 32)%nat
       then "\u00" +:+ String (hexdigit (n / 16)) (String (hexdigit (n mod 16)) "")
  else String c "".

Fixpoint escape (s : string) : string :=
  match s with
  | EmptyString => EmptyString
  | String c r => escape_char c +:+ escape r
  end.

Definition json_string (s : string) : string := quoted (escape s).

(** [JSON.stringify(v)]: [None] is the [undefined] it returns for
    [undefined]; inside an array [undefined] prints as [null], inside an
    object the property is left out. *)
Fixpoint stringify (v : value) : option string :=
  match v with
  | VUndefined => None
  | VNull => Some "null"
  | VBool true => Some "true"
  | VBool false => Some "false"
  | VNum n => Some (pretty n)
  | VStr s => Some (json_string s)
  | VArr xs =>
      Some ("[" +:+ join "," (map (fun x => default "null" (stringify x)) xs) +:+ "]")
  | VObj kvs =>
      Some ("{" +:+
            join "," (omap (fun kv => match stringify (snd kv) with
                                      | Some s => Some (json_string (fst kv) +:+ ":" +:+ s)
                                      | None => None
                                      end) kvs)
            +:+ "}")
  end.

(** How a template literal renders a possibly [undefined] string. *)
Definition render (o : option string) : string := default "undefined" o.

(** [typeof v === 'string' ? v : JSON.stringify(v)] *)
Definition asText (v : value) : option string :=
  match v with VStr s => Some s | _ => stringify v end.

Definition is_str (v : value) (s : string) : bool :=
  match v with VStr x => String.eqb x s | _ => false end.

Definition is_true (v : value) : bool :=
  match v with VBool true => true | _ => false end.

Definition chars (s : string) : list value :=
  map (fun c => VStr (String c "")) (list_ascii_of_string s).

(** [Object.entries(v)] of a value that is not [null] or [undefined]. *)
Definition entries (v : value) : list (string * value) :=
  match v with
  | VObj kvs => kvs
  | VArr xs => imap (fun i x => (pretty (Z.of_nat i), x)) xs
  | VStr s => imap (fun i x => (pretty (Z.of_nat i), x)) (chars s)
  | _ => []
  end.

(** The elements a [for ... of] loop or [forEach] visits. *)
Definition iterate (v : value) : res (list value) :=
  match v with
  | VArr xs => Ok xs
  | VStr s => Ok (chars s)
  | _ => Throw (toString v +:+ " is not iterable")
  end.

(** [v.length] of a value that is not [null] or [undefined]. *)
Definition lengthOf (v : value) : value :=
  match v with
  | VArr xs => VNum (Z.of_nat (length xs))
  | VStr s => VNum (Z.of_nat (String.length s))
  | _ => getOpt v "length"
  end.

(** [xs.includes(v)] on an array of parsed data: no two distinct
    objects are the same reference. *)
Definition arrayIncludes (xs : list value) (v : value) : bool :=
  existsb (fun x => strict_eq_prim x v) xs.

End JS.
Export JS.

(** ** The batch runner ([src/runner.js]) *)

Module Runner.

Record TestResult : Type := mkTestResult {
  name : value;
  passed : bool;
  error : option string;
  durationMs : Z;
  attempts : Z;
  skipped : bool;   (* absent on an executed test, hence falsy *)
}.

Record RunResult : Type := mkRunResult {
  total : nat;
  n_passed : nat;
  n_failed : nat;
  n_skipped : nat;
  results : list TestResult;
}.

(** [yaml.load] has run; [parsed] is its result. *)
Definition parseTestDefinitions (parsed : value) : res (list value) :=
  if negb (truthy parsed) || negb (String.eqb (typeof parsed) "object")
  then Throw "Invalid YAML: expected an object or array of test definitions"
  else
    let definitions := match parsed with VArr xs => xs | _ => [parsed] end in
    if (length definitions =? 0)%nat
    then Throw "No test definitions found in YAML"
    else Ok definitions.

Definition normaliseDefinition (def : value) : value := def.

(** [def.name || def.test_title || `test-${index + 1}`] *)
Definition testName (def : value) (index : nat) : res value :=
  n ← getProp def "name";
  if truthy n then Ok n else
  t ← getProp def "test_title";
  Ok (or_else t (VStr ("test-" +:+ pretty (Z.of_nat index + 1)%Z))).

Section WithWorld.

(** The state of everything outside the runner: the cluster, the
    network, [process.env], the clock. *)
Variable World : Type.
(** [await executeTest(yamlStr)] on the serialised definition:
    resolves, or rejects with a message. *)
Variable executeTest : value -> World -> res bool * World.
(** [Date.now()] *)
Variable now : World -> Z.
(** [await new Promise(r => setTimeout(r, 500))] *)
Variable pause : World -> World.

(** The body of [for (attempt = 0; attempt <= retries; attempt++)],
    with [n] the number of iterations still to run. *)
Fixpoint attemptLoop (def nm : value) (retries start : Z) (n : nat)
    (attempt : Z) (lastError : option string) (w : World)
    : TestResult * World :=
  match n with
  | O =>
      (mkTestResult nm false (Some (default "Unknown error" lastError))
         (now w - start) (retries + 1) false, w)
  | S n' =>
      match executeTest def w with
      | (Ok _, w') =>
          (mkTestResult nm true None (now w' - start) (attempt + 1) false, w')
      | (Throw msg, w') =>
          let w'' := if (attempt <? retries)%Z then pause w' else w' in
          attemptLoop def nm retries start n' (attempt + 1) (Some msg) w''
      end
  end.

Definition runSingleTest (def : value) (index : nat) (w : World)
    : res TestResult * World :=
  match getProp def "retries" with
  | Throw m => (Throw m, w)
  | Ok r =>
      let retries := match r with VNum n => n | _ => 0%Z end in
      match testName def index with
      | Throw m => (Throw m, w)
      | Ok nm =>
          let '(tr, w') :=
            attemptLoop def nm retries (now w) (Z.to_nat (retries + 1))
              0 None w in
          (Ok tr, w')
      end
  end.

(** The inner [for (j = i + 1; ...)] loop that records the rest of the
    batch as skipped. *)
Fixpoint skipRest (j : nat) (defs : list value) : res (list TestResult) :=
  match defs with
  | [] => Ok []
  | skippedDef :: rest =>
      nm ← testName skippedDef j;
      rs ← skipRest (S j) rest;
      Ok (mkTestResult nm false (Some "Skipped due to previous failure")
            0 0 true :: rs)
  end.

(** The outer [for (i = 0; ...)] loop, from index [i] on. *)
Fixpoint runLoop (i : nat) (defs : list value) (w : World)
    : res (list TestResult) * World :=
  match defs with
  | [] => (Ok [], w)
  | d :: rest =>
      match runSingleTest (normaliseDefinition d) i w with
      | (Throw m, w') => (Throw m, w')
      | (Ok result, w') =>
          if negb (passed result)
          then ((rs ← skipRest (S i) rest; Ok (result :: rs)), w')
          else
            match runLoop (S i) rest w' with
            | (Throw m, w'') => (Throw m, w'')
            | (Ok rs, w'') => (Ok (result :: rs), w'')
            end
      end
  end.

Definition count (f : TestResult -> bool) (rs : list TestResult) : nat :=
  length (List.filter f rs).

Definition runTests (parsed : value) (w : World) : res RunResult * World :=
  match parseTestDefinitions parsed with
  | Throw m => (Throw m, w)
  | Ok definitions =>
      match runLoop 0 definitions w with
      | (Throw m, w') => (Throw m, w')
      | (Ok rs, w') =>
          (Ok (mkRunResult (length definitions)
                 (count (fun r => passed r) rs)
                 (count (fun r => negb (passed r) && negb (skipped r)) rs)
                 (count (fun r => skipped r) rs)
                 rs), w')
      end
  end.

End WithWorld.

End Runner.

(** ** The execution and validation core ([src/core.js]) *)

Module Core.

(** [process.env], the shared variable store. *)
Abbreviation Env := (gmap string string).

(** *** Deep comparison *)

(** [deepCompare(obj1, obj2)]. The first test is [obj1 === obj2]; on two
    objects that are the same reference the structural comparison below
    returns [true] as well ([deepCompare_refl]), so references need not
    be modelled. An object is a list of entries with distinct keys;
    [obj1[key]] of an entry [(key, v)] of [obj1] is [v]. *)
Fixpoint deepCompare (obj1 obj2 : value) {struct obj1} : bool :=
  if strict_eq_prim obj1 obj2 then true
  else
    match obj1, obj2 with
    | VArr xs, VArr ys =>
        (length xs =? length ys)%nat &&
        (fix elems (xs ys : list value) {struct xs} : bool :=
           match xs, ys with
           | [], _ => true
           | x :: xs', y :: ys' => deepCompare x y && elems xs' ys'
           | x :: xs', [] => deepCompare x VUndefined && elems xs' []
           end) xs ys
    | VObj kvs1, VObj kvs2 =>
        (length (keys kvs1) =? length (keys kvs2))%nat &&
        (fix props (kvs : list (string * value)) {struct kvs} : bool :=
           match kvs with
           | [] => true
           | (key, v) :: rest =>
               existsb (String.eqb key) (keys kvs2) &&
               deepCompare v (default VUndefined (assoc key kvs2)) &&
               props rest
           end) kvs1
    | _, _ => false
    end.

(** *** Interpolation of environment variables *)

Definition is_ident_start (c : ascii) : bool :=
  let n := nat_of_ascii c in
  ((65 <=? n)%nat && (n <=? 90)%nat) || ((97 <=? n)%nat && (n <=? 122)%nat)
  || (n =? 95)%nat.

Definition is_ident_char (c : ascii) : bool :=
  let n := nat_of_ascii c in
  is_ident_start c || ((48 <=? n)%nat && (n <=? 57)%nat).

(** Where the left-to-right scan of [resolveEnvVarsInString] stands. Its
    pattern is a dollar sign, an optional opening brace, a name (a
    letter or underscore followed by letters, digits and underscores,
    case-insensitive) and an optional closing brace. The scan is outside
    a match, after the dollar, after the brace, or inside the name with
    the text matched so far. *)
Inductive scan : Type :=
  | Normal
  | Dollar
  | DollarBrace
  | Ident (matched varName : string).

(** The replacement callback: the value of the variable, or the match
    itself when the variable is not set. *)
Definition substitute (env : Env) (matched varName : string) : string :=
  default matched (env !! varName).

Fixpoint resolveScan (env : Env) (st : scan) (s : string) : string :=
  match s with
  | EmptyString =>
      match st with
      | Normal => ""
      | Dollar => "$"
      | DollarBrace => "${"
      | Ident m n => substitute env m n
      end
  | String c r =>
      let plain := if Ascii.eqb c "$" then resolveScan env Dollar r
                   else String c (resolveScan env Normal r) in
      match st with
      | Normal => plain
      | Dollar =>
          if Ascii.eqb c "{" then resolveScan env DollarBrace r
          else if is_ident_start c
               then resolveScan env (Ident (String "$" (String c "")) (String c "")) r
          else "$" +:+ plain
      | DollarBrace =>
          if is_ident_start c
          then resolveScan env (Ident ("${" +:+ String c "") (String c "")) r
          else "${" +:+ plain
      | Ident m n =>
          if is_ident_char c
          then resolveScan env (Ident (m +:+ String c "") (n +:+ String c "")) r
          else if Ascii.eqb c "}"
               then substitute env (m +:+ "}") n +:+ resolveScan env Normal r
          else substitute env m n +:+ plain
      end
  end.

Definition resolveEnvVarsInString (env : Env) (value : string) : string :=
  resolveScan env Normal value.

(** *** Kubernetes selectors *)

Record SelectorArgs : Type := mkSelectorArgs {
  kindArg : string;
  namespaceArg : string;
  selectorArg : string;
  contextArg : string;
}.

Definition labelPairs (labels : value) : string :=
  join "," (map (fun kv => fst kv +:+ "=" +:+ toString (snd kv)) (entries labels)).

Definition buildSelectorArgs (env : Env) (selector : value) : res SelectorArgs :=
  kind ← getProp selector "kind";
  kindArg ← match kind with
            | VStr k => Ok (toLowerCase k)
            | VUndefined => Throw "Cannot read properties of undefined (reading 'toLowerCase')"
            | VNull => Throw "Cannot read properties of null (reading 'toLowerCase')"
            | _ => Throw "selector.kind.toLowerCase is not a function"
            end;
  metadata ← getProp selector "metadata";
  namespace ← getProp metadata "namespace";
  let namespaceArg := if truthy namespace then "-n " +:+ toString namespace else "" in
  context ← getProp selector "context";
  contextArg ← (if truthy context
                then match context with
                     | VStr c => Ok ("--context=" +:+ resolveEnvVarsInString env c)
                     | _ => Throw "value.replace is not a function"
                     end
                else Ok "");
  name ← getProp metadata "name";
  labels ← getProp metadata "labels";
  selectorArg ← (if truthy name then Ok (toString name)
                 else if truthy labels
                         && (0 <? length (entries labels))%nat
                 then Ok ("-l " +:+ labelPairs labels)
                 else Throw "Either metadata.name or metadata.labels must be provided in Kubernetes selector");
  Ok (mkSelectorArgs kindArg namespaceArg selectorArg contextArg).

Definition getResourceDescription (selector : value) : res string :=
  kind ← getProp selector "kind";
  metadata ← getProp selector "metadata";
  ns ← getProp metadata "namespace";
  let namespace := or_else ns (VStr "default") in
  nm ← getProp metadata "name";
  labels ← getProp metadata "labels";
  let name :=
    if truthy nm then toString nm
    else if truthy labels then "with labels " +:+ labelPairs labels
    else "unknown" in
  Ok (toString kind +:+ "/" +:+ toString namespace +:+ "/" +:+ name).

Section Engine.

(** The string-to-number grammar of [Number(s)], restricted to the
    strings that denote an integer; [None] is [NaN]. *)
Variable stringToNumber : string -> option Z.
(** [new RegExp(source).test(text)]; throws on a source that does not
    compile. *)
Variable regexp_test : string -> string -> res bool.
(** [new RegExp(source).exec(text)]: the match array, if any. *)
Variable regexp_exec : string -> string -> res (option (list value)).
(** [JSONPath({ path, json })] of jsonpath-plus. *)
Variable JSONPath : value -> value -> res (list value).
(** [JSON.parse(text)] *)
Variable JSON_parse : string -> res value.

(** [Number(v)] *)
Definition toNumber (v : value) : option Z :=
  match v with
  | VUndefined => None
  | VNull => Some 0%Z
  | VBool b => Some (if b then 1%Z else 0%Z)
  | VNum n => Some n
  | VStr s => stringToNumber s
  | VArr _ | VObj _ => stringToNumber (toString v)
  end.

Definition num_gt (a b : option Z) : bool :=
  match a, b with Some x, Some y => (y <? x)%Z | _, _ => false end.

Definition num_lt (a b : option Z) : bool :=
  match a, b with Some x, Some y => (x <? y)%Z | _, _ => false end.

Definition num_ge (a b : option Z) : bool :=
  match a, b with Some x, Some y => (y <=? x)%Z | _, _ => false end.

(** The source of [new RegExp(v)]. *)
Definition regexSource (v : value) : string :=
  match v with VUndefined => "(?:)" | _ => toString v end.

(** *** The comparator engine *)

(** The [switch] of [compareValue]: the un-negated [result]. *)
Definition rawCompare (actual comparison : value) : res bool :=
  comparator ← getProp comparison "comparator";
  expected ← getProp comparison "value";
  let actualAsString := asText actual in
  if is_str comparator "exists" then
    Ok (negb (isNullish actual))
  else if is_str comparator "equals" then
    Ok (deepCompare actual expected)
  else if is_str comparator "contains" then
    match actualAsString with
    | Some s => Ok (includes (toString expected) s)
    | None => Throw "Cannot read properties of undefined (reading 'includes')"
    end
  else if is_str comparator "matches" then
    regexp_test (regexSource expected) (render actualAsString)
  else if is_str comparator "greaterThan" then
    Ok (num_gt (toNumber actual) (toNumber expected))
  else if is_str comparator "lessThan" then
    Ok (num_lt (toNumber actual) (toNumber expected))
  else
    Throw ("Unknown comparator: " +:+ toString comparator).

Definition compareValue (actual comparison : value) (description : string)
    : res unit :=
  result ← rawCompare actual comparison;
  comparator ← getProp comparison "comparator";
  expected ← getProp comparison "value";
  negate ← getProp comparison "negate";
  let finalResult := if truthy negate then negb result else result in
  if negb finalResult then
    let operation :=
      if truthy negate then "not " +:+ toString comparator
      else toString comparator in
    let valueStr :=
      if negb (is_str comparator "exists")
      then " " +:+ render (stringify expected) else "" in
    Throw (description +:+ " comparison failed: expected to " +:+ operation
           +:+ valueStr +:+ ", found " +:+ render (asText actual))
  else Ok tt.

(** *** setVars extraction *)

(** [match[group]] on the array a successful [exec] returns; property
    keys other than array indices are not modelled. *)
Definition matchGroup (m : list value) (group : value) : value :=
  match group with
  | VNum n => if (0 <=? n)%Z then default VUndefined (m !! Z.to_nat n) else VUndefined
  | VStr s =>
      match list_find (fun ix => String.eqb (pretty (Z.of_nat ix.1)) s)
                      (imap (fun i x => (i, x)) m) with
      | Some (_, (_, x)) => x
      | None => VUndefined
      end
  | _ => VUndefined
  end.

Definition setVarsMsg (varName rest : string) : string :=
  "setVars " +:+ quoted varName +:+ ": " +:+ rest.

(** The [if / else if] chain of the loop body of [applySetVars], up to
    the extracted [value]. *)
Definition extractValue (varName : string) (rule data : value)
    (testType : string) : res value :=
  jsonPath ← getProp rule "jsonPath";
  if truthy jsonPath then
    if negb (String.eqb testType "http") && negb (String.eqb testType "command")
    then Throw (setVarsMsg varName
                  (quoted "jsonPath" +:+ " source is not valid for " +:+ testType +:+ " tests"))
    else
      jsonData ← (if String.eqb testType "http"
                  then b ← getProp data "body";
                       match b with VStr s => JSON_parse s | _ => Ok b end
                  else getProp data "json");
      if negb (truthy jsonData)
      then Throw (setVarsMsg varName "no JSON data available for jsonPath extraction")
      else
        results ← JSONPath jsonPath jsonData;
        match results with
        | [] => Throw (setVarsMsg varName
                         ("jsonPath " +:+ quoted (toString jsonPath) +:+ " returned no results"))
        | [x] => Ok x
        | _ => Ok (VArr results)
        end
  else
  header ← getProp rule "header";
  if truthy header then
    if negb (String.eqb testType "http")
    then Throw (setVarsMsg varName (quoted "header" +:+ " source is only valid for http tests"))
    else
      headers ← getProp data "headers";
      if isNullish headers then Ok VUndefined
      else match header with
           | VStr h => Ok (getOpt headers (toLowerCase h))
           | _ => Throw "rule.header.toLowerCase is not a function"
           end
  else
  statusCode ← getProp rule "statusCode";
  if is_true statusCode then
    if negb (String.eqb testType "http")
    then Throw (setVarsMsg varName (quoted "statusCode" +:+ " source is only valid for http tests"))
    else getProp data "statusCode"
  else
  body ← getProp rule "body";
  if is_true body then
    if negb (String.eqb testType "http")
    then Throw (setVarsMsg varName (quoted "body" +:+ " source is only valid for http tests"))
    else b ← getProp data "body";
         Ok (match asText b with Some s => VStr s | None => VUndefined end)
  else
  stdout ← getProp rule "stdout";
  if is_true stdout then
    if negb (String.eqb testType "command")
    then Throw (setVarsMsg varName (quoted "stdout" +:+ " source is only valid for command tests"))
    else getProp data "stdout"
  else
  stderr ← getProp rule "stderr";
  if is_true stderr then
    if negb (String.eqb testType "command")
    then Throw (setVarsMsg varName (quoted "stderr" +:+ " source is only valid for command tests"))
    else getProp data "stderr"
  else
  exitCode ← getProp rule "exitCode";
  if is_true exitCode then
    if negb (String.eqb testType "command")
    then Throw (setVarsMsg varName (quoted "exitCode" +:+ " source is only valid for command tests"))
    else getProp data "exitCode"
  else
  val ← getProp rule "value";
  if is_true val then
    if negb (String.eqb testType "wait")
    then Throw (setVarsMsg varName (quoted "value" +:+ " source is only valid for wait tests"))
    else getProp data "extractedValue"
  else
  regex ← getProp rule "regex";
  if truthy regex then
    if String.eqb testType "wait"
    then Throw (setVarsMsg varName (quoted "regex" +:+ " source is not valid for wait tests"))
    else
      text ← (if String.eqb testType "http" then
                b ← getProp data "body";
                Ok (match asText b with Some s => VStr s | None => VUndefined end)
              else if String.eqb testType "command" then
                src ← getProp regex "source";
                let source := or_else src (VStr "stdout") in
                if negb (is_str source "stdout") && negb (is_str source "stderr")
                then Throw (setVarsMsg varName
                              ("regex source must be " +:+ quoted "stdout" +:+ " or "
                               +:+ quoted "stderr" +:+ ", got " +:+ quoted (toString source)))
                else getProp data (toString source)
              else Ok VUndefined);
      if isNullish text
      then Throw (setVarsMsg varName "no text available for regex extraction")
      else
        pattern ← getProp regex "pattern";
        m ← regexp_exec (regexSource pattern) (toString text);
        match m with
        | None => Throw (setVarsMsg varName
                           ("regex " +:+ quoted (toString pattern) +:+ " did not match"))
        | Some groups =>
            g ← getProp regex "group";
            let group := nullish_or g (VNum 1) in
            match matchGroup groups group with
            | VUndefined =>
                Throw (setVarsMsg varName
                         ("regex capture group " +:+ toString group +:+ " not found in match"))
            | value => Ok value
            end
        end
  else
    Throw (setVarsMsg varName ("unknown extraction rule: " +:+ render (stringify rule))).

(** One iteration of the loop of [applySetVars]: extract, reject a null
    or undefined value, coerce to text, trim, assign to
    [process.env[varName]]. *)
Definition applyRule (varName : string) (rule data : value) (testType : string)
    (env : Env) : res unit * Env :=
  match extractValue varName rule data testType with
  | Throw m => (Throw m, env)
  | Ok value =>
      if isNullish value
      then (Throw (setVarsMsg varName "extracted value is null or undefined"), env)
      else
        let strValue := render (asText value) in
        (Ok tt, <[varName := trim strValue]> env)
  end.

Fixpoint applyRules (rules : list (string * value)) (data : value)
    (testType : string) (env : Env) : res unit * Env :=
  match rules with
  | [] => (Ok tt, env)
  | (varName, rule) :: rest =>
      match applyRule varName rule data testType env with
      | (Throw m, env') => (Throw m, env')
      | (Ok _, env') => applyRules rest data testType env'
      end
  end.

Definition applySetVars (setVars data : value) (testType : string) (env : Env)
    : res unit * Env :=
  if negb (truthy setVars) || negb (String.eqb (typeof setVars) "object")
  then (Ok tt, env)
  else applyRules (entries setVars) data testType env.

(** *** Validation of HTTP expectations *)

(** Runs [f] on every element in order and stops at the first throw. *)
Fixpoint forEach {A} (f : A -> res unit) (xs : list A) : res unit :=
  match xs with
  | [] => Ok tt
  | x :: rest => _ ← f x; forEach f rest
  end.

(** [typeof item === 'object' && key in item && item[key]]; the [in]
    operator throws on [null]. *)
Definition objectFlag (item : value) (key : string) : res value :=
  match item with
  | VNull => Throw ("Cannot use 'in' operator to search for '" +:+ key +:+ "' in null")
  | VObj kvs =>
      Ok (match assoc key kvs with Some v => v | None => VBool false end)
  | _ => Ok (VBool false)
  end.

(** The closure [validateBodyContains] of [validateHttpExpectations];
    [rawBody] is the body rendered as text. *)
Definition validateBodyContains (env : Env) (rawBody : option string)
    (bodyContainsItem : value) : res unit :=
  containsNegate ← objectFlag bodyContainsItem "negate";
  matchWord ← objectFlag bodyContainsItem "matchword";
  v ← getProp bodyContainsItem "value";
  match or_else v bodyContainsItem with
  | VStr cv =>
      let containsValue :=
        if startsWith "$" cv
        then env !! String.substring 1 (String.length cv - 1) cv
        else Some cv in
      let negate := truthy containsNegate in
      contains ← (if truthy matchWord
                  then regexp_test ("\b" +:+ render containsValue +:+ "\b")
                                   (render rawBody)
                  else match rawBody with
                       | Some body => Ok (includes (render containsValue) body)
                       | None => Throw "Cannot read properties of undefined (reading 'includes')"
                       end);
      if (if negate then contains else negb contains)
      then Throw (if negate
                  then "Body should not contain substring but does: "
                       +:+ quoted (render containsValue)
                  else "Body does not contain substring: "
                       +:+ quoted (render containsValue))
      else Ok tt
  | _ => Throw "containsValue.startsWith is not a function"
  end.

Definition validateBodyRegex (rawBody : option string) (bodyRegexItem : value)
    : res unit :=
  regexNegate ← objectFlag bodyRegexItem "negate";
  v ← getProp bodyRegexItem "value";
  let regexValue := or_else v bodyRegexItem in
  let negate := truthy regexNegate in
  matches ← regexp_test (regexSource regexValue) (render rawBody);
  if (if negate then matches else negb matches)
  then Throw (if negate
              then "Body should not match regex but does: " +:+ toString regexValue
              else "Body does not match regex: " +:+ toString regexValue)
  else Ok tt.

Definition validateBodyJsonPath (responseBody jp : value) : res unit :=
  path ← getProp jp "path";
  results ← JSONPath path responseBody;
  match results with
  | [] =>
      negate ← getProp jp "negate";
      comparator ← getProp jp "comparator";
      if truthy negate && is_str comparator "exists" then Ok tt
      else Throw ("JSONPath " +:+ quoted (toString path) +:+ " did not return any results")
  | r0 :: _ => compareValue r0 jp ("JSONPath " +:+ toString path)
  end.

Definition validateHeader (responseHeaders headerExp : value) : res unit :=
  nm ← getProp headerExp "name";
  match nm with
  | VStr n =>
      headerValue ← getProp responseHeaders (toLowerCase n);
      comparator ← getProp headerExp "comparator";
      if is_str comparator "exists"
      then compareValue headerValue headerExp ("Header " +:+ quoted n)
      else
        match headerValue with
        | VUndefined => Throw ("Header " +:+ quoted n +:+ " not found in response")
        | _ => compareValue headerValue headerExp ("Header " +:+ quoted n)
        end
  | VUndefined => Throw "Cannot read properties of undefined (reading 'toLowerCase')"
  | VNull => Throw "Cannot read properties of null (reading 'toLowerCase')"
  | _ => Throw "headerExp.name.toLowerCase is not a function"
  end.

Definition validateHttpExpectations (env : Env) (response expect : value)
    : res unit :=
  (* 1) status code *)
  expStatus ← getProp expect "statusCode";
  status ← getProp response "statusCode";
  _ ← (if (negb (strict_eq_prim expStatus VUndefined)
           && negb (strict_eq_prim expStatus status)
           && negb (isArray expStatus))
          || (match expStatus with
              | VArr xs => negb (arrayIncludes xs status)
              | _ => false
              end)
       then Throw ("Status code mismatch: expected " +:+ toString expStatus
                   +:+ ", got " +:+ toString status)
       else Ok tt);
  body ← getProp response "body";
  let rawBody := asText body in
  (* 2) exact body *)
  expBody ← getProp expect "body";
  _ ← (if negb (strict_eq_prim expBody VUndefined)
       then if negb (deepCompare body expBody)
            then Throw ("Body mismatch: expected " +:+ render (stringify expBody)
                        +:+ ", got " +:+ render (stringify body))
            else Ok tt
       else Ok tt);
  (* 3) substring *)
  bodyContains ← getProp expect "bodyContains";
  _ ← (if truthy bodyContains
       then match bodyContains with
            | VArr items => forEach (validateBodyContains env rawBody) items
            | _ => validateBodyContains env rawBody bodyContains
            end
       else Ok tt);
  (* 4) regex *)
  bodyRegex ← getProp expect "bodyRegex";
  _ ← (if truthy bodyRegex
       then match bodyRegex with
            | VArr items => forEach (validateBodyRegex rawBody) items
            | _ => validateBodyRegex rawBody bodyRegex
            end
       else Ok tt);
  (* 5) JSONPath expectations *)
  bodyJsonPath ← getProp expect "bodyJsonPath";
  _ ← (if truthy bodyJsonPath
       then jps ← iterate bodyJsonPath; forEach (validateBodyJsonPath body) jps
       else Ok tt);
  (* 6) headers *)
  headers ← getProp expect "headers";
  if truthy headers && num_gt (toNumber (lengthOf headers)) (Some 0%Z)
  then hs ← iterate headers;
       responseHeaders ← getProp response "headers";
       forEach (validateHeader responseHeaders) hs
  else Ok tt.

(** *** Validation of command expectations *)

Definition comparison (comparator : string) (expected negate : value) : value :=
  VObj [("comparator", VStr comparator); ("value", expected); ("negate", negate)].

Definition validateSingleOutputExpectation (actualOutput expectation : value)
    (outputType : string) : res unit :=
  contains ← getProp expectation "contains";
  matches ← getProp expectation "matches";
  regex ← getProp expectation "regex";
  equals ← getProp expectation "equals";
  exists_ ← getProp expectation "exists";
  negate ← getProp expectation "negate";
  if negb (strict_eq_prim contains VUndefined) then
    compareValue actualOutput (comparison "contains" contains negate)
      (outputType +:+ " contains")
  else if negb (strict_eq_prim matches VUndefined)
          || negb (strict_eq_prim regex VUndefined) then
    compareValue actualOutput (comparison "matches" (or_else matches regex) negate)
      (outputType +:+ " matches")
  else if negb (strict_eq_prim equals VUndefined) then
    compareValue actualOutput (comparison "equals" equals negate)
      (outputType +:+ " equals")
  else if negb (strict_eq_prim exists_ VUndefined) then
    compareValue actualOutput
      (VObj [("comparator", VStr "exists"); ("negate", negate)])
      (outputType +:+ " exists")
  else
    compareValue actualOutput expectation outputType.

Definition validateOutputExpectations (actualOutput expectations : value)
    (outputType : string) : res unit :=
  let expectations :=
    match expectations with
    | VStr _ => VObj [("contains", expectations)]
    | _ => expectations
    end in
  match expectations with
  | VArr exps =>
      forEach (fun exp => validateSingleOutputExpectation actualOutput exp outputType) exps
  | _ => validateSingleOutputExpectation actualOutput expectations outputType
  end.

Definition validateSingleJsonExpectation (actualJson expectation : value)
    : res unit :=
  path ← getProp expectation "path";
  if truthy path then
    matches ← JSONPath path actualJson;
    match matches with
    | [] => Throw ("JSONPath " +:+ quoted (toString path) +:+ " not found in output")
    | extractedValue :: _ =>
        compareValue extractedValue expectation ("JSONPath " +:+ quoted (toString path))
    end
  else compareValue actualJson expectation "JSON output".

Definition validateJsonExpectations (actualJson expectations : value) : res unit :=
  match expectations with
  | VArr exps => forEach (validateSingleJsonExpectation actualJson) exps
  | _ => validateSingleJsonExpectation actualJson expectations
  end.

Definition requireJson (result : value) (parseFailed noJson : string)
    : res value :=
  json ← getProp result "json";
  if negb (truthy json)
  then jsonParseError ← getProp result "jsonParseError";
       if truthy jsonParseError
       then Throw (parseFailed +:+ toString jsonParseError)
       else Throw noJson
  else Ok json.

Definition validateCommandExpectations (result expect : value) : res unit :=
  expExit ← getProp expect "exitCode";
  _ ← (if negb (strict_eq_prim expExit VUndefined)
       then exitCode ← getProp result "exitCode";
            if negb (strict_eq_prim exitCode expExit)
            then Throw ("Exit code mismatch: expected " +:+ toString expExit
                        +:+ ", got " +:+ toString exitCode)
            else Ok tt
       else Ok tt);
  expStdout ← getProp expect "stdout";
  _ ← (if truthy expStdout
       then stdout ← getProp result "stdout";
            validateOutputExpectations stdout expStdout "stdout"
       else Ok tt);
  expStderr ← getProp expect "stderr";
  _ ← (if truthy expStderr
       then stderr ← getProp result "stderr";
            validateOutputExpectations stderr expStderr "stderr"
       else Ok tt);
  expOutput ← getProp expect "output";
  _ ← (if truthy expOutput
       then output ← getProp result "output";
            validateOutputExpectations output expOutput "output"
       else Ok tt);
  expJson ← getProp expect "json";
  _ ← (if truthy expJson
       then json ← requireJson result "JSON parsing failed: "
                      "No JSON output available for validation";
            validateJsonExpectations json expJson
       else Ok tt);
  expJsonPath ← getProp expect "jsonPath";
  match expJsonPath with
  | VArr pathExps =>
      json ← requireJson result "JSON parsing failed, cannot validate jsonPath: "
               "No JSON output available for jsonPath validation";
      forEach (fun pathExp =>
                 path ← getProp pathExp "path";
                 matches ← JSONPath path json;
                 match matches with
                 | [] => Throw ("JSONPath " +:+ quoted (toString path)
                                +:+ " not found in output")
                 | extractedValue :: _ =>
                     compareValue extractedValue pathExp
                       ("JSONPath " +:+ quoted (toString path))
                 end) pathExps
  | _ => Ok tt
  end.

(** *** The outside world *)

(** The state of the cluster, the network and the clock. *)
Variable X : Type.
(** [Date.now()] *)
Variable now : X -> Z.
(** [await sleep(ms)] *)
Variable sleep : Z -> X -> X.
(** [execSync(cmd, { encoding: 'utf8' })]: the standard output, or a
    throw when the command fails. *)
Variable execSync : string -> Env -> X -> res string * X.
(** What [executeHttpTest] does between its guards and the validation:
    service discovery, interpolation and the request itself, through
    whichever transport the source selects. *)
Variable httpRequest : value -> Env -> X -> res value * X.
(** What [executeCommandTest] does between its guards and the
    validation: running the command locally or in a pod. *)
Variable runCommand : value -> Env -> X -> res value * X.
(** [executeHttpBodyComparisonTest] *)
Variable executeHttpBodyComparisonTest : value -> Env -> X -> res bool * Env * X.

(** *** The HTTP and command executors *)

Definition setVarsNeedsExpect : string :=
  "setVars requires " +:+ quoted "expect" +:+ " to be defined on the test".

Definition executeHttpTest (test : value) (env : Env) (x : X)
    : res bool * Env * X :=
  let http := getOpt test "http" in
  let setVars := getOpt test "setVars" in
  let expect := getOpt test "expect" in
  if negb (truthy http)
  then (Throw "HTTP configuration missing for HTTP test", env, x)
  else if truthy setVars && negb (truthy expect)
  then (Throw setVarsNeedsExpect, env, x)
  else
    match httpRequest test env x with
    | (Throw m, x') => (Throw m, env, x')
    | (Ok response, x') =>
        match validateHttpExpectations env response expect with
        | Throw m => (Throw m, env, x')
        | Ok _ =>
            if truthy setVars
            then match applySetVars setVars response "http" env with
                 | (Throw m, env') => (Throw m, env', x')
                 | (Ok _, env') => (Ok true, env', x')
                 end
            else (Ok true, env, x')
        end
    end.

Definition executeCommandTest (test : value) (env : Env) (x : X)
    : res bool * Env * X :=
  let command := getOpt test "command" in
  let setVars := getOpt test "setVars" in
  let expect := getOpt test "expect" in
  if negb (truthy command)
  then (Throw "Command configuration missing for command test", env, x)
  else if truthy setVars && negb (truthy expect)
  then (Throw setVarsNeedsExpect, env, x)
  else if String.eqb (typeof command) "string"
  then (Throw ("Command must be an object with a " +:+ quoted "command"
               +:+ " property. Use: { command: " +:+ quoted "your command here" +:+ " }"),
        env, x)
  else if negb (truthy (getOpt command "command"))
  then (Throw ("Command object must have a " +:+ quoted "command"
               +:+ " property with the command string"), env, x)
  else
    match runCommand test env x with
    | (Throw m, x') => (Throw m, env, x')
    | (Ok result, x') =>
        match (if truthy expect
               then validateCommandExpectations result expect else Ok tt) with
        | Throw m => (Throw m, env, x')
        | Ok _ =>
            if truthy setVars
            then match applySetVars setVars result "command" env with
                 | (Throw m, env') => (Throw m, env', x')
                 | (Ok _, env') => (Ok true, env', x')
                 end
            else (Ok true, env, x')
        end
    end.

(** *** The wait poller *)

(** What [executeKubectlWait] fixes before it starts polling. *)
Record WaitPlan : Type := mkWaitPlan {
  cmd : string;
  jsonPath : value;
  jsonPathExpectation : value;
  timeout : value;
  interval : value;
  maxRetries : value;
  resourceDescription : string;
}.

Definition planWait (config setVars : value) (env : Env) : res WaitPlan :=
  target ← getProp config "target";
  if negb (truthy target) then Throw "target block required for kubectl-wait" else
  jsonPath ← getProp config "jsonPath";
  jsonPathExpectation ← getProp config "jsonPathExpectation";
  polling ← getProp config "polling";
  _ ← (if truthy setVars
       then forEach (fun vr : string * value =>
                       v ← getProp (snd vr) "value";
                       if is_true v && negb (truthy jsonPath)
                       then Throw (setVarsMsg (fst vr)
                                     (quoted "value" +:+ " extraction requires "
                                      +:+ quoted "jsonPath"
                                      +:+ " to be defined in the wait config"))
                       else Ok tt) (entries setVars)
       else Ok tt);
  args ← buildSelectorArgs env target;
  let timeout := nullish_or (getOpt polling "timeoutSeconds") (VNum 60) in
  let interval := nullish_or (getOpt polling "intervalSeconds") (VNum 2) in
  let maxRetries := getOpt polling "maxRetries" in
  resourceDescription ← getResourceDescription target;
  Ok (mkWaitPlan
        ("kubectl " +:+ contextArg args +:+ " " +:+ namespaceArg args +:+ " get "
         +:+ kindArg args +:+ " " +:+ selectorArg args +:+ " -o json")
        jsonPath jsonPathExpectation timeout interval maxRetries
        resourceDescription).

(** [v * 1000] *)
Definition times1000 (v : value) : option Z :=
  n ← toNumber v; Some (n * 1000)%Z.

(** One pass through the [try] block of the polling loop: [true] when
    it reaches [return true], [false] on every path that increments
    [retryCount], sleeps and goes round again (the [catch] included).
    Variables published by [applySetVars] before it throws stay
    published. *)
Definition pollOnce (p : WaitPlan) (setVars : value) (env : Env) (x : X)
    : bool * Env * X :=
  match execSync (cmd p) env x with
  | (Throw _, x') => (false, env, x')
  | (Ok stdout, x') =>
      if String.eqb (trim stdout) "" then (false, env, x') else
      match JSON_parse stdout with
      | Throw _ => (false, env, x')
      | Ok json =>
          if negb (truthy json) then (false, env, x') else
          if negb (truthy (jsonPath p)) then (true, env, x') else
          match
            (matches ← JSONPath (jsonPath p) json;
             match matches with
             | [] => JSONPath (VStr ("$" +:+ toString (jsonPath p))) json
             | _ => Ok matches
             end)
          with
          | Throw _ => (false, env, x')
          | Ok [] => (false, env, x')
          | Ok (extractedValue :: _) =>
              if isNullish extractedValue then (false, env, x') else
              let satisfied :=
                if truthy (jsonPathExpectation p)
                then isOk (compareValue extractedValue (jsonPathExpectation p)
                             ("JSONPath " +:+ toString (jsonPath p)))
                else negb (is_str extractedValue "") in
              if negb satisfied then (false, env, x') else
              if truthy setVars
              then match applySetVars setVars
                           (VObj [("extractedValue", extractedValue)]) "wait" env with
                   | (Throw _, env') => (false, env', x')
                   | (Ok _, env') => (true, env', x')
                   end
              else (true, env, x')
          end
      end
  end.

Definition retriesExhausted (p : WaitPlan) : string :=
  "Maximum retries (" +:+ toString (maxRetries p)
  +:+ ") exceeded while waiting for " +:+ resourceDescription p.

Definition timedOut (p : WaitPlan) : string :=
  "Timed-out (" +:+ toString (timeout p) +:+ "s) waiting for "
  +:+ resourceDescription p
  +:+ (if truthy (jsonPath p)
       then " → " +:+ toString (jsonPath p)
            +:+ (if truthy (jsonPathExpectation p)
                 then
                   let expectation := jsonPathExpectation p in
                   let op :=
                     if truthy (getOpt expectation "negate")
                     then "not " +:+ toString (getOpt expectation "comparator")
                     else toString (getOpt expectation "comparator") in
                   let valueStr :=
                     if negb (is_str (getOpt expectation "comparator") "exists")
                     then " " +:+ render (stringify (getOpt expectation "value"))
                     else "" in
                   " to " +:+ op +:+ valueStr
                 else "")
       else "").

(** [while (Date.now() < deadline) { ... }] followed by the time-out
    throw. Each pass through the loop uses one unit of [fuel]; [None]
    means the fuel ran out before the loop was left. *)
Fixpoint waitLoop (fuel : nat) (p : WaitPlan) (setVars : value)
    (deadline : option Z) (retryCount : Z) (env : Env) (x : X)
    : option (res bool * Env * X) :=
  match fuel with
  | O => None
  | S fuel' =>
      if num_lt (Some (now x)) deadline then
        if negb (strict_eq_prim (maxRetries p) VUndefined)
           && num_ge (Some retryCount) (toNumber (maxRetries p))
        then Some (Throw (retriesExhausted p), env, x)
        else
          match pollOnce p setVars env x with
          | (true, env', x') => Some (Ok true, env', x')
          | (false, env', x') =>
              waitLoop fuel' p setVars deadline (retryCount + 1) env'
                (sleep (default 0%Z (times1000 (interval p))) x')
          end
      else Some (Throw (timedOut p), env, x)
  end.

Definition executeKubectlWait (fuel : nat) (config setVars : value)
    (env : Env) (x : X) : option (res bool * Env * X) :=
  match planWait config setVars env with
  | Throw m => Some (Throw m, env, x)
  | Ok p =>
      let deadline := t ← times1000 (timeout p); Some (now x + t)%Z in
      waitLoop fuel p setVars deadline 0 env x
  end.

(** *** The dispatcher *)

(** [executeTest] once [yaml.load] has produced [testConfig]. *)
Definition executeTest (fuel : nat) (testConfig : value) (env : Env) (x : X)
    : option (res bool * Env * X) :=
  if negb (truthy testConfig) || negb (String.eqb (typeof testConfig) "object")
  then Some (Throw "Invalid test definition: expected a YAML object", env, x)
  else if truthy (getOpt testConfig "http")
  then Some (executeHttpTest testConfig env x)
  else if truthy (getOpt testConfig "command")
  then Some (executeCommandTest testConfig env x)
  else if truthy (getOpt testConfig "wait")
  then executeKubectlWait fuel (getOpt testConfig "wait")
         (getOpt testConfig "setVars") env x
  else if truthy (getOpt testConfig "httpBodyComparison")
  then Some (executeHttpBodyComparisonTest testConfig env x)
  else Some (Throw "Unknown test type: test definition must contain one of: http, command, wait, httpBodyComparison",
             env, x).

End Engine.

End Core.

(** ** Instances for evaluation

    Small concrete stand-ins for the library calls and for the outside
    world, on which the model can be run. *)

(** A regular-expression engine for the patterns made of literal
    characters and the word-boundary assertion [\b]; on these it agrees
    with the JavaScript engine, every other pattern is refused. *)
Module MiniRegExp.

Inductive atom : Type :=
  | Lit (c : ascii)
  | WordBoundary.

Definition is_meta (c : ascii) : bool :=
  existsb (Ascii.eqb c) (list_ascii_of_string ".^$*+?()[]{}|").

Fixpoint parse (source : string) : option (list atom) :=
  match source with
  | EmptyString => Some []
  | String c r =>
      if Ascii.eqb c "\" then
        match r with
        | String d r' =>
            if Ascii.eqb d "b" then cons WordBoundary <$> parse r' else None
        | EmptyString => None
        end
      else if is_meta c then None
      else cons (Lit c) <$> parse r
  end.

Definition is_word (o : option ascii) : bool :=
  match o with Some c => Core.is_ident_char c | None => false end.

Definition head (s : string) : option ascii :=
  match s with String c _ => Some c | EmptyString => None end.

Fixpoint matchHere (atoms : list atom) (prev : option ascii) (s : string) : bool :=
  match atoms with
  | [] => true
  | WordBoundary :: rest =>
      xorb (is_word prev) (is_word (head s)) && matchHere rest prev s
  | Lit c :: rest =>
      match s with
      | String d r => Ascii.eqb c d && matchHere rest (Some d) r
      | EmptyString => false
      end
  end.

Fixpoint search (atoms : list atom) (prev : option ascii) (s : string) : bool :=
  matchHere atoms prev s ||
  match s with
  | EmptyString => false
  | String d r => search atoms (Some d) r
  end.

Definition literal (atoms : list atom) : string :=
  string_of_list_ascii
    (omap (fun a => match a with Lit c => Some c | WordBoundary => None end) atoms).

Definition refused {A} (source : string) : res A :=
  Throw ("Invalid regular expression: /" +:+ source +:+ "/").

Definition test (source text : string) : res bool :=
  match parse source with
  | Some atoms => Ok (search atoms None text)
  | None => refused source
  end.

Definition exec (source text : string) : res (option (list value)) :=
  match parse source with
  | Some atoms =>
      Ok (if search atoms None text then Some [VStr (literal atoms)] else None)
  | None => refused source
  end.

End MiniRegExp.

(** JSONPath for the paths [$], [$.a], [$.a.b], ... that name one member. *)
Module MiniJSONPath.

(** The member names of [.a.b.c], or [None] when the text is not of
    that form. *)
Fixpoint members (cur : option string) (s : string) : option (list string) :=
  match s with
  | EmptyString =>
      match cur with
      | None => Some []
      | Some "" => None
      | Some m => Some [m]
      end
  | String c r =>
      if Ascii.eqb c "." then
        match cur with
        | None => members (Some "") r
        | Some "" => None
        | Some m => cons m <$> members (Some "") r
        end
      else
        match cur with
        | None => None
        | Some m => members (Some (m +:+ String c "")) r
        end
  end.

Fixpoint walk (ms : list string) (json : value) : list value :=
  match ms with
  | [] => [json]
  | m :: rest =>
      match json with
      | VObj kvs =>
          match assoc m kvs with
          | Some v => walk rest v
          | None => []
          end
      | _ => []
      end
  end.

Definition eval (path json : value) : res (list value) :=
  match path with
  | VStr (String c r) =>
      if Ascii.eqb c "$" then
        match members None r with
        | Some ms => Ok (walk ms json)
        | None => Throw "unsupported JSONPath"
        end
      else Throw "unsupported JSONPath"
  | _ => Throw "unsupported JSONPath"
  end.

End MiniJSONPath.

(** A simulated world: a clock in milliseconds, a cluster whose one
    pod is in a fixed phase, an HTTP endpoint with a fixed answer that
    takes 10 ms, and a shell whose commands print a fixed line. *)
Module Sim.
Import Core.

Definition X : Type := Z.

Definition now (x : X) : Z := x.

Definition sleep (ms : Z) (x : X) : X := (x + Z.max ms 1)%Z.

Definition pod (phase : string) : value :=
  VObj [("status", VObj [("phase", VStr phase)])].

Definition podText (phase : string) : string := render (stringify (pod phase)).

(** [JSON.parse] on the two documents the simulated cluster prints. *)
Definition JSON_parse (text : string) : res value :=
  if String.eqb text (podText "Pending") then Ok (pod "Pending")
  else if String.eqb text (podText "Running") then Ok (pod "Running")
  else Throw "Unexpected token in JSON".

Definition execSync (phase : string) (cmd : string) (env : Env) (x : X)
    : res string * X :=
  (Ok (podText phase), x).

Definition httpRequest (status : Z) (body : value) (test : value) (env : Env)
    (x : X) : res value * X :=
  (Ok (VObj [("statusCode", VNum status); ("headers", VObj []); ("body", body)]),
   (x + 10)%Z).

Definition runCommand (stdout : string) (test : value) (env : Env) (x : X)
    : res value * X :=
  (Ok (VObj [("stdout", VStr stdout); ("stderr", VStr ""); ("exitCode", VNum 0);
             ("output", VStr stdout)]), (x + 10)%Z).

Definition executeHttpBodyComparisonTest (test : value) (env : Env) (x : X)
    : res bool * Env * X :=
  (Ok true, env, x).

Fixpoint digits (acc : Z) (s : string) : option Z :=
  match s with
  | EmptyString => Some acc
  | String c r =>
      let n := nat_of_ascii c in
      if ((48 <=? n)%nat && (n <=? 57)%nat)
      then digits (acc * 10 + Z.of_nat (n - 48))%Z r
      else None
  end.

(** [Number(s)] on the strings made of decimal digits (the empty string
    is zero); every other string is answered [NaN]. *)
Definition stringToNumber (s : string) : option Z := digits 0 (trim s).

(** The dispatcher of the core on this world: the pod is in [phase],
    the endpoint answers 200 with [body], commands print [stdout]. *)
Definition executeTest (fuel : nat) (phase : string) (body : value)
    (stdout : string) :=
  Core.executeTest stringToNumber MiniRegExp.test MiniRegExp.exec
    MiniJSONPath.eval JSON_parse X now sleep (execSync phase)
    (httpRequest 200 body) (runCommand stdout) executeHttpBodyComparisonTest fuel.

(** The world the batch runner sees: [process.env] and the rest. *)
Definition World : Type := Env * X.

(** [executeTest] as the runner calls it, on a world where the endpoint
    answers 200 with an empty object. *)
Definition runnerExecuteTest (def : value) (w : World) : res bool * World :=
  match executeTest 1000 "Running" (VObj []) "ok" def (fst w) (snd w) with
  | Some (r, env', x') => (r, (env', x'))
  | None => (Throw "still polling", w)
  end.

Definition runnerNow (w : World) : Z := now (snd w).

Definition runnerPause (w : World) : World := (fst w, sleep 500 (snd w)).

Definition runTests :=
  Runner.runTests World runnerExecuteTest runnerNow runnerPause.

(** An HTTP test that expects the given status. *)
Definition httpTest (name : string) (status retries : Z) : value :=
  VObj [("name", VStr name); ("retries", VNum retries);
        ("http", VObj [("url", VStr "http://svc"); ("path", VStr "/")]);
        ("source", VObj [("type", VStr "local")]);
        ("expect", VObj [("statusCode", VNum status)])].

End Sim.

(** ** The command line ([src/cli.js]) *)

Module Cli.
Import Runner.

(** The [opts] object of [parseArgs]: [file] is [null] or a string,
    [help] is absent or [true]. *)
Record Opts : Type := mkOpts {
  file : option string;
  help : bool;
}.

(** [s.slice(3)] *)
Definition slice3 (s : string) : string :=
  String.substring 3 (String.length s - 3) s.

(** The [for] loop of [parseArgs] over what is left of [args]. The
    argument after [-f] or [--file] is consumed with it. *)
Fixpoint parseLoop (args : list string) (opts : Opts) : Opts :=
  match args with
  | [] => opts
  | a :: rest =>
      if String.eqb a "-f" || String.eqb a "--file" then
        match rest with
        | [] => mkOpts None (help opts)
        | b :: rest' =>
            parseLoop rest'
              (mkOpts (if String.eqb b "" then None else Some b) (help opts))
        end
      else if startsWith "-f=" a then
        parseLoop rest (mkOpts (Some (slice3 a)) (help opts))
      else if String.eqb a "--help" || String.eqb a "-h" then
        parseLoop rest (mkOpts (file opts) true)
      else parseLoop rest opts
  end.

Definition parseArgs (argv : list string) : Opts :=
  parseLoop (drop 2 argv) (mkOpts None false).

Section WithWorld.

Variable World : Type.
Variable executeTest : value -> World -> res bool * World.
Variable now : World -> Z.
Variable pause : World -> World.
(** [yaml.load(text)] *)
Variable yaml_load : string -> res value.
(** [await readInput(path)]: standard input or the file at [path]. *)
Variable readInput : string -> World -> res string * World.

(** [runTests(yamlString)] with the parsing step of
    [parseTestDefinitions] that [Runner.runTests] starts after. *)
Definition runYaml (yamlString : string) (w : World) : res RunResult * World :=
  match yaml_load yamlString with
  | Throw m => (Throw ("Failed to parse YAML: " +:+ m), w)
  | Ok parsed => runTests World executeTest now pause parsed w
  end.

(** [main], as far as the exit code of the process goes; what it
    writes to the standard streams is left out. *)
Definition main (argv : list string) (w : World) : Z * World :=
  let opts := parseArgs argv in
  if help opts then (0%Z, w) else
  match file opts with
  | None | Some EmptyString => (1%Z, w)
  | Some path =>
      match readInput path w with
      | (Throw _, w1) => (1%Z, w1)
      | (Ok yamlContent, w1) =>
          if String.eqb yamlContent "" || String.eqb (trim yamlContent) ""
          then (1%Z, w1)
          else
            match runYaml yamlContent w1 with
            | (Throw _, w2) => (1%Z, w2)
            | (Ok result, w2) =>
                ((if (0 <? n_failed result)%nat then 1 else 0)%Z, w2)
            end
      end
  end.

End WithWorld.

End Cli.

(** ** Discovery of a LoadBalancer address *)

Module Discovery.
Import Core.

(** [v?.[0]] on a value that is not [null] or [undefined]. *)
Definition first (v : value) : value :=
  match v with
  | VArr xs => default VUndefined (head xs)
  | VStr s => default VUndefined (head (chars s))
  | VObj kvs => default VUndefined (assoc "0" kvs)
  | _ => VUndefined
  end.

(** [ports.find(p => p[key] === wanted)] on an array. *)
Fixpoint find (key : string) (wanted : value) (ports : list value) : res value :=
  match ports with
  | [] => Ok VUndefined
  | p :: rest =>
      v ← getProp p key;
      if strict_eq_prim v wanted then Ok p else find key wanted rest
  end.

(** The [if (portSpec !== undefined) ... else ...] block of
    [discoverServiceLoadBalancerIpAndPort]: the value left in [port].
    [typeof portSpec] is ['number'] on a [VNum] and ['string'] on a
    [VStr]; [ports.find] only exists on an array. *)
Definition selectPort (ports portSpec : value) : res value :=
  match portSpec with
  | VUndefined => getProp (first ports) "port"
  | VNum n =>
      match ports with
      | VArr ps =>
          matchedPort ← find "port" portSpec ps;
          if truthy matchedPort then getProp matchedPort "port"
          else if (0 <=? n)%Z && (n <? Z.of_nat (length ps))%Z
          then getProp (default VUndefined (ps !! Z.to_nat n)) "port"
          else Throw ("Port " +:+ toString portSpec +:+ " not found in service")
      | _ => Throw "ports.find is not a function"
      end
  | VStr _ =>
      match ports with
      | VArr ps =>
          matchedPort ← find "name" portSpec ps;
          if truthy matchedPort then getProp matchedPort "port"
          else Throw ("Port with name " +:+ quoted (toString portSpec)
                      +:+ " not found in service")
      | _ => Throw "ports.find is not a function"
      end
  | _ => Ok VUndefined
  end.

Section WithWorld.

Variable JSON_parse : string -> res value.
Variable X : Type.
Variable execSync : string -> Env -> X -> res string * X.

(** [`${selector.metadata.namespace || 'default'}/${selector.metadata.name || '<selector>'}`] *)
Definition serviceName (selector : value) : res string :=
  metadata ← getProp selector "metadata";
  namespace ← getProp metadata "namespace";
  name ← getProp metadata "name";
  Ok (toString (or_else namespace (VStr "default")) +:+ "/"
      +:+ toString (or_else name (VStr "<selector>"))).

(** The body of the [try] block, after [execSync] has returned. *)
Definition readService (selector portSpec : value) (result : string) : res value :=
  service ← JSON_parse result;
  status ← getProp service "status";
  let ingress0 := first (getOpt (getOpt status "loadBalancer") "ingress") in
  let ip := or_else (getOpt ingress0 "ip") (getOpt ingress0 "hostname") in
  if negb (truthy ip)
  then nm ← serviceName selector;
       Throw ("No LoadBalancer IP/hostname found for service " +:+ nm)
  else
    let ports := or_else (getOpt (getOpt service "spec") "ports") (VArr []) in
    if strict_eq_prim (lengthOf ports) (VNum 0)
    then nm ← serviceName selector;
         Throw ("No ports defined for service " +:+ nm)
    else
      port ← selectPort ports portSpec;
      Ok (VObj [("ip", ip); ("port", port)]).

(** The [catch] clause: an error that mentions a port or the load
    balancer is passed on, any other is wrapped. *)
Definition rethrow {A} (r : res A) : res A :=
  match r with
  | Ok a => Ok a
  | Throw m =>
      if includes "Port" m || includes "LoadBalancer" m then Throw m
      else Throw ("Failed to discover LoadBalancer IP and port: " +:+ m)
  end.

Definition discoverServiceLoadBalancerIpAndPort (selector portSpec : value)
    (env : Env) (x : X) : res value * X :=
  if negb (truthy selector) || negb (is_str (getOpt selector "kind") "Service")
  then (Throw ("Selector must be of kind " +:+ quoted "Service"
               +:+ " for LoadBalancer IP discovery"), x)
  else
    match buildSelectorArgs env selector with
    | Throw m => (Throw m, x)
    | Ok args =>
        let cmd := "kubectl " +:+ contextArg args +:+ " " +:+ namespaceArg args
                   +:+ " get " +:+ kindArg args +:+ " " +:+ selectorArg args
                   +:+ " -o json" in
        match execSync cmd env x with
        | (Throw m, x') => (rethrow (Throw m), x')
        | (Ok result, x') => (rethrow (readService selector portSpec result), x')
        end
    end.

End WithWorld.

End Discovery.

(** ** The response of curl run inside a pod *)

Module Curl.

(** [s.split(marker)[0]]: the text before the first occurrence of
    [marker], or all of [s]. *)
Fixpoint beforeMarker (marker s : string) : string :=
  if String.prefix marker s then "" else
  match s with
  | EmptyString => ""
  | String c r => String c (beforeMarker marker r)
  end.

(** [s.split('\n')] *)
Fixpoint splitLines (s : string) : list string :=
  match s with
  | EmptyString => [""]
  | String c r =>
      if Ascii.eqb c "010" then "" :: splitLines r
      else match splitLines r with
           | [] => [String c ""]
           | l :: ls => String c l :: ls
           end
  end.

Definition is_digit (c : ascii) : bool :=
  let n := nat_of_ascii c in (48 <=? n)%nat && (n <=? 57)%nat.

(** The longest prefix of characters that satisfy [f], and the rest. *)
Fixpoint span (f : ascii -> bool) (s : string) : string * string :=
  match s with
  | EmptyString => ("", "")
  | String c r =>
      if f c then let (a, b) := span f r in (String c a, b) else ("", s)
  end.

(** [\d+\.\d+\s+(\d+)] at the start of [s], the capture group. Each
    repetition is followed by a character outside its class, so the
    greedy match is the only one to try. *)
Definition versionAndCode (s : string) : option string :=
  match span is_digit s with
  | (EmptyString, _) => None
  | (_, String "." r1) =>
      match span is_digit r1 with
      | (EmptyString, _) => None
      | (_, r2) =>
          match span is_space r2 with
          | (EmptyString, _) => None
          | (_, r3) =>
              match span is_digit r3 with
              | (EmptyString, _) => None
              | (code, _) => Some code
              end
          end
      end
  | _ => None
  end.

(** [line.match(/HTTP\/\d+\.\d+\s+(\d+)/)]: group 1 of the leftmost
    match. *)
Fixpoint statusMatch (line : string) : option string :=
  match (if String.prefix "HTTP/" line
         then versionAndCode (String.substring 5 (String.length line - 5) line)
         else None) with
  | Some code => Some code
  | None =>
      match line with
      | EmptyString => None
      | String _ r => statusMatch r
      end
  end.

(** [parseInt(digits, 10)] on a string of decimal digits. *)
Definition parseInt (digits : string) : Z :=
  fold_left (fun acc c => (acc * 10 + Z.of_nat (nat_of_ascii c - 48))%Z)
            (list_ascii_of_string digits) 0%Z.

(** [line.indexOf(':')] with the text before and after it. *)
Fixpoint splitColon (line : string) : option (string * string) :=
  match line with
  | EmptyString => None
  | String c r =>
      if Ascii.eqb c ":" then Some ("", r)
      else match splitColon r with
           | Some (a, b) => Some (String c a, b)
           | None => None
           end
  end.

Record Response : Type := mkResponse {
  statusCode : Z;
  headers : gmap string string;
  body : string;
}.

(** The header loop from line [i] on: the headers collected and, once
    an empty line was met, the lines after it. *)
Fixpoint parseHeaders (lines : list string) (headers : gmap string string)
    : gmap string string * option (list string) :=
  match lines with
  | [] => (headers, None)
  | line :: rest =>
      if String.eqb (trim line) "" then (headers, Some rest)
      else
        match splitColon line with
        | Some (String c name, value) =>
            parseHeaders rest
              (<[toLowerCase (trim (String c name)) := trim value]> headers)
        | _ => parseHeaders rest headers
        end
  end.

Definition parseCurlResponse (curlOutput : string) : res Response :=
  let responseData := trim (beforeMarker "---RESPONSE_END---" curlOutput) in
  if String.eqb responseData ""
  then Throw "No response data found in curl output"
  else
    let lines := splitLines responseData in
    let statusCode :=
      match lines with
      | line0 :: _ =>
          if startsWith "HTTP/" line0
          then match statusMatch line0 with
               | Some code => parseInt code
               | None => 200%Z
               end
          else 200%Z
      | [] => 200%Z
      end in
    let '(headers, bodyLines) := parseHeaders (drop 1 lines) ∅ in
    let body :=
      match bodyLines with
      | Some (l :: ls) => join (String "010" "") (l :: ls)
      | _ => ""
      end in
    Ok (mkResponse statusCode headers (trim body)).

End Curl.

(** * Properties *)

(** ** The batch runner *)

Module RunnerProps.
Import Runner.

Section WithWorld.

Context {World : Type}.
Variable executeTest : value -> World -> res bool * World.
Variable now : World -> Z.
Variable pause : World -> World.

Local Abbreviation runSingleTest := (runSingleTest World executeTest now pause).
Local Abbreviation attemptLoop := (attemptLoop World executeTest now pause).
Local Abbreviation runLoop := (runLoop World executeTest now pause).
Local Abbreviation runTests := (runTests World executeTest now pause).

(** An outcome is in exactly one of the three classes the runner counts
    as soon as a skipped outcome is not a passed one. *)
Definition consistent (r : TestResult) : Prop :=
  skipped r = true -> passed r = false.

Lemma counts_partition (rs : list TestResult) :
  Forall consistent rs ->
  (count (fun r => passed r) rs
   + count (fun r => negb (passed r) && negb (skipped r)) rs
   + count (fun r => skipped r) rs = length rs)%nat.
Proof.
  unfold count. induction 1 as [|r rs Hr _ IH]; [reflexivity|].
  cbn [List.filter]. unfold consistent in Hr.
  destruct (passed r) eqn:Hp, (skipped r) eqn:Hs; cbn [negb andb length];
    try (specialize (Hr eq_refl); discriminate); lia.
Qed.

Lemma attemptLoop_not_skipped def nm retries start n attempt lastError w :
  skipped (fst (attemptLoop def nm retries start n attempt lastError w)) = false.
Proof.
  revert attempt lastError w.
  induction n as [|n IH]; intros attempt lastError w; cbn [Runner.attemptLoop].
  - reflexivity.
  - destruct (executeTest def w) as [[b|msg] w']; [reflexivity|]. apply IH.
Qed.

Lemma attemptLoop_name def nm retries start n attempt lastError w :
  name (fst (attemptLoop def nm retries start n attempt lastError w)) = nm.
Proof.
  revert attempt lastError w.
  induction n as [|n IH]; intros attempt lastError w; cbn [Runner.attemptLoop].
  - reflexivity.
  - destruct (executeTest def w) as [[b|msg] w']; [reflexivity|]. apply IH.
Qed.

Lemma runSingleTest_Ok def i w r w' :
  runSingleTest def i w = (Ok r, w') ->
  skipped r = false /\ testName def i = Ok (name r).
Proof.
  unfold Runner.runSingleTest.
  destruct (getProp def "retries") as [rv|m]; [|discriminate].
  destruct (testName def i) as [nm|m]; [|discriminate].
  destruct (attemptLoop _ _ _ _ _ _ _ _) as [tr w1] eqn:E.
  intros [= <- <-].
  pose proof (attemptLoop_not_skipped def nm
    (match rv with VNum n => n | _ => 0%Z end) (now w)
    (Z.to_nat (match rv with VNum n => n | _ => 0%Z end + 1)) 0%Z None w) as Hs.
  pose proof (attemptLoop_name def nm
    (match rv with VNum n => n | _ => 0%Z end) (now w)
    (Z.to_nat (match rv with VNum n => n | _ => 0%Z end + 1)) 0%Z None w) as Hn.
  rewrite E in Hs, Hn. cbn in Hs, Hn. subst nm. auto.
Qed.

(** What the skipping loop records. *)
Lemma skipRest_spec defs : forall j rs,
  skipRest j defs = Ok rs ->
  length rs = length defs /\
  Forall (fun r => skipped r = true /\ passed r = false /\ attempts r = 0%Z
                   /\ durationMs r = 0%Z) rs /\
  (forall n r d, rs !! n = Some r -> defs !! n = Some d ->
                 testName d (j + n) = Ok (name r)).
Proof.
  induction defs as [|d defs IH]; intros j rs; cbn [skipRest].
  - intros [= <-]. repeat split; [constructor|]. intros n r d H; destruct n; discriminate.
  - destruct (testName d j) as [nm|m] eqn:En; cbn; [|discriminate].
    destruct (skipRest (S j) defs) as [rs'|m] eqn:Er; cbn; [|discriminate].
    intros [= <-]. destruct (IH _ _ Er) as (Hl & Hf & Hn).
    split; [cbn; lia|]. split; [constructor; [cbn; auto|exact Hf]|].
    intros [|n] r d'; cbn.
    + intros [= <-] [= <-]. rewrite Nat.add_0_r. exact En.
    + intros H1 H2. replace (j + S n)%nat with (S j + n)%nat by lia. eauto.
Qed.

Lemma skipRest_objects defs j :
  Forall (fun d => isNullish d = false) defs -> isOk (skipRest j defs) = true.
Proof.
  intros H. revert j. induction H as [|d defs Hd _ IH]; intros j; cbn [skipRest].
  - reflexivity.
  - assert (exists nm, testName d j = Ok nm) as [nm ->].
    { unfold testName. destruct d; try discriminate; cbn;
        repeat (match goal with |- context [if ?c then _ else _] => destruct c end; cbn);
        eauto. }
    cbn. specialize (IH (S j)). destruct (skipRest (S j) defs); [reflexivity|discriminate].
Qed.

Lemma runLoop_spec defs : forall i w rs w',
  runLoop i defs w = (Ok rs, w') ->
  length rs = length defs /\
  Forall consistent rs /\
  (forall n r d, rs !! n = Some r -> defs !! n = Some d ->
                 testName d (i + n) = Ok (name r)).
Proof.
  induction defs as [|d defs IH]; intros i w rs w'; cbn [Runner.runLoop].
  - intros [= <- <-]. repeat split; [constructor|]. intros n r d H; destruct n; discriminate.
  - unfold normaliseDefinition.
    destruct (runSingleTest d i w) as [[r|m] w1] eqn:E1; [|discriminate].
    destruct (runSingleTest_Ok _ _ _ _ _ E1) as [Hs Hn].
    assert (Hc : consistent r) by (unfold consistent; rewrite Hs; discriminate).
    destruct (negb (passed r)).
    + destruct (skipRest (S i) defs) as [rs'|m] eqn:Er; cbn; [|discriminate].
      intros [= <- <-]. destruct (skipRest_spec _ _ _ Er) as (Hl & Hf & Hnm).
      split; [cbn; lia|]. split.
      * constructor; [exact Hc|]. eapply Forall_impl; [exact Hf|].
        intros x (_ & Hp & _) _. exact Hp.
      * intros [|n] r' d'; cbn.
        -- intros [= <-] [= <-]. rewrite Nat.add_0_r. exact Hn.
        -- intros H1 H2. replace (i + S n)%nat with (S i + n)%nat by lia. eauto.
    + destruct (runLoop (S i) defs w1) as [[rs'|m] w2] eqn:Er; [|discriminate].
      intros [= <- <-]. destruct (IH _ _ _ _ Er) as (Hl & Hf & Hnm).
      split; [cbn; lia|]. split; [constructor; assumption|].
      intros [|n] r' d'; cbn.
      * intros [= <-] [= <-]. rewrite Nat.add_0_r. exact Hn.
      * intros H1 H2. replace (i + S n)%nat with (S i + n)%nat by lia. eauto.
Qed.

(** Retry accounting: a test that fails has used every one of its
    [retries + 1] attempts, and a test whose first attempt succeeds
    reports one attempt. *)
Lemma attemptLoop_failed def nm retries start n : forall attempt lastError w,
  passed (fst (attemptLoop def nm retries start n attempt lastError w)) = false ->
  attempts (fst (attemptLoop def nm retries start n attempt lastError w))
  = (retries + 1)%Z.
Proof.
  induction n as [|n IH]; intros attempt lastError w; cbn [Runner.attemptLoop].
  - reflexivity.
  - destruct (executeTest def w) as [[b|msg] w']; [discriminate|]. apply IH.
Qed.

Lemma attemptLoop_every_attempt_failed def nm retries start n :
  forall attempt lastError w,
  passed (fst (attemptLoop def nm retries start n attempt lastError w)) = false ->
  n = O \/ exists msg w', executeTest def w = (Throw msg, w').
Proof.
  destruct n as [|n]; intros attempt lastError w; cbn [Runner.attemptLoop]; [auto|].
  destruct (executeTest def w) as [[b|msg] w']; [discriminate|]. eauto.
Qed.

Lemma runSingleTest_first_try def i w b w1 retries :
  getProp def "retries" = Ok (VNum retries) ->
  (0 <= retries)%Z ->
  executeTest def w = (Ok b, w1) ->
  exists r, runSingleTest def i w = (Ok r, w1) /\ passed r = true /\ attempts r = 1%Z.
Proof.
  intros Hr Hpos He. unfold Runner.runSingleTest. rewrite Hr.
  assert (exists nm, testName def i = Ok nm) as [nm ->].
  { unfold testName. destruct def; try discriminate; cbn;
      repeat (match goal with |- context [if ?c then _ else _] => destruct c end; cbn);
      eauto. }
  destruct (Z.to_nat (retries + 1)) as [|n] eqn:En; [lia|].
  cbn [Runner.attemptLoop]. rewrite He. eexists. repeat split.
Qed.

(** Every definition of [pre], run in order from index [i] and world
    [w], passes; [w'] is the world they leave behind. *)
Inductive AllPass : nat -> list value -> World -> World -> Prop :=
  | AllPass_nil i w : AllPass i [] w w
  | AllPass_cons i d ds w w1 w2 r :
      runSingleTest d i w = (Ok r, w1) ->
      passed r = true ->
      AllPass (S i) ds w1 w2 ->
      AllPass i (d :: ds) w w2.

Lemma count_app f (xs ys : list TestResult) :
  count f (xs ++ ys) = (count f xs + count f ys)%nat.
Proof. unfold count. rewrite List.filter_app, length_app. reflexivity. Qed.

Lemma count_all f (xs : list TestResult) :
  Forall (fun r => f r = true) xs -> count f xs = length xs.
Proof.
  unfold count. induction 1 as [|x xs Hx _ IH]; [reflexivity|].
  cbn [List.filter]. rewrite Hx. cbn. congruence.
Qed.

Lemma count_none f (xs : list TestResult) :
  Forall (fun r => f r = false) xs -> count f xs = 0%nat.
Proof.
  unfold count. induction 1 as [|x xs Hx _ IH]; [reflexivity|].
  cbn [List.filter]. rewrite Hx. exact IH.
Qed.

Lemma runLoop_fail_fast pre : forall i d post w w1 w2 r,
  AllPass i pre w w1 ->
  runSingleTest d (i + length pre) w1 = (Ok r, w2) ->
  passed r = false ->
  Forall (fun d => isNullish d = false) post ->
  exists ps sk,
    runLoop i (pre ++ d :: post) w = (Ok (ps ++ r :: sk), w2) /\
    length ps = length pre /\
    Forall (fun x => passed x = true /\ skipped x = false) ps /\
    length sk = length post /\
    Forall (fun x => skipped x = true /\ passed x = false /\ attempts x = 0%Z) sk.
Proof.
  induction pre as [|p pre IH]; intros i d post w w1 w2 r Hall Hrun Hfail Hpost.
  - inversion Hall; subst. cbn [length] in Hrun. rewrite Nat.add_0_r in Hrun.
    cbn [app Runner.runLoop]. unfold normaliseDefinition. rewrite Hrun, Hfail.
    cbn [negb].
    pose proof (skipRest_objects post (S i) Hpost) as Hok.
    destruct (skipRest (S i) post) as [sk|m] eqn:Esk; [|discriminate].
    destruct (skipRest_spec _ _ _ Esk) as (Hl & Hf & _).
    exists [], sk. cbn. repeat split; auto.
    eapply Forall_impl; [exact Hf|]. intros x (? & ? & ? & _) ; auto.
  - inversion Hall as [|i' d' ds' w' wa wb rp Hp Hpp Hrest]; subst.
    cbn [length] in Hrun.
    replace (i + S (length pre))%nat with (S i + length pre)%nat in Hrun by lia.
    destruct (IH _ _ _ _ _ _ _ Hrest Hrun Hfail Hpost)
      as (ps & sk & Heq & Hlp & Hfp & Hls & Hfs).
    exists (rp :: ps), sk.
    cbn [app Runner.runLoop]. unfold normaliseDefinition.
    rewrite Hp, Hpp. cbn [negb]. rewrite Heq.
    destruct (runSingleTest_Ok _ _ _ _ _ Hp) as [Hs _].
    repeat split; auto; cbn; auto.
Qed.

(** C1 (fail-fast). In a batch [pre ++ d :: post] of definitions (so
    [d] is the k-th with k = [length pre + 1] and N = k + [length post])
    where every definition of [pre] passes and [d] fails after its last
    attempt, the runner returns a result with k-1 passed, 1 failed and
    N-k skipped; every outcome after position k is marked skipped with
    [attempts = 0], and the world the runner leaves behind is the one
    left by the k-th definition: nothing after it was executed. *)
Theorem runTests_fail_fast (pre post : list value) (d : value)
    (w w1 w2 : World) (r : TestResult) :
  AllPass 0 pre w w1 ->
  runSingleTest d (length pre) w1 = (Ok r, w2) ->
  passed r = false ->
  Forall (fun d => isNullish d = false) post ->
  exists rr,
    runTests (VArr (pre ++ d :: post)) w = (Ok rr, w2) /\
    total rr = (length pre + 1 + length post)%nat /\
    n_passed rr = length pre /\
    n_failed rr = 1%nat /\
    n_skipped rr = length post /\
    results rr !! length pre = Some r /\
    (forall j x, results rr !! j = Some x -> (j < length pre)%nat ->
                 passed x = true /\ skipped x = false) /\
    (forall j x, results rr !! j = Some x -> (length pre < j)%nat ->
                 skipped x = true /\ passed x = false /\ attempts x = 0%Z).
Proof.
  intros Hall Hrun Hfail Hpost.
  destruct (runLoop_fail_fast pre 0 d post w w1 w2 r Hall Hrun Hfail Hpost)
    as (ps & sk & Heq & Hlp & Hfp & Hls & Hfs).
  destruct (runSingleTest_Ok _ _ _ _ _ Hrun) as [Hrs _].
  unfold Runner.runTests, parseTestDefinitions. cbn [truthy typeof negb orb].
  cbn [String.eqb Ascii.eqb Bool.eqb negb orb].
  destruct (length (pre ++ d :: post) =? 0)%nat eqn:El.
  { apply Nat.eqb_eq in El. rewrite length_app in El. cbn in El. lia. }
  rewrite Heq. eexists. split; [reflexivity|]. cbn [total n_passed n_failed n_skipped results].
  rewrite !count_app. cbn [app].
  change (r :: sk) with ([r] ++ sk). rewrite !count_app.
  assert (Hps1 : count (fun x => passed x) ps = length ps).
  { apply count_all. eapply Forall_impl; [exact Hfp|]. intros x [? ?]; auto. }
  assert (Hps2 : count (fun x => negb (passed x) && negb (skipped x)) ps = 0%nat).
  { apply count_none. eapply Forall_impl; [exact Hfp|]. intros x [-> ?]; auto. }
  assert (Hps3 : count (fun x => skipped x) ps = 0%nat).
  { apply count_none. eapply Forall_impl; [exact Hfp|]. intros x [? ?]; auto. }
  assert (Hsk1 : count (fun x => passed x) sk = 0%nat).
  { apply count_none. eapply Forall_impl; [exact Hfs|]. intros x (? & ? & ?); auto. }
  assert (Hsk2 : count (fun x => negb (passed x) && negb (skipped x)) sk = 0%nat).
  { apply count_none. eapply Forall_impl; [exact Hfs|]. intros x (-> & ? & ?).
    apply andb_false_r. }
  assert (Hsk3 : count (fun x => skipped x) sk = length sk).
  { apply count_all. eapply Forall_impl; [exact Hfs|]. intros x (? & ? & ?); auto. }
  rewrite Hps1, Hps2, Hps3, Hsk1, Hsk2, Hsk3.
  unfold count. cbn [List.filter]. rewrite Hfail, Hrs. cbn [negb andb length].
  rewrite length_app. cbn [length].
  repeat split; try lia.
  - rewrite <- Hlp. rewrite lookup_app_r by lia. rewrite Nat.sub_diag. reflexivity.
  - rewrite lookup_app_l in H by lia.
    rewrite Forall_forall in Hfp. apply Hfp. eapply list_elem_of_lookup_2; eauto.
  - rewrite lookup_app_l in H by lia.
    rewrite Forall_forall in Hfp. apply Hfp. eapply list_elem_of_lookup_2; eauto.
  - rewrite lookup_app_r in H by lia.
    destruct (j - length ps)%nat as [|n] eqn:En; [lia|]. cbn in H.
    rewrite Forall_forall in Hfs. apply Hfs. eapply list_elem_of_lookup_2; eauto.
  - rewrite lookup_app_r in H by lia.
    destruct (j - length ps)%nat as [|n] eqn:En; [lia|]. cbn in H.
    rewrite Forall_forall in Hfs. apply Hfs. eapply list_elem_of_lookup_2; eauto.
  - rewrite lookup_app_r in H by lia.
    destruct (j - length ps)%nat as [|n] eqn:En; [lia|]. cbn in H.
    rewrite Forall_forall in Hfs. apply Hfs. eapply list_elem_of_lookup_2; eauto.
Qed.

(** C10 (accounting). Whenever the runner returns a result for a batch,
    the batch was non-empty, [passed + failed + skipped = total], there
    is exactly one outcome per definition, the i-th outcome carries the
    name of the i-th definition, and a skipped outcome is never a
    passed one. *)
Theorem runTests_accounting (parsed : value) (w w' : World) (rr : RunResult) :
  runTests parsed w = (Ok rr, w') ->
  exists defs,
    parseTestDefinitions parsed = Ok defs /\
    defs <> [] /\
    total rr = length defs /\
    (n_passed rr + n_failed rr + n_skipped rr = total rr)%nat /\
    length (results rr) = total rr /\
    (forall i x d, results rr !! i = Some x -> defs !! i = Some d ->
                   testName d i = Ok (name x)) /\
    (forall x, In x (results rr) -> skipped x = true -> passed x = false).
Proof.
  unfold Runner.runTests.
  destruct (parseTestDefinitions parsed) as [defs|m] eqn:Ep; [|discriminate].
  destruct (runLoop 0 defs w) as [[rs|m] w1] eqn:El; [|discriminate].
  intros [= <- <-]. exists defs.
  destruct (runLoop_spec _ _ _ _ _ El) as (Hlen & Hc & Hn).
  cbn [total n_passed n_failed n_skipped results].
  split; [reflexivity|]. split.
  { unfold parseTestDefinitions in Ep.
    destruct (_ || _); [discriminate|].
    destruct (length _ =? 0)%nat eqn:E0; [discriminate|].
    intros ->. injection Ep as Ep. rewrite Ep in E0. discriminate. }
  split; [reflexivity|]. split.
  { rewrite <- Hlen. apply counts_partition, Hc. }
  split; [exact Hlen|]. split.
  { intros i x d H1 H2. exact (Hn i x d H1 H2). }
  intros x Hin. rewrite Forall_forall in Hc. apply Hc, list_elem_of_In, Hin.
Qed.

End WithWorld.

End RunnerProps.

(** ** Deep comparison *)

Module DeepCompareProps.
Import Core.

Definition isPrimitive (v : value) : bool :=
  match v with VArr _ | VObj _ => false | _ => true end.

(** The loop over the elements of two arrays. *)
Definition elems : list value -> list value -> bool :=
  fix elems (xs ys : list value) {struct xs} : bool :=
    match xs, ys with
    | [], _ => true
    | x :: xs', y :: ys' => deepCompare x y && elems xs' ys'
    | x :: xs', [] => deepCompare x VUndefined && elems xs' []
    end.

(** The loop over the properties of the first object. *)
Definition props (kvs2 : list (string * value)) : list (string * value) -> bool :=
  fix props (kvs : list (string * value)) {struct kvs} : bool :=
    match kvs with
    | [] => true
    | (key, v) :: rest =>
        existsb (String.eqb key) (keys kvs2) &&
        deepCompare v (default VUndefined (assoc key kvs2)) &&
        props rest
    end.

Lemma deepCompare_arr xs ys :
  deepCompare (VArr xs) (VArr ys) = (length xs =? length ys)%nat && elems xs ys.
Proof. reflexivity. Qed.

Lemma deepCompare_obj kvs1 kvs2 :
  deepCompare (VObj kvs1) (VObj kvs2)
  = (length (keys kvs1) =? length (keys kvs2))%nat && props kvs2 kvs1.
Proof. reflexivity. Qed.

Lemma strict_eq_prim_eq a b : strict_eq_prim a b = true -> a = b.
Proof.
  destruct a, b; cbn; try discriminate; try reflexivity.
  - intros H. apply Bool.eqb_prop in H. congruence.
  - intros H. apply Z.eqb_eq in H. congruence.
  - intros H. apply String.eqb_eq in H. congruence.
Qed.

Lemma strict_eq_prim_refl a : isPrimitive a = true -> strict_eq_prim a a = true.
Proof.
  destruct a; cbn; try discriminate; try reflexivity; intros _.
  - apply Bool.eqb_reflx.
  - apply Z.eqb_refl.
  - apply String.eqb_refl.
Qed.

Lemma deepCompare_primitive a b :
  isPrimitive a = true \/ isPrimitive b = true ->
  (deepCompare a b = true <-> a = b).
Proof.
  intros Hp. split.
  - intros H. destruct (strict_eq_prim a b) eqn:E.
    + apply strict_eq_prim_eq, E.
    + destruct a, b; cbn in Hp, H, E; try rewrite E in H; try discriminate;
        destruct Hp; discriminate.
  - intros <-. assert (Ha : isPrimitive a = true) by (destruct Hp; assumption).
    pose proof (strict_eq_prim_refl a Ha) as E.
    destruct a; cbn in *; try rewrite E; try reflexivity; discriminate.
Qed.

Lemma elems_spec xs : forall ys,
  length xs = length ys ->
  (elems xs ys = true <->
   forall i x y, xs !! i = Some x -> ys !! i = Some y -> deepCompare x y = true).
Proof.
  induction xs as [|x xs IH]; intros [|y ys] Hlen; cbn in Hlen; try discriminate.
  - split; [|reflexivity]. intros _ i x y H; destruct i; discriminate.
  - cbn [elems]. rewrite andb_true_iff, (IH ys) by lia. split.
    + intros [H0 Hr] [|i] a b; cbn.
      * intros [= <-] [= <-]. exact H0.
      * apply Hr.
    + intros H. split; [exact (H 0%nat x y eq_refl eq_refl)|].
      intros i a b. exact (H (S i) a b).
Qed.

Lemma assoc_Some_elem k v kvs : assoc k kvs = Some v -> (k, v) ∈ kvs.
Proof.
  induction kvs as [|[k' v'] kvs IH]; cbn; [discriminate|].
  destruct (String.eqb k k') eqn:E.
  - apply String.eqb_eq in E. intros [= <-]. subst. left.
  - intros H. right. auto.
Qed.

Lemma assoc_NoDup k v kvs :
  NoDup (keys kvs) -> (k, v) ∈ kvs -> assoc k kvs = Some v.
Proof.
  induction kvs as [|[k' v'] kvs IH]; cbn.
  - intros _ H. inversion H.
  - intros Hnd Hin. apply NoDup_cons in Hnd as [Hni Hnd].
    apply elem_of_cons in Hin as [[= -> ->]|Hin].
    + rewrite String.eqb_refl. reflexivity.
    + destruct (String.eqb k k') eqn:E.
      * apply String.eqb_eq in E. subst. exfalso. apply Hni.
        unfold keys. apply list_elem_of_fmap. exists (k', v). auto.
      * auto.
Qed.

Lemma assoc_is_Some k kvs : k ∈ keys kvs <-> is_Some (assoc k kvs).
Proof.
  induction kvs as [|[k' v'] kvs IH]; cbn.
  - split; [intros H; inversion H|intros [? ?]; discriminate].
  - rewrite elem_of_cons. destruct (String.eqb k k') eqn:E.
    + apply String.eqb_eq in E. split; eauto.
    + apply String.eqb_neq in E. rewrite IH. split; [intros [?|?]; [contradiction|auto]|auto].
Qed.

Lemma existsb_keys k (ks : list string) :
  existsb (String.eqb k) ks = true <-> k ∈ ks.
Proof.
  rewrite existsb_exists, list_elem_of_In. split.
  - intros (x & Hin & E). apply String.eqb_eq in E. congruence.
  - intros Hin. exists k. split; [exact Hin|apply String.eqb_refl].
Qed.

Lemma props_spec kvs2 kvs :
  props kvs2 kvs = true <->
  forall k v, (k, v) ∈ kvs ->
    k ∈ keys kvs2 /\ deepCompare v (default VUndefined (assoc k kvs2)) = true.
Proof.
  induction kvs as [|[k0 v0] kvs IH]; cbn [props].
  - split; [|reflexivity]. intros _ k v H. inversion H.
  - rewrite !andb_true_iff, IH, existsb_keys. split.
    + intros [[H1 H2] H3] k v Hin. apply elem_of_cons in Hin as [[= -> ->]|Hin]; auto.
    + intros H. split; [split|].
      * apply (H k0 v0). left.
      * apply (H k0 v0). left.
      * intros k v Hin. apply H. right. exact Hin.
Qed.

Lemma deepCompare_objects kvs1 kvs2 :
  NoDup (keys kvs1) -> NoDup (keys kvs2) ->
  (deepCompare (VObj kvs1) (VObj kvs2) = true <->
   (forall k, k ∈ keys kvs1 <-> k ∈ keys kvs2) /\
   (forall k v1 v2, assoc k kvs1 = Some v1 -> assoc k kvs2 = Some v2 ->
                    deepCompare v1 v2 = true)).
Proof.
  intros Hnd1 Hnd2. rewrite deepCompare_obj, andb_true_iff, props_spec, Nat.eqb_eq.
  split.
  - intros [Hlen Hp].
    assert (Hsub : forall k, k ∈ keys kvs1 -> k ∈ keys kvs2).
    { intros k Hk. apply assoc_is_Some in Hk as [v Hv].
      apply assoc_Some_elem in Hv. apply (Hp k v Hv). }
    assert (Hperm : keys kvs1 ≡ₚ keys kvs2).
    { apply submseteq_length_Permutation; [|lia].
      apply NoDup_submseteq; assumption. }
    split.
    + intros k. rewrite Hperm. reflexivity.
    + intros k v1 v2 H1 H2. apply assoc_Some_elem in H1.
      destruct (Hp k v1 H1) as [_ Hd]. rewrite H2 in Hd. exact Hd.
  - intros [Hkeys Hvals]. split.
    + apply Permutation_length, NoDup_Permutation; assumption.
    + intros k v Hin. assert (Hk : k ∈ keys kvs1).
      { unfold keys. apply list_elem_of_fmap. exists (k, v). auto. }
      split; [apply Hkeys, Hk|].
      apply Hkeys, assoc_is_Some in Hk as [v2 Hv2]. rewrite Hv2. cbn.
      apply (Hvals k v v2); [|exact Hv2]. apply assoc_NoDup; assumption.
Qed.

(** C5 (structural deep equality). [deepCompare] is determined level by
    level as the claim says: if either side is a primitive the result is
    equality of the two values; two arrays compare equal iff they have
    the same length and equal entries at every index; two mappings (with
    distinct keys) compare equal iff they have the same key set and
    equal values under every key; an array never equals a value that is
    not an array; and the raw result of the [equals] comparator is
    [deepCompare] of the actual and the expected value. *)
Theorem deepCompare_structural :
  (forall a b, isPrimitive a = true \/ isPrimitive b = true ->
     (deepCompare a b = true <-> a = b)) /\
  (forall xs ys,
     deepCompare (VArr xs) (VArr ys) = true <->
     length xs = length ys /\
     forall i x y, xs !! i = Some x -> ys !! i = Some y -> deepCompare x y = true) /\
  (forall kvs1 kvs2, NoDup (keys kvs1) -> NoDup (keys kvs2) ->
     (deepCompare (VObj kvs1) (VObj kvs2) = true <->
      (forall k, k ∈ keys kvs1 <-> k ∈ keys kvs2) /\
      (forall k v1 v2, assoc k kvs1 = Some v1 -> assoc k kvs2 = Some v2 ->
                       deepCompare v1 v2 = true))) /\
  (forall xs b, isArray b = false ->
     deepCompare (VArr xs) b = false /\ deepCompare b (VArr xs) = false) /\
  (forall stringToNumber regexp_test actual comparison expected,
     getProp comparison "comparator" = Ok (VStr "equals") ->
     getProp comparison "value" = Ok expected ->
     rawCompare stringToNumber regexp_test actual comparison
     = Ok (deepCompare actual expected)).
Proof.
  split; [exact deepCompare_primitive|].
  split.
  { intros xs ys. rewrite deepCompare_arr, andb_true_iff, Nat.eqb_eq. split.
    - intros [Hl He]. split; [exact Hl|]. apply elems_spec; assumption.
    - intros [Hl He]. split; [exact Hl|]. apply elems_spec; assumption. }
  split; [exact deepCompare_objects|].
  split.
  { intros xs b Hb. destruct b; cbn in Hb; try discriminate; split; reflexivity. }
  intros stn rt actual comparison expected Hc Hv.
  unfold rawCompare. rewrite Hc, Hv. reflexivity.
Qed.

(** Objects are well formed when no key occurs twice, at any depth. *)
Fixpoint wf (v : value) : Prop :=
  match v with
  | VArr xs =>
      (fix all (xs : list value) : Prop :=
         match xs with [] => True | x :: r => wf x /\ all r end) xs
  | VObj kvs =>
      NoDup (keys kvs) /\
      (fix all (kvs : list (string * value)) : Prop :=
         match kvs with [] => True | kv :: r => wf (snd kv) /\ all r end) kvs
  | _ => True
  end.

Lemma wf_arr xs : wf (VArr xs) <-> Forall wf xs.
Proof.
  cbn. induction xs as [|x xs IH]; [split; auto|].
  rewrite Forall_cons, IH. reflexivity.
Qed.

Lemma wf_obj kvs : wf (VObj kvs) <-> NoDup (keys kvs) /\ Forall (fun kv => wf (snd kv)) kvs.
Proof.
  cbn. apply and_iff_compat_l.
  induction kvs as [|kv kvs IH]; [split; auto|].
  rewrite Forall_cons, IH. reflexivity.
Qed.

Section value_induction.

Variable P : value -> Prop.
Hypothesis Hundef : P VUndefined.
Hypothesis Hnull : P VNull.
Hypothesis Hbool : forall b, P (VBool b).
Hypothesis Hnum : forall n, P (VNum n).
Hypothesis Hstr : forall s, P (VStr s).
Hypothesis Harr : forall xs, Forall P xs -> P (VArr xs).
Hypothesis Hobj : forall kvs, Forall (fun kv => P (snd kv)) kvs -> P (VObj kvs).

Fixpoint value_nested_ind (v : value) : P v :=
  match v with
  | VUndefined => Hundef
  | VNull => Hnull
  | VBool b => Hbool b
  | VNum n => Hnum n
  | VStr s => Hstr s
  | VArr xs =>
      Harr xs ((fix go (xs : list value) : Forall P xs :=
                  match xs with
                  | [] => @List.Forall_nil _ P
                  | x :: r => @List.Forall_cons _ P x r (value_nested_ind x) (go r)
                  end) xs)
  | VObj kvs =>
      Hobj kvs ((fix go (kvs : list (string * value))
                   : Forall (fun kv => P (snd kv)) kvs :=
                   match kvs with
                   | [] => @List.Forall_nil _ (fun kv => P (snd kv))
                   | kv :: r => @List.Forall_cons _ (fun kv => P (snd kv)) kv r (value_nested_ind (snd kv)) (go r)
                   end) kvs)
  end.

End value_induction.

(** A value compares equal to itself, so the reference test
    [obj1 === obj2] of the source never changes the outcome. *)
Lemma deepCompare_refl v : wf v -> deepCompare v v = true.
Proof.
  induction v as [| |b|n|s|xs IH|kvs IH] using value_nested_ind; intros Hwf;
    try (apply deepCompare_primitive; [left; reflexivity|reflexivity]).
  - rewrite deepCompare_arr, Nat.eqb_refl. cbn [andb].
    apply wf_arr in Hwf. apply elems_spec; [reflexivity|].
    intros i x y Hx Hy. rewrite Hx in Hy. injection Hy as <-.
    rewrite Forall_forall in IH, Hwf.
    apply IH; [|apply Hwf]; eapply list_elem_of_lookup_2; eauto.
  - apply wf_obj in Hwf as [Hnd Hwf].
    apply deepCompare_objects; [assumption..|]. split; [reflexivity|].
    intros k v1 v2 H1 H2. rewrite H1 in H2. injection H2 as <-.
    apply assoc_Some_elem in H1. rewrite Forall_forall in IH, Hwf.
    apply (IH _ H1), (Hwf _ H1).
Qed.

End DeepCompareProps.

(** ** The comparator engine *)

Module ComparatorProps.
Import Core.

Section Engine.

Variable stringToNumber : string -> option Z.
Variable regexp_test : string -> string -> res bool.

Local Abbreviation rawCompare := (rawCompare stringToNumber regexp_test).
Local Abbreviation compareValue := (compareValue stringToNumber regexp_test).

Lemma getProp_getOpt v k r : getOpt v k = r -> r <> VUndefined -> getProp v k = Ok r.
Proof. destruct v; cbn; intros <- H; try reflexivity; contradiction. Qed.

Lemma getProp_defined v k k' r : getProp v k = Ok r -> getProp v k' = Ok (getOpt v k').
Proof. destruct v; cbn; intros H; try discriminate; reflexivity. Qed.

(** The six comparators are the only ones with a raw result. *)
Lemma rawCompare_supported actual comparison c raw :
  getOpt comparison "comparator" = VStr c ->
  rawCompare actual comparison = Ok raw ->
  c ∈ ["exists"; "equals"; "contains"; "matches"; "greaterThan"; "lessThan"].
Proof.
  intros Hc. unfold Core.rawCompare.
  rewrite (getProp_getOpt _ _ _ Hc) by discriminate. cbn [mbind res_bind].
  rewrite (getProp_defined _ _ "value" _ (getProp_getOpt _ _ _ Hc ltac:(discriminate))).
  cbn [mbind res_bind is_str].
  repeat (match goal with
          | |- context [String.eqb c ?s] =>
              destruct (String.eqb_spec c s) as [->|_];
              [intros _; set_solver|]
          end).
  discriminate.
Qed.

(** When the raw result cannot be computed (the expected value of
    [matches] is not a regular expression, or [contains] is applied to
    [undefined]) the comparison throws whatever [negate] says. *)
Lemma compareValue_raw_throws actual comparison description m :
  rawCompare actual comparison = Throw m ->
  compareValue actual comparison description = Throw m.
Proof. unfold Core.compareValue. intros ->. reflexivity. Qed.




End Engine.



End ComparatorProps.

(** ** setVars extraction *)

Module SetVarsProps.
Import Core.

(** The extraction sources of a rule and, from the table of the
    specification, the test kinds each is valid for. *)
Inductive source : Type :=
  | SJsonPath | SHeader | SStatusCode | SBody
  | SStdout | SStderr | SExitCode | SValue | SRegex.






Section Engine.

Variable regexp_exec : string -> string -> res (option (list value)).
Variable JSONPath : value -> value -> res (list value).
Variable JSON_parse : string -> res value.

Local Abbreviation extractValue := (extractValue regexp_exec JSONPath JSON_parse).
Local Abbreviation applyRule := (applyRule regexp_exec JSONPath JSON_parse).
Local Abbreviation applySetVars := (applySetVars regexp_exec JSONPath JSON_parse).








End Engine.


End SetVarsProps.

(** ** The dispatcher and the executors *)

Module DispatchProps.
Import Core.

Section Engine.

Variable stringToNumber : string -> option Z.
Variable regexp_test : string -> string -> res bool.
Variable regexp_exec : string -> string -> res (option (list value)).
Variable JSONPath : value -> value -> res (list value).
Variable JSON_parse : string -> res value.
Variable X : Type.
Variable now : X -> Z.
Variable sleep : Z -> X -> X.
Variable execSync : string -> Env -> X -> res string * X.
Variable httpRequest : value -> Env -> X -> res value * X.
Variable runCommand : value -> Env -> X -> res value * X.
Variable executeHttpBodyComparisonTest : value -> Env -> X -> res bool * Env * X.

Local Abbreviation executeTest :=
  (executeTest stringToNumber regexp_test regexp_exec JSONPath JSON_parse
     X now sleep execSync httpRequest runCommand executeHttpBodyComparisonTest).
Local Abbreviation executeHttpTest :=
  (executeHttpTest stringToNumber regexp_test regexp_exec JSONPath JSON_parse
     X httpRequest).
Local Abbreviation executeCommandTest :=
  (executeCommandTest stringToNumber regexp_test regexp_exec JSONPath JSON_parse
     X runCommand).
Local Abbreviation executeKubectlWait :=
  (executeKubectlWait stringToNumber regexp_test regexp_exec JSONPath JSON_parse
     X now sleep execSync).
Local Abbreviation validateHttpExpectations :=
  (validateHttpExpectations stringToNumber regexp_test JSONPath).
Local Abbreviation validateCommandExpectations :=
  (validateCommandExpectations stringToNumber regexp_test JSONPath).

(** A kind key is present when the definition holds a truthy value
    under it, which is what the dispatcher tests. *)
Definition present (testConfig : value) (kind : string) : bool :=
  truthy (getOpt testConfig kind).

Definition isDefinition (testConfig : value) : Prop :=
  truthy testConfig = true /\ typeof testConfig = "object".

Lemma executeTest_definition fuel testConfig env x :
  isDefinition testConfig ->
  executeTest fuel testConfig env x
  = if present testConfig "http"
    then Some (executeHttpTest testConfig env x)
    else if present testConfig "command"
    then Some (executeCommandTest testConfig env x)
    else if present testConfig "wait"
    then executeKubectlWait fuel (getOpt testConfig "wait")
           (getOpt testConfig "setVars") env x
    else if present testConfig "httpBodyComparison"
    then Some (executeHttpBodyComparisonTest testConfig env x)
    else Some (Throw "Unknown test type: test definition must contain one of: http, command, wait, httpBodyComparison",
               env, x).
Proof.
  intros [Ht Ho]. unfold Core.executeTest, present. rewrite Ht, Ho. reflexivity.
Qed.

(** C2, as the code has it. A definition with none of the four kind
    keys is rejected with the unknown-test-type error. A definition
    with one or several of them is dispatched to the executor of the
    first one present in the order http, command, wait,
    httpBodyComparison; the other kind keys are not looked at. *)
Theorem dispatch_first_present_kind
    (fuel : nat) (testConfig : value) (env : Env) (x : X) :
  isDefinition testConfig ->
  (present testConfig "http" = false ->
   present testConfig "command" = false ->
   present testConfig "wait" = false ->
   present testConfig "httpBodyComparison" = false ->
   executeTest fuel testConfig env x
   = Some (Throw "Unknown test type: test definition must contain one of: http, command, wait, httpBodyComparison",
           env, x)) /\
  (present testConfig "http" = true ->
   executeTest fuel testConfig env x = Some (executeHttpTest testConfig env x)) /\
  (present testConfig "http" = false ->
   present testConfig "command" = true ->
   executeTest fuel testConfig env x = Some (executeCommandTest testConfig env x)) /\
  (present testConfig "http" = false ->
   present testConfig "command" = false ->
   present testConfig "wait" = true ->
   executeTest fuel testConfig env x
   = executeKubectlWait fuel (getOpt testConfig "wait")
       (getOpt testConfig "setVars") env x) /\
  (present testConfig "http" = false ->
   present testConfig "command" = false ->
   present testConfig "wait" = false ->
   present testConfig "httpBodyComparison" = true ->
   executeTest fuel testConfig env x
   = Some (executeHttpBodyComparisonTest testConfig env x)).
Proof.
  intros Hd. rewrite (executeTest_definition _ _ _ _ Hd).
  repeat split; intros; repeat match goal with H : present _ _ = _ |- _ => rewrite H; clear H end;
    reflexivity.
Qed.

(** Closes a branch in which the executor returned the store it was
    given. *)
Ltac unchanged := intros [= <- <- <-]; contradiction.

Lemma executeHttpTest_env test env x r env' x' :
  executeHttpTest test env x = (r, env', x') ->
  env' <> env ->
  truthy (getOpt test "expect") = true /\
  exists response,
    httpRequest test env x = (Ok response, x') /\
    validateHttpExpectations env response (getOpt test "expect") = Ok tt.
Proof.
  unfold Core.executeHttpTest.
  destruct (negb (truthy (getOpt test "http"))); [unchanged|].
  destruct (truthy (getOpt test "setVars")) eqn:Hsv; cbn [andb].
  - destruct (truthy (getOpt test "expect")) eqn:He; cbn [negb];
      [|unchanged].
    destruct (httpRequest test env x) as [[response|m] x1];
      [|unchanged].
    destruct (Core.validateHttpExpectations _ _ _ env response _) as [[]|m] eqn:Hv;
      [|unchanged].
    destruct (applySetVars _ _ _ _ _ _ _) as [[[]|m] env1];
      intros [= <- <- <-] _; eauto.
  - destruct (httpRequest test env x) as [[response|m] x1];
      [|unchanged].
    destruct (Core.validateHttpExpectations _ _ _ env response _) as [[]|m] eqn:Hv;
      unchanged.
Qed.

Lemma executeCommandTest_env test env x r env' x' :
  executeCommandTest test env x = (r, env', x') ->
  env' <> env ->
  truthy (getOpt test "expect") = true /\
  exists result,
    runCommand test env x = (Ok result, x') /\
    validateCommandExpectations result (getOpt test "expect") = Ok tt.
Proof.
  unfold Core.executeCommandTest.
  destruct (negb (truthy (getOpt test "command"))); [unchanged|].
  destruct (truthy (getOpt test "setVars")) eqn:Hsv; cbn [andb].
  - destruct (truthy (getOpt test "expect")) eqn:He; cbn [negb];
      [|unchanged].
    destruct (String.eqb _ "string"); [unchanged|].
    destruct (negb (truthy (getOpt (getOpt test "command") "command")));
      [unchanged|].
    destruct (runCommand test env x) as [[result|m] x1];
      [|unchanged].
    destruct (Core.validateCommandExpectations _ _ _ result _) as [[]|m] eqn:Hv;
      [|unchanged].
    destruct (applySetVars _ _ _ _ _ _ _) as [[[]|m] env1];
      intros [= <- <- <-] _; eauto.
  - destruct (String.eqb _ "string"); [unchanged|].
    destruct (negb (truthy (getOpt (getOpt test "command") "command")));
      [unchanged|].
    destruct (runCommand test env x) as [[result|m] x1];
      [|unchanged].
    destruct (if truthy (getOpt test "expect") then _ else _) as [[]|m];
      unchanged.
Qed.

(** C9, as the code has it. A definition dispatched to the HTTP or the
    command executor that carries [setVars] but no [expect] is rejected
    with the error "setVars requires "expect" to be defined on the test"
    before anything runs: the variable store and the outside world are
    left as they were. And whenever one of these two executors changes
    the variable store, [expect] was present, the request or command
    returned, and its result passed the validation against [expect]. *)
Theorem setVars_requires_expect :
  (forall fuel testConfig env x,
     isDefinition testConfig ->
     present testConfig "http" = true \/
     (present testConfig "http" = false /\ present testConfig "command" = true) ->
     truthy (getOpt testConfig "setVars") = true ->
     truthy (getOpt testConfig "expect") = false ->
     executeTest fuel testConfig env x = Some (Throw setVarsNeedsExpect, env, x)) /\
  (forall test env x r env' x',
     executeHttpTest test env x = (r, env', x') ->
     env' <> env ->
     truthy (getOpt test "expect") = true /\
     exists response,
       httpRequest test env x = (Ok response, x') /\
       validateHttpExpectations env response (getOpt test "expect") = Ok tt) /\
  (forall test env x r env' x',
     executeCommandTest test env x = (r, env', x') ->
     env' <> env ->
     truthy (getOpt test "expect") = true /\
     exists result,
       runCommand test env x = (Ok result, x') /\
       validateCommandExpectations result (getOpt test "expect") = Ok tt).
Proof.
  split; [|split; [exact executeHttpTest_env|exact executeCommandTest_env]].
  intros fuel testConfig env x Hd Hkind Hsv He.
  rewrite (executeTest_definition _ _ _ _ Hd).
  destruct Hkind as [Hh|[Hh Hc]]; rewrite Hh; [|rewrite Hc].
  - unfold Core.executeHttpTest. unfold present in Hh. rewrite Hh, Hsv, He. reflexivity.
  - unfold Core.executeCommandTest. unfold present in Hc. rewrite Hc, Hsv, He. reflexivity.
Qed.

End Engine.

(** A definition with both an [http] and a [command] block. *)
Definition twoKinds : value :=
  VObj [("http", VObj [("url", VStr "http://svc"); ("path", VStr "/")]);
        ("command", VObj [("command", VStr "echo hello")]);
        ("source", VObj [("type", VStr "local")]);
        ("expect", VObj [("statusCode", VNum 200)])].

(** C2, as the specification has it, fails: a definition with two kind
    keys is not rejected, it runs as an HTTP test and passes. *)
Lemma two_kinds_counterexample :
  present twoKinds "http" = true /\
  present twoKinds "command" = true /\
  Sim.executeTest 1 "Running" (VObj []) "hello" twoKinds ∅ 0%Z
  = Some (Ok true, ∅, 10%Z).
Proof. repeat split. Qed.

(** A wait test that captures the polled value and has no [expect]. *)
Definition waitWithSetVars : value :=
  VObj [("wait",
         VObj [("target", VObj [("kind", VStr "Pod");
                                ("metadata", VObj [("namespace", VStr "ns");
                                                   ("name", VStr "web")])]);
               ("jsonPath", VStr "$.status.phase");
               ("jsonPathExpectation",
                VObj [("comparator", VStr "equals"); ("value", VStr "Running")])]);
        ("setVars", VObj [("PHASE", VObj [("value", VBool true)])])].

(** C9, as the specification has it, fails for the wait kind: a wait
    test with [setVars] and no [expect] is accepted, and the extraction
    runs. *)
Lemma wait_setVars_counterexample :
  truthy (getOpt waitWithSetVars "setVars") = true /\
  truthy (getOpt waitWithSetVars "expect") = false /\
  Sim.executeTest 1 "Running" (VObj []) "" waitWithSetVars ∅ 0%Z
  = Some (Ok true, <["PHASE" := "Running"]> ∅, 0%Z).
Proof. repeat split. Qed.

End DispatchProps.

(** ** The wait poller *)

Module WaitProps.
Import Core.

Section Engine.

Variable stringToNumber : string -> option Z.
Variable regexp_test : string -> string -> res bool.
Variable regexp_exec : string -> string -> res (option (list value)).
Variable JSONPath : value -> value -> res (list value).
Variable JSON_parse : string -> res value.
Variable X : Type.
Variable now : X -> Z.
Variable sleep : Z -> X -> X.
Variable execSync : string -> Env -> X -> res string * X.

(** Time does not run backwards: a sleep lasts at least as long as
    asked, and a subprocess never returns before it was started. *)
Hypothesis sleep_clock :
  forall ms x, (now x <= now (sleep ms x))%Z /\ (now x + ms <= now (sleep ms x))%Z.
Hypothesis execSync_clock :
  forall cmd env x, (now x <= now (snd (execSync cmd env x)))%Z.

Local Abbreviation pollOnce :=
  (pollOnce stringToNumber regexp_test regexp_exec JSONPath JSON_parse X execSync).
Local Abbreviation waitLoop :=
  (waitLoop stringToNumber regexp_test regexp_exec JSONPath JSON_parse
     X now sleep execSync).
Local Abbreviation executeKubectlWait :=
  (executeKubectlWait stringToNumber regexp_test regexp_exec JSONPath JSON_parse
     X now sleep execSync).
Local Abbreviation toNumber := (toNumber stringToNumber).
Local Abbreviation times1000 := (times1000 stringToNumber).

Variable p : WaitPlan.
Variable setVars : value.

(** The condition never becomes true: every poll ends on a path that
    retries. *)
Definition neverSatisfied : Prop :=
  forall env x, fst (fst (pollOnce p setVars env x)) = false.

Definition delay : Z := default 0%Z (times1000 (interval p)).

(** The store and the world after [n] unsuccessful polls, each followed
    by its sleep. *)
Fixpoint after (n : nat) (env : Env) (x : X) : Env * X :=
  match n with
  | O => (env, x)
  | S n' =>
      let r := pollOnce p setVars env x in
      after n' (snd (fst r)) (sleep delay (snd r))
  end.

Lemma pollOnce_world env x :
  snd (pollOnce p setVars env x) = snd (execSync (cmd p) env x).
Proof.
  unfold Core.pollOnce.
  destruct (execSync (cmd p) env x) as [[stdout|m] x']; [|reflexivity].
  repeat (match goal with
          | |- context [if ?c then _ else _] => destruct c
          | |- context [match ?c with _ => _ end] =>
              lazymatch c with
              | context [execSync] => fail
              | _ => destruct c
              end
          end; try reflexivity).
Qed.

Lemma pollOnce_clock env x :
  (now x <= now (snd (pollOnce p setVars env x)))%Z.
Proof. rewrite pollOnce_world. apply execSync_clock. Qed.

Lemma step_clock env x :
  (now x <= now (sleep delay (snd (pollOnce p setVars env x))))%Z /\
  (now x + delay <= now (sleep delay (snd (pollOnce p setVars env x))))%Z.
Proof.
  pose proof (pollOnce_clock env x).
  destruct (sleep_clock delay (snd (pollOnce p setVars env x))). lia.
Qed.

Lemma after_clock n : forall env x, (now x <= now (snd (after n env x)))%Z.
Proof.
  induction n as [|n IH]; intros env x; cbn [after]; [cbn; lia|].
  etransitivity; [apply (step_clock env x)|apply IH].
Qed.

Lemma after_advance n : forall env x,
  (0 <= delay)%Z -> (now x + Z.of_nat n * delay <= now (snd (after n env x)))%Z.
Proof.
  induction n as [|n IH]; intros env x Hd; cbn [after]; [cbn; lia|].
  specialize (IH (snd (fst (pollOnce p setVars env x)))
                 (sleep delay (snd (pollOnce p setVars env x))) Hd).
  pose proof (step_clock env x). lia.
Qed.

Lemma waitLoop_step fuel deadline retryCount env x :
  neverSatisfied ->
  num_lt (Some (now x)) deadline = true ->
  negb (strict_eq_prim (maxRetries p) VUndefined)
  && num_ge (Some retryCount) (toNumber (maxRetries p)) = false ->
  waitLoop (S fuel) p setVars deadline retryCount env x
  = waitLoop fuel p setVars deadline (retryCount + 1)
      (snd (fst (pollOnce p setVars env x)))
      (sleep delay (snd (pollOnce p setVars env x))).
Proof.
  intros Hn Ht Hr. cbn [Core.waitLoop]. rewrite Ht, Hr.
  specialize (Hn env x).
  destruct (pollOnce p setVars env x) as [[b env'] x']. cbn in Hn |- *.
  rewrite Hn. reflexivity.
Qed.

(** The retry ceiling is reached while the deadline is still ahead. *)
Lemma waitLoop_retries d m : forall k retryCount env x,
  neverSatisfied ->
  strict_eq_prim (maxRetries p) VUndefined = false ->
  toNumber (maxRetries p) = Some m ->
  Z.to_nat (m - retryCount) = k ->
  (now (snd (after k env x)) < d)%Z ->
  waitLoop (S k) p setVars (Some d) retryCount env x
  = Some (Throw (retriesExhausted p), fst (after k env x), snd (after k env x)).
Proof.
  induction k as [|k IH]; intros retryCount env x Hn Hu Hm Hk Hd.
  - cbn [after fst snd] in Hd |- *. cbn [Core.waitLoop num_lt].
    replace (now x <? d)%Z with true by (symmetry; apply Z.ltb_lt; lia).
    rewrite Hu, Hm. cbn [negb andb num_ge].
    replace (m <=? retryCount)%Z with true by (symmetry; apply Z.leb_le; lia).
    reflexivity.
  - rewrite waitLoop_step; [|exact Hn| |].
    + cbn [after]. apply IH; try assumption. lia.
    + cbn [num_lt]. apply Z.ltb_lt. pose proof (after_clock (S k) env x). lia.
    + rewrite Hu, Hm. cbn [negb andb num_ge]. apply Z.leb_gt. lia.
Qed.

(** The deadline passes before the retry ceiling, if there is one. *)
Lemma waitLoop_timeout d : forall n retryCount env x,
  neverSatisfied ->
  (d <= now (snd (after n env x)))%Z ->
  (maxRetries p = VUndefined \/
   exists m, toNumber (maxRetries p) = Some m /\ (retryCount + Z.of_nat n <= m)%Z) ->
  exists env' x',
    waitLoop (S n) p setVars (Some d) retryCount env x
    = Some (Throw (timedOut p), env', x') /\ (d <= now x')%Z.
Proof.
  induction n as [|n IH]; intros retryCount env x Hn Hd Hm.
  - cbn [after snd] in Hd. exists env, x. cbn [Core.waitLoop num_lt].
    replace (now x <? d)%Z with false by (symmetry; apply Z.ltb_ge; lia).
    split; [reflexivity|exact Hd].
  - destruct (Z.ltb_spec (now x) d) as [Hlt|Hge].
    + rewrite waitLoop_step; [|exact Hn| |].
      * cbn [after] in Hd. apply IH; try assumption.
        destruct Hm as [Hm|(m & Hm & Hle)]; [left; exact Hm|right].
        exists m. split; [exact Hm|lia].
      * cbn [num_lt]. apply Z.ltb_lt. exact Hlt.
      * destruct Hm as [->|(m & Hm & Hle)]; [reflexivity|].
        rewrite Hm. cbn [num_ge].
        replace (m <=? retryCount)%Z with false by (symmetry; apply Z.leb_gt; lia).
        apply andb_false_r.
    + exists env, x. cbn [Core.waitLoop num_lt].
      replace (now x <? d)%Z with false by (symmetry; apply Z.ltb_ge; lia).
      split; [reflexivity|exact Hge].
Qed.

(** More fuel never changes a result. *)
Lemma waitLoop_fuel fuel : forall fuel' deadline retryCount env x r,
  waitLoop fuel p setVars deadline retryCount env x = Some r ->
  (fuel <= fuel')%nat ->
  waitLoop fuel' p setVars deadline retryCount env x = Some r.
Proof.
  induction fuel as [|fuel IH]; intros fuel' deadline retryCount env x r;
    [discriminate|].
  intros H Hle. destruct fuel' as [|fuel']; [lia|].
  cbn [Core.waitLoop] in H |- *.
  destruct (num_lt (Some (now x)) deadline); [|exact H].
  destruct (negb _ && _); [exact H|].
  destruct (pollOnce p setVars env x) as [[[] env'] x']; [exact H|].
  apply IH; [exact H|lia].
Qed.

Lemma executeKubectlWait_plan fuel config env x t :
  planWait config setVars env = Ok p ->
  times1000 (timeout p) = Some t ->
  executeKubectlWait fuel config setVars env x
  = waitLoop fuel p setVars (Some (now x + t)%Z) 0 env x.
Proof.
  intros Hp Ht. unfold Core.executeKubectlWait. rewrite Hp, Ht. reflexivity.
Qed.

(** C8 (time-out against retry exhaustion). Let the wait test have the
    plan [p] with a numeric time-out of [t] milliseconds, and let its
    condition never become true. If [maxRetries] is configured as [m]
    and the [m]-th retry ends before the deadline, the poller throws
    the retries-exhausted error, having polled exactly [m] times. If
    the deadline has passed after some [n] polls and there is no
    ceiling or the ceiling is at least [n], it throws the time-out
    error; without a ceiling and with a positive interval that always
    happens. The time-out message names the resource, the path and the
    expectation; the other one names the ceiling and the resource. *)
Theorem wait_timeout_or_retries (config : value) (env : Env) (x : X) (t : Z) :
  planWait config setVars env = Ok p ->
  times1000 (timeout p) = Some t ->
  neverSatisfied ->
  let deadline := (now x + t)%Z in
  (forall m,
     maxRetries p <> VUndefined ->
     toNumber (maxRetries p) = Some m ->
     (now (snd (after (Z.to_nat m) env x)) < deadline)%Z ->
     executeKubectlWait (S (Z.to_nat m)) config setVars env x
     = Some (Throw ("Maximum retries (" +:+ toString (maxRetries p)
                    +:+ ") exceeded while waiting for " +:+ resourceDescription p),
             fst (after (Z.to_nat m) env x), snd (after (Z.to_nat m) env x))) /\
  (forall n,
     (deadline <= now (snd (after n env x)))%Z ->
     (maxRetries p = VUndefined \/
      exists m, toNumber (maxRetries p) = Some m /\ (Z.of_nat n <= m)%Z) ->
     exists env' x',
       executeKubectlWait (S n) config setVars env x
       = Some (Throw (timedOut p), env', x') /\ (deadline <= now x')%Z) /\
  (maxRetries p = VUndefined -> (0 < delay)%Z ->
   exists fuel env' x',
     executeKubectlWait fuel config setVars env x
     = Some (Throw (timedOut p), env', x')) /\
  (forall c,
     truthy (jsonPath p) = true ->
     truthy (jsonPathExpectation p) = true ->
     getOpt (jsonPathExpectation p) "comparator" = VStr c ->
     timedOut p
     = "Timed-out (" +:+ toString (timeout p) +:+ "s) waiting for "
       +:+ resourceDescription p +:+ " → " +:+ toString (jsonPath p) +:+ " to "
       +:+ (if truthy (getOpt (jsonPathExpectation p) "negate")
            then "not " +:+ c else c)
       +:+ (if String.eqb c "exists" then ""
            else " " +:+ render (stringify (getOpt (jsonPathExpectation p) "value")))).
Proof.
  intros Hp Ht Hnever deadline.
  split; [|split; [|split]].
  - intros m Hu Hm Hd. rewrite (executeKubectlWait_plan _ _ _ _ _ Hp Ht).
    apply (waitLoop_retries deadline m); try assumption.
    + destruct (maxRetries p); try reflexivity. contradiction.
    + f_equal. lia.
  - intros n Hd Hm. rewrite (executeKubectlWait_plan _ _ _ _ _ Hp Ht).
    apply waitLoop_timeout; assumption.
  - intros Hu Hi.
    set (n := Z.to_nat (Z.max 0 t / delay + 1)).
    assert (Hn : (deadline <= now (snd (after n env x)))%Z).
    { pose proof (after_advance n env x ltac:(lia)) as Ha.
      assert (Z.max 0 t < (Z.max 0 t / delay + 1) * delay)%Z.
      { pose proof (Z.div_mod (Z.max 0 t) delay ltac:(lia)).
        pose proof (Z.mod_pos_bound (Z.max 0 t) delay Hi). nia. }
      assert (0 <= Z.max 0 t / delay)%Z by (apply Z.div_pos; lia).
      unfold n in Ha |- *. rewrite Z2Nat.id in Ha by lia. unfold deadline. lia. }
    destruct (waitLoop_timeout deadline n 0 env x Hnever Hn (or_introl Hu))
      as (env' & x' & Hw & _).
    exists (S n), env', x'.
    rewrite (executeKubectlWait_plan _ _ _ _ _ Hp Ht). exact Hw.
  - intros c Hj He Hc. unfold timedOut. rewrite Hj, He, Hc. cbn [toString is_str].
    destruct (String.eqb c "exists"); reflexivity.
Qed.

End Engine.

End WaitProps.

(** ** The properties at work on the simulated world *)

Module Examples.
Import Core Runner.

(** A batch whose second test fails after one retry. *)
Definition batch : value :=
  VArr ([Sim.httpTest "a" 200 0] ++ Sim.httpTest "b" 404 1 :: [Sim.httpTest "c" 200 0]).

Definition failed_b : TestResult :=
  mkTestResult (VStr "b") false
    (Some "Status code mismatch: expected 404, got 200") 520 2 false.

Lemma runTests_fail_fast_witness :
  exists rr,
    Sim.runTests batch (∅, 0%Z) = (Ok rr, (∅, 530%Z)) /\
    total rr = 3%nat /\ n_passed rr = 1%nat /\ n_failed rr = 1%nat /\
    n_skipped rr = 1%nat /\
    (forall j x, results rr !! j = Some x -> (1 < j)%nat ->
                 skipped x = true /\ passed x = false /\ attempts x = 0%Z).
Proof.
  destruct (RunnerProps.runTests_fail_fast
              Sim.runnerExecuteTest Sim.runnerNow Sim.runnerPause
              [Sim.httpTest "a" 200 0] [Sim.httpTest "c" 200 0] (Sim.httpTest "b" 404 1)
              (∅, 0%Z) (∅, 10%Z) (∅, 530%Z) failed_b)
    as (rr & Hrun & Ht & Hp & Hf & Hs & _ & _ & Hskip).
  - eapply RunnerProps.AllPass_cons; [vm_compute; reflexivity|reflexivity|].
    apply RunnerProps.AllPass_nil.
  - vm_compute. reflexivity.
  - reflexivity.
  - repeat constructor.
  - exists rr. repeat split; try assumption; apply (Hskip j x); assumption.
Defined.

Definition batch_result : RunResult :=
  match fst (Sim.runTests batch (∅, 0%Z)) with
  | Ok rr => rr
  | Throw _ => mkRunResult 0 0 0 0 []
  end.

Lemma runTests_accounting_witness :
  (n_passed batch_result + n_failed batch_result + n_skipped batch_result
   = total batch_result)%nat /\
  length (results batch_result) = total batch_result.
Proof.
  destruct (RunnerProps.runTests_accounting
              Sim.runnerExecuteTest Sim.runnerNow Sim.runnerPause
              batch (∅, 0%Z) (∅, 530%Z) batch_result)
    as (defs & _ & _ & _ & Hsum & Hlen & _).
  - vm_compute. reflexivity.
  - split; assumption.
Defined.

Definition lessThan3 : value :=
  VObj [("comparator", VStr "lessThan"); ("value", VNum 3)].




Definition ab : list (string * value) := [("a", VNum 1); ("b", VArr [VNum 2])].
Definition ba : list (string * value) := [("b", VArr [VNum 2]); ("a", VNum 1)].

Lemma deepCompare_structural_witness :
  (forall k, k ∈ keys ab <-> k ∈ keys ba) /\
  deepCompare (VArr [VNum 2]) (VArr [VNum 2]) = true.
Proof.
  destruct (proj1 (proj1 (proj2 (proj2 DeepCompareProps.deepCompare_structural))
                     ab ba
                     ltac:(apply (bool_decide_unpack _); vm_compute; reflexivity)
                     ltac:(apply (bool_decide_unpack _); vm_compute; reflexivity))
              eq_refl) as [Hk Hv].
  split; [exact Hk|]. apply (Hv "b"); reflexivity.
Defined.



Definition response42 : value :=
  VObj [("statusCode", VNum 200); ("headers", VObj []);
        ("body", VObj [("id", VNum 42)])].


(** A wait for the pod to be Running, with the given time-out and
    polling options. *)
Definition waitConfig (polling : list (string * value)) : value :=
  VObj [("target", VObj [("kind", VStr "Pod");
                         ("metadata", VObj [("namespace", VStr "ns");
                                            ("name", VStr "web")])]);
        ("jsonPath", VStr "$.status.phase");
        ("jsonPathExpectation",
         VObj [("comparator", VStr "equals"); ("value", VStr "Running")]);
        ("polling", VObj polling)].

Definition plan (polling : list (string * value)) : WaitPlan :=
  mkWaitPlan "kubectl  -n ns get pod web -o json" (VStr "$.status.phase")
    (VObj [("comparator", VStr "equals"); ("value", VStr "Running")])
    (nullish_or (getOpt (VObj polling) "timeoutSeconds") (VNum 60))
    (nullish_or (getOpt (VObj polling) "intervalSeconds") (VNum 2))
    (getOpt (VObj polling) "maxRetries")
    "Pod/ns/web".

Definition pendingWait (fuel : nat) (polling : list (string * value)) :=
  executeKubectlWait Sim.stringToNumber MiniRegExp.test MiniRegExp.exec
    MiniJSONPath.eval Sim.JSON_parse Sim.X Sim.now Sim.sleep (Sim.execSync "Pending")
    fuel (waitConfig polling) VUndefined ∅ 0%Z.

Lemma sim_sleep_clock ms x :
  (Sim.now x <= Sim.now (Sim.sleep ms x))%Z /\
  (Sim.now x + ms <= Sim.now (Sim.sleep ms x))%Z.
Proof. unfold Sim.now, Sim.sleep. lia. Defined.

Lemma sim_execSync_clock phase cmd (env : Env) x :
  (Sim.now x <= Sim.now (snd (Sim.execSync phase cmd env x)))%Z.
Proof. unfold Sim.now, Sim.execSync. cbn. lia. Defined.

Lemma wait_timeout_or_retries_witness :
  pendingWait 3 [("timeoutSeconds", VNum 60); ("maxRetries", VNum 2)]
  = Some (Throw "Maximum retries (2) exceeded while waiting for Pod/ns/web",
          ∅, 4000%Z) /\
  exists env' x',
    pendingWait 5 [("timeoutSeconds", VNum 4); ("intervalSeconds", VNum 1)]
    = Some (Throw (timedOut (plan [("timeoutSeconds", VNum 4);
                                   ("intervalSeconds", VNum 1)])), env', x') /\
    (4000 <= Sim.now x')%Z.
Proof.
  split.
  - apply (proj1 (WaitProps.wait_timeout_or_retries
                    Sim.stringToNumber MiniRegExp.test MiniRegExp.exec
                    MiniJSONPath.eval Sim.JSON_parse Sim.X Sim.now Sim.sleep
                    (Sim.execSync "Pending") sim_sleep_clock
                    (sim_execSync_clock "Pending")
                    (plan [("timeoutSeconds", VNum 60); ("maxRetries", VNum 2)])
                    VUndefined
                    (waitConfig [("timeoutSeconds", VNum 60); ("maxRetries", VNum 2)])
                    ∅ 0%Z 60000%Z eq_refl eq_refl
                    (fun env x => eq_refl)) 2%Z);
      [discriminate|reflexivity|vm_compute; reflexivity].
  - apply (proj1 (proj2 (WaitProps.wait_timeout_or_retries
                    Sim.stringToNumber MiniRegExp.test MiniRegExp.exec
                    MiniJSONPath.eval Sim.JSON_parse Sim.X Sim.now Sim.sleep
                    (Sim.execSync "Pending") sim_sleep_clock
                    (sim_execSync_clock "Pending")
                    (plan [("timeoutSeconds", VNum 4); ("intervalSeconds", VNum 1)])
                    VUndefined
                    (waitConfig [("timeoutSeconds", VNum 4); ("intervalSeconds", VNum 1)])
                    ∅ 0%Z 4000%Z eq_refl eq_refl
                    (fun env x => eq_refl))) 4%nat);
      [vm_compute; discriminate|left; reflexivity].
Defined.

Lemma dispatch_first_present_kind_witness :
  Sim.executeTest 1 "Running" (VObj []) "hello" DispatchProps.twoKinds ∅ 0%Z
  = Some (executeHttpTest Sim.stringToNumber MiniRegExp.test MiniRegExp.exec
            MiniJSONPath.eval Sim.JSON_parse Sim.X (Sim.httpRequest 200 (VObj []))
            DispatchProps.twoKinds ∅ 0%Z).
Proof.
  apply (proj1 (proj2 (DispatchProps.dispatch_first_present_kind
                         Sim.stringToNumber MiniRegExp.test MiniRegExp.exec
                         MiniJSONPath.eval Sim.JSON_parse Sim.X Sim.now Sim.sleep
                         (Sim.execSync "Running") (Sim.httpRequest 200 (VObj []))
                         (Sim.runCommand "hello") Sim.executeHttpBodyComparisonTest
                         1 DispatchProps.twoKinds ∅ 0%Z (conj eq_refl eq_refl)))).
  reflexivity.
Defined.

(** An HTTP test that captures the body but validates nothing. *)
Definition captureWithoutExpect : value :=
  VObj [("http", VObj [("url", VStr "http://svc"); ("path", VStr "/health")]);
        ("source", VObj [("type", VStr "local")]);
        ("setVars", VObj [("TOKEN", VObj [("body", VBool true)])])].

Lemma setVars_requires_expect_witness :
  Sim.executeTest 1 "Running" (VObj []) "" captureWithoutExpect ∅ 0%Z
  = Some (Throw setVarsNeedsExpect, ∅, 0%Z).
Proof.
  apply (proj1 (DispatchProps.setVars_requires_expect
                  Sim.stringToNumber MiniRegExp.test MiniRegExp.exec
                  MiniJSONPath.eval Sim.JSON_parse Sim.X Sim.now Sim.sleep
                  (Sim.execSync "Running") (Sim.httpRequest 200 (VObj []))
                  (Sim.runCommand "") Sim.executeHttpBodyComparisonTest));
    [split; reflexivity|left; reflexivity|reflexivity|reflexivity].
Defined.

End Examples.

(** * Further properties of the batch runner *)

Module RunnerFacts.
Import Runner.

Section WithWorld.

Context {World : Type}.
Variable executeTest : value -> World -> res bool * World.
Variable now : World -> Z.
Variable pause : World -> World.

Local Abbreviation runSingleTest := (runSingleTest World executeTest now pause).
Local Abbreviation attemptLoop := (attemptLoop World executeTest now pause).
Local Abbreviation runLoop := (runLoop World executeTest now pause).
Local Abbreviation runTests := (runTests World executeTest now pause).
Local Abbreviation AllPass := (RunnerProps.AllPass executeTest now pause).

(** The three shapes of an outcome. *)
Definition isPassed (r : TestResult) : Prop := passed r = true /\ skipped r = false.
Definition isFailed (r : TestResult) : Prop := passed r = false /\ skipped r = false.
Definition isSkipped (r : TestResult) : Prop := passed r = false /\ skipped r = true.

(** The outcomes of a run are passed ones, then possibly one failed one
    followed by skipped ones only. *)
Inductive FailFast : list TestResult -> Prop :=
  | FailFast_done : FailFast []
  | FailFast_pass r rs : isPassed r -> FailFast rs -> FailFast (r :: rs)
  | FailFast_fail r rs : isFailed r -> Forall isSkipped rs -> FailFast (r :: rs).

Lemma runLoop_FailFast defs : forall i w rs w',
  runLoop i defs w = (Ok rs, w') -> FailFast rs.
Proof.
  induction defs as [|d defs IH]; intros i w rs w'; cbn [Runner.runLoop].
  - intros [= <- <-]. constructor.
  - unfold normaliseDefinition.
    destruct (runSingleTest d i w) as [[r|m] w1] eqn:E1; [|discriminate].
    destruct (RunnerProps.runSingleTest_Ok _ _ _ _ _ _ _ _ E1) as [Hs _].
    destruct (passed r) eqn:Hp; cbn [negb].
    + destruct (runLoop (S i) defs w1) as [[rs'|m] w2] eqn:Er; [|discriminate].
      intros [= <- <-]. apply FailFast_pass; [split; assumption|eauto].
    + destruct (skipRest (S i) defs) as [rs'|m] eqn:Er; cbn; [|discriminate].
      intros [= <- <-]. apply FailFast_fail; [split; assumption|].
      destruct (RunnerProps.skipRest_spec _ _ _ Er) as (_ & Hf & _).
      eapply Forall_impl; [exact Hf|]. intros x (? & ? & _). split; assumption.
Qed.

Lemma count_skipped_only f (rs : list TestResult) :
  (forall r, isSkipped r -> f r = false) ->
  Forall isSkipped rs -> count f rs = 0%nat.
Proof.
  intros Hf H. apply RunnerProps.count_none.
  eapply Forall_impl; [exact H|]. intros x Hx. apply Hf, Hx.
Qed.

Lemma FailFast_counts rs :
  FailFast rs ->
  (count (fun r => negb (passed r) && negb (skipped r)) rs <= 1)%nat /\
  (0 < count (fun r => skipped r) rs ->
   count (fun r => negb (passed r) && negb (skipped r)) rs = 1)%nat /\
  (count (fun r => negb (passed r) && negb (skipped r)) rs = 0 ->
   count (fun r => passed r) rs = length rs)%nat.
Proof.
  induction 1 as [|r rs [Hp Hs] _ IH|r rs [Hp Hs] Hsk].
  - cbn. repeat split; lia.
  - unfold count in *. cbn [List.filter]. rewrite Hp, Hs. cbn [negb andb length].
    destruct IH as (IH1 & IH2 & IH3). repeat split; try lia; auto.
  - assert (H1 : count (fun r => negb (passed r) && negb (skipped r)) rs = 0%nat).
    { apply count_skipped_only; [|exact Hsk]. intros x [-> ->]. reflexivity. }
    unfold count in *. cbn [List.filter]. rewrite Hp, Hs. cbn [negb andb length].
    rewrite H1. repeat split; try lia.
Qed.

(** X1. A run that returns a result reports at most one failed test; it
    reports skipped tests only when it reports a failed one; and when
    it reports no failure every test of the batch passed. *)
Theorem runTests_at_most_one_failure
    (parsed : value) (w w' : World) (rr : RunResult) :
  runTests parsed w = (Ok rr, w') ->
  (n_failed rr <= 1)%nat /\
  (0 < n_skipped rr -> n_failed rr = 1)%nat /\
  (n_failed rr = 0 -> n_passed rr = total rr)%nat /\
  FailFast (results rr).
Proof.
  unfold Runner.runTests.
  destruct (parseTestDefinitions parsed) as [defs|m] eqn:Ep; [|discriminate].
  destruct (runLoop 0 defs w) as [[rs|m] w1] eqn:El; [|discriminate].
  intros [= <- <-]. cbn [n_failed n_skipped n_passed total results].
  pose proof (runLoop_FailFast _ _ _ _ _ El) as Hff.
  destruct (FailFast_counts rs Hff) as (H1 & H2 & H3).
  destruct (RunnerProps.runLoop_spec _ _ _ _ _ _ _ _ El) as (Hlen & _ & _).
  repeat split; try assumption. intros H. rewrite H3 by exact H. exact Hlen.
Qed.

Lemma runLoop_all_pass defs : forall i w w',
  AllPass i defs w w' ->
  exists rs, runLoop i defs w = (Ok rs, w') /\
             length rs = length defs /\ Forall isPassed rs.
Proof.
  induction defs as [|d defs IH]; intros i w w' H; inversion H; subst.
  - exists []. repeat split. constructor.
  - match goal with
    | Hr : runSingleTest d i w = (Ok ?r, ?w1), Hp : passed ?r = true,
      Ha : AllPass (S i) defs ?w1 w' |- _ =>
        destruct (IH _ _ _ Ha) as (rs & Hrs & Hlen & Hall);
        exists (r :: rs); cbn [Runner.runLoop]; unfold normaliseDefinition;
        rewrite Hr, Hp; cbn [negb]; rewrite Hrs;
        destruct (RunnerProps.runSingleTest_Ok _ _ _ _ _ _ _ _ Hr) as [Hs _];
        repeat split; [cbn; lia|constructor; [split; assumption|exact Hall]]
    end.
Qed.

(** X2. When every definition of a non-empty batch passes, the runner
    reports all of them passed, none failed and none skipped, one
    passed outcome per definition, and leaves the world the last test
    left. *)
Theorem runTests_all_pass (defs : list value) (w w' : World) :
  defs <> [] ->
  AllPass 0 defs w w' ->
  exists rr,
    runTests (VArr defs) w = (Ok rr, w') /\
    total rr = length defs /\ n_passed rr = length defs /\
    n_failed rr = 0%nat /\ n_skipped rr = 0%nat /\
    Forall isPassed (results rr).
Proof.
  intros Hne Hall. destruct (runLoop_all_pass _ _ _ _ Hall) as (rs & Hrs & Hlen & Hp).
  unfold Runner.runTests, parseTestDefinitions. cbn [truthy typeof negb orb].
  change (String.eqb "object" "object") with true. cbn [negb orb].
  destruct defs as [|d defs]; [contradiction|]. cbn [length Nat.eqb].
  rewrite Hrs. eexists. split; [reflexivity|].
  cbn [total n_passed n_failed n_skipped results].
  repeat split; try exact Hp.
  - rewrite RunnerProps.count_all; [exact Hlen|].
    eapply Forall_impl; [exact Hp|]. intros x [? ?]; assumption.
  - apply RunnerProps.count_none.
    eapply Forall_impl; [exact Hp|]. intros x [-> ?]; reflexivity.
  - apply RunnerProps.count_none.
    eapply Forall_impl; [exact Hp|]. intros x [? ?]; assumption.
Qed.

(** The number of retries the runner reads off a definition. *)
Definition retriesOf (def : value) : Z :=
  match getOpt def "retries" with VNum n => n | _ => 0%Z end.

Lemma attemptLoop_bounds def nm retries start n : forall attempt lastError w r w',
  attemptLoop def nm retries start n attempt lastError w = (r, w') ->
  (attempt + Z.of_nat n = retries + 1)%Z ->
  (passed r = true ->
   (attempt + 1 <= attempts r <= retries + 1)%Z /\ error r = None) /\
  (passed r = false ->
   attempts r = (retries + 1)%Z /\
   (n = O \/
    exists msg w1 w2, executeTest def w1 = (Throw msg, w2) /\ error r = Some msg)).
Proof.
  induction n as [|n IH]; intros attempt lastError w r w'; cbn [Runner.attemptLoop].
  - intros [= <- <-] Hn. cbn. split; [discriminate|]. intros _. auto.
  - destruct (executeTest def w) as [[b|msg] w1] eqn:He.
    + intros [= <- <-] Hn. cbn. split; [|discriminate]. intros _. split; [lia|reflexivity].
    + intros Hl Hn. destruct (IH _ _ _ _ _ Hl ltac:(lia)) as [Hp Hf]. split.
      * intros H. destruct (Hp H) as [Hb He']. split; [lia|exact He'].
      * intros H. destruct (Hf H) as [Ha [->|Hex]]; (split; [exact Ha|right]);
          [|exact Hex].
        cbn [Runner.attemptLoop] in Hl. injection Hl as <- _. cbn. eauto.
Qed.

(** X3. Retry accounting. With a retry count of [n >= 0] (a value of
    [retries] that is not a number counts as 0), a test that passes
    reports between 1 and [n + 1] attempts and no error; a test that
    fails reports exactly [n + 1] attempts and the message of a
    rejected attempt as its error. *)
Theorem runSingleTest_attempts
    (def : value) (i : nat) (w w' : World) (r : TestResult) :
  runSingleTest def i w = (Ok r, w') ->
  (0 <= retriesOf def)%Z ->
  (passed r = true ->
   (1 <= attempts r <= retriesOf def + 1)%Z /\ error r = None) /\
  (passed r = false ->
   attempts r = (retriesOf def + 1)%Z /\
   exists msg w1 w2, executeTest def w1 = (Throw msg, w2) /\ error r = Some msg).
Proof.
  unfold Runner.runSingleTest, retriesOf.
  destruct (getProp def "retries") as [rv|m] eqn:Hr; [|discriminate].
  assert (Hrv : getOpt def "retries" = rv).
  { destruct def; cbn in Hr |- *; congruence. }
  rewrite Hrv. set (n := match rv with VNum n => n | _ => 0%Z end).
  destruct (testName def i) as [nm|m]; [|discriminate].
  destruct (attemptLoop _ _ _ _ _ _ _ _) as [tr w1] eqn:E.
  intros [= <- <-] Hn.
  destruct (attemptLoop_bounds _ _ _ _ _ _ _ _ _ _ E ltac:(lia)) as [Hp Hf].
  split; [exact Hp|]. intros H.
  destruct (Hf H) as [Ha [H0|Hex]]; [lia|split; assumption].
Qed.

(** X4. A definition with a negative retry count is never executed: it
    is reported failed with the error "Unknown error", and the world is
    left untouched. *)
Theorem runSingleTest_negative_retries
    (kvs : list (string * value)) (i : nat) (w : World) (n : Z) :
  assoc "retries" kvs = Some (VNum n) ->
  (n < 0)%Z ->
  exists r,
    runSingleTest (VObj kvs) i w = (Ok r, w) /\
    passed r = false /\ skipped r = false /\
    error r = Some "Unknown error" /\ attempts r = (n + 1)%Z /\ durationMs r = 0%Z.
Proof.
  intros Hr Hn. unfold Runner.runSingleTest. cbn [getProp]. rewrite Hr.
  change (default VUndefined (Some (VNum n))) with (VNum n).
  assert (exists nm, testName (VObj kvs) i = Ok nm) as [nm ->].
  { unfold testName. cbn.
    repeat (match goal with |- context [if ?c then _ else _] => destruct c end; cbn);
      eauto. }
  replace (Z.to_nat (n + 1)) with O by lia. cbn [Runner.attemptLoop].
  eexists. split; [reflexivity|]. cbn. repeat split. lia.
Qed.

End WithWorld.

End RunnerFacts.

(** * Further properties of deep comparison *)

Module DeepCompareFacts.
Import Core DeepCompareProps.

Lemma wf_elem xs x : wf (VArr xs) -> x ∈ xs -> wf x.
Proof. rewrite wf_arr, Forall_forall. auto. Qed.

Lemma wf_member kvs k v : wf (VObj kvs) -> assoc k kvs = Some v -> wf v.
Proof.
  rewrite wf_obj, Forall_forall. intros [_ H] Ha.
  apply assoc_Some_elem in Ha. exact (H _ Ha).
Qed.

Lemma wf_keys kvs : wf (VObj kvs) -> NoDup (keys kvs).
Proof. rewrite wf_obj. tauto. Qed.

Lemma deepCompare_mixed_false a b :
  isPrimitive a = false -> isPrimitive b = false ->
  isArray a <> isArray b -> deepCompare a b = false.
Proof. destruct a, b; cbn; intros; try discriminate; try reflexivity; congruence. Qed.

Lemma deepCompare_arrays xs ys :
  deepCompare (VArr xs) (VArr ys) = true <->
  length xs = length ys /\
  forall i x y, xs !! i = Some x -> ys !! i = Some y -> deepCompare x y = true.
Proof.
  rewrite deepCompare_arr, andb_true_iff, Nat.eqb_eq. split.
  - intros [Hl He]. split; [exact Hl|]. apply elems_spec; assumption.
  - intros [Hl He]. split; [exact Hl|]. apply elems_spec; assumption.
Qed.

Lemma lookup_wf xs i x : wf (VArr xs) -> xs !! i = Some x -> wf x.
Proof. intros H Hx. eapply wf_elem; [exact H|]. eapply list_elem_of_lookup_2, Hx. Qed.

Lemma deepCompare_sym_true a : forall b,
  wf a -> wf b -> deepCompare a b = true -> deepCompare b a = true.
Proof.
  induction a as [| |x|n|s|xs IH|kvs IH] using value_nested_ind; intros b Ha Hb H;
    try (apply deepCompare_primitive in H; [|left; reflexivity]; subst b;
         apply deepCompare_primitive; [left; reflexivity|reflexivity]).
  - destruct b as [| |y|m|t|ys|kvs2];
      try (apply deepCompare_primitive in H; [discriminate|right; reflexivity]);
      [|discriminate].
    apply deepCompare_arrays in H as [Hlen Hel]. apply deepCompare_arrays.
    split; [congruence|].
    intros i y x Hy Hx. rewrite Forall_forall in IH.
    apply (IH x (list_elem_of_lookup_2 _ _ _ Hx) y
             (lookup_wf _ _ _ Ha Hx) (lookup_wf _ _ _ Hb Hy) (Hel i x y Hx Hy)).
  - destruct b as [| |y|m|t|ys|kvs2];
      try (apply deepCompare_primitive in H; [discriminate|right; reflexivity]);
      [discriminate|].
    pose proof (wf_keys _ Ha) as Hn1. pose proof (wf_keys _ Hb) as Hn2.
    apply deepCompare_objects in H as [Hk Hv]; [|assumption..].
    apply deepCompare_objects; [assumption..|]. split.
    + intros k. symmetry. apply Hk.
    + intros k v2 v1 H2 H1. rewrite Forall_forall in IH.
      apply (IH (k, v1) (assoc_Some_elem _ _ _ H1) v2
               (wf_member _ _ _ Ha H1) (wf_member _ _ _ Hb H2) (Hv k v1 v2 H1 H2)).
Qed.

(** X5. Deep comparison is reflexive and symmetric on well-formed
    values (no key twice in an object): a value equals itself, and the
    order of the two arguments does not matter. *)
Theorem deepCompare_refl_sym (a b : value) :
  wf a -> wf b ->
  deepCompare a a = true /\ deepCompare a b = deepCompare b a.
Proof.
  intros Ha Hb. split; [apply deepCompare_refl, Ha|].
  apply eq_true_iff_eq. split; apply deepCompare_sym_true; assumption.
Qed.

(** X6. Deep comparison is transitive on well-formed values. *)
Theorem deepCompare_trans (a : value) : forall b c,
  wf a -> wf b -> wf c ->
  deepCompare a b = true -> deepCompare b c = true -> deepCompare a c = true.
Proof.
  induction a as [| |x|n|s|xs IH|kvs IH] using value_nested_ind;
    intros b c Ha Hb Hc H1 H2;
    try (apply deepCompare_primitive in H1; [|left; reflexivity]; subst b; exact H2).
  - destruct b as [| |y|m|t|ys|kvs2];
      try (apply deepCompare_primitive in H1; [discriminate|right; reflexivity]);
      [|discriminate].
    destruct c as [| |z|m|t|zs|kvs3];
      try (apply deepCompare_primitive in H2; [discriminate|right; reflexivity]);
      [|discriminate].
    apply deepCompare_arrays in H1 as [Hl1 He1].
    apply deepCompare_arrays in H2 as [Hl2 He2].
    apply deepCompare_arrays. split; [congruence|].
    intros i x z Hx Hz.
    destruct (ys !! i) as [y|] eqn:Hy.
    + rewrite Forall_forall in IH.
      apply (IH x (list_elem_of_lookup_2 _ _ _ Hx) y z
               (lookup_wf _ _ _ Ha Hx) (lookup_wf _ _ _ Hb Hy) (lookup_wf _ _ _ Hc Hz)
               (He1 i x y Hx Hy) (He2 i y z Hy Hz)).
    + apply lookup_ge_None in Hy. apply lookup_lt_Some in Hx. lia.
  - destruct b as [| |y|m|t|ys|kvs2];
      try (apply deepCompare_primitive in H1; [discriminate|right; reflexivity]);
      [discriminate|].
    destruct c as [| |z|m|t|zs|kvs3];
      try (apply deepCompare_primitive in H2; [discriminate|right; reflexivity]);
      [discriminate|].
    pose proof (wf_keys _ Ha) as Hn1. pose proof (wf_keys _ Hb) as Hn2.
    pose proof (wf_keys _ Hc) as Hn3.
    apply deepCompare_objects in H1 as [Hk1 Hv1]; [|assumption..].
    apply deepCompare_objects in H2 as [Hk2 Hv2]; [|assumption..].
    apply deepCompare_objects; [assumption..|]. split.
    + intros k. rewrite Hk1. apply Hk2.
    + intros k v1 v3 Hx Hz.
      assert (is_Some (assoc k kvs2)) as [v2 Hy].
      { apply assoc_is_Some, Hk1, assoc_is_Some. eauto. }
      rewrite Forall_forall in IH.
      apply (IH (k, v1) (assoc_Some_elem _ _ _ Hx) v2 v3
               (wf_member _ _ _ Ha Hx) (wf_member _ _ _ Hb Hy) (wf_member _ _ _ Hc Hz)
               (Hv1 k v1 v2 Hx Hy) (Hv2 k v2 v3 Hy Hz)).
Qed.

Lemma assoc_Permutation k kvs kvs' :
  NoDup (keys kvs) -> kvs ≡ₚ kvs' -> assoc k kvs' = assoc k kvs.
Proof.
  intros Hnd Hp.
  assert (Hnd' : NoDup (keys kvs')).
  { unfold keys in *. rewrite <- Hp. exact Hnd. }
  destruct (assoc k kvs) as [v|] eqn:E.
  - apply assoc_NoDup; [exact Hnd'|]. rewrite <- Hp. apply assoc_Some_elem, E.
  - destruct (assoc k kvs') as [v'|] eqn:E'; [|reflexivity].
    apply assoc_Some_elem in E'. rewrite <- Hp in E'.
    apply assoc_NoDup in E'; [congruence|exact Hnd].
Qed.

(** X7. The order of the keys of an object does not matter: a
    well-formed object compares equal to every reordering of its
    entries. *)
Theorem deepCompare_key_order (kvs kvs' : list (string * value)) :
  wf (VObj kvs) -> kvs ≡ₚ kvs' ->
  deepCompare (VObj kvs) (VObj kvs') = true.
Proof.
  intros Hwf Hp. pose proof (wf_keys _ Hwf) as Hnd.
  assert (Hnd' : NoDup (keys kvs')).
  { unfold keys in *. rewrite <- Hp. exact Hnd. }
  apply deepCompare_objects; [assumption..|]. split.
  - intros k. unfold keys. rewrite Hp. reflexivity.
  - intros k v1 v2 H1 H2. rewrite (assoc_Permutation k kvs kvs' Hnd Hp), H1 in H2.
    injection H2 as <-. apply deepCompare_refl. eapply wf_member; eauto.
Qed.

End DeepCompareFacts.

(** * Further properties of the comparator engine *)

Module ComparatorFacts.
Import Core.

Lemma append_cons c a b : String c a +:+ b = String c (a +:+ b).
Proof. reflexivity. Qed.

Lemma append_nil b : "" +:+ b = b.
Proof. reflexivity. Qed.

Lemma prefix_spec a : forall b,
  String.prefix a b = true <-> exists post, b = a +:+ post.
Proof.
  induction a as [|c a IH]; intros b.
  - split; [intros _; exists b; reflexivity|]. intros _. destruct b; reflexivity.
  - destruct b as [|d b]; cbn;
      [split; [discriminate|intros [post H]; discriminate]|].
    destruct (ascii_dec c d) as [->|Hne].
    + rewrite IH. split; intros [post H]; exists post;
        rewrite append_cons in *; congruence.
    + split; [discriminate|]. intros [post H]. rewrite append_cons in H. congruence.
Qed.

(** [includes] is the substring test. *)
Lemma includes_spec needle : forall hay,
  includes needle hay = true <->
  exists pre post, hay = pre +:+ needle +:+ post.
Proof.
  induction hay as [|c hay IH]; cbn [includes].
  - rewrite orb_false_r, prefix_spec. split.
    + intros [post H]. exists "", post. exact H.
    + intros (pre & post & H). destruct pre; [exists post; exact H|].
      rewrite append_cons in H. discriminate.
  - rewrite orb_true_iff, prefix_spec, IH. split.
    + intros [[post H]|(pre & post & H)].
      * exists "", post. exact H.
      * exists (String c pre), post. rewrite append_cons. congruence.
    + intros ([|d pre] & post & H).
      * left. exists post. exact H.
      * right. exists pre, post. rewrite append_cons in H. congruence.
Qed.

Section Engine.

Variable stringToNumber : string -> option Z.
Variable regexp_test : string -> string -> res bool.

Local Abbreviation compareValue := (compareValue stringToNumber regexp_test).

(** X8. The [contains] comparator is the substring test on text: on an
    actual value with the textual rendering [text] it passes exactly
    when [String(value)] occurs as a contiguous substring of [text],
    and under [negate] exactly when it does not. *)
Theorem contains_is_substring
    (actual comparison : value) (description text : string) :
  getOpt comparison "comparator" = VStr "contains" ->
  asText actual = Some text ->
  let needle := toString (getOpt comparison "value") in
  let occurs := exists pre post, text = pre +:+ needle +:+ post in
  isOk (compareValue actual comparison description) = true <->
  (if truthy (getOpt comparison "negate") then ~ occurs else occurs).
Proof.
  intros Hc Ht needle occurs.
  assert (Hp : forall k, getProp comparison k = Ok (getOpt comparison k)).
  { intros k. destruct comparison; cbn in Hc |- *; try discriminate; reflexivity. }
  unfold Core.compareValue, rawCompare. rewrite !Hp, Hc. cbn [mbind res_bind is_str].
  change (String.eqb "contains" "exists") with false.
  change (String.eqb "contains" "equals") with false.
  change (String.eqb "contains" "contains") with true.
  cbn iota. rewrite Ht. cbn [mbind res_bind]. fold needle.
  pose proof (includes_spec needle text) as Hi. fold occurs in Hi.
  destruct (truthy (getOpt comparison "negate")), (includes needle text);
    cbn [negb isOk].
  - split; [discriminate|]. intros H. exfalso. apply H, Hi. reflexivity.
  - split; [|reflexivity]. intros _ Ho. apply Hi in Ho. discriminate.
  - split; [|reflexivity]. intros _. apply Hi. reflexivity.
  - split; [discriminate|]. intros H. apply Hi in H. discriminate.
Qed.

Definition knownComparator (c : value) : bool :=
  is_str c "exists" || is_str c "equals" || is_str c "contains"
  || is_str c "matches" || is_str c "greaterThan" || is_str c "lessThan".

(** X9. A comparator that is not one of the six known names is never
    treated as a failed or as a passed comparison: whatever [negate]
    and the values are, the call throws "Unknown comparator: <name>". *)
Theorem unknown_comparator_throws
    (actual comparison c : value) (description : string) :
  getProp comparison "comparator" = Ok c ->
  knownComparator c = false ->
  compareValue actual comparison description
  = Throw ("Unknown comparator: " +:+ toString c).
Proof.
  intros Hc Hk. unfold knownComparator in Hk.
  repeat (apply orb_false_iff in Hk as [Hk ?]).
  assert (Hp : forall k, getProp comparison k = Ok (getOpt comparison k)).
  { intros k. destruct comparison; cbn in Hc |- *; try discriminate; reflexivity. }
  unfold Core.compareValue, rawCompare. rewrite Hc. cbn [mbind res_bind].
  rewrite (Hp "value"). cbn [mbind res_bind].
  repeat match goal with H : is_str c _ = false |- _ => rewrite H; clear H end.
  reflexivity.
Qed.

Lemma isOk_greaterThan a b negate d :
  isOk (compareValue a (comparison "greaterThan" b negate) d)
  = (if truthy negate
     then negb (num_gt (toNumber stringToNumber a) (toNumber stringToNumber b))
     else num_gt (toNumber stringToNumber a) (toNumber stringToNumber b)).
Proof.
  unfold Core.compareValue, rawCompare, comparison.
  cbn [getProp assoc default mbind res_bind is_str].
  cbn -[toNumber toString stringify asText String.append num_gt].
  destruct (truthy negate), (num_gt _ _); reflexivity.
Qed.

Lemma isOk_lessThan a b negate d :
  isOk (compareValue a (comparison "lessThan" b negate) d)
  = (if truthy negate
     then negb (num_lt (toNumber stringToNumber a) (toNumber stringToNumber b))
     else num_lt (toNumber stringToNumber a) (toNumber stringToNumber b)).
Proof.
  unfold Core.compareValue, rawCompare, comparison.
  cbn [getProp assoc default mbind res_bind is_str].
  cbn -[toNumber toString stringify asText String.append num_lt].
  destruct (truthy negate), (num_lt _ _); reflexivity.
Qed.

(** X10. The two numeric comparators mirror each other: [a greaterThan
    b] has the outcome of [b lessThan a], and without negation the
    same pair never satisfies both [greaterThan] and [lessThan]; when
    either side is not a number ([NaN]) both fail, and both pass under
    negation. *)
Theorem numeric_comparators_mirror (a b negate : value) (d1 d2 : string) :
  isOk (compareValue a (comparison "greaterThan" b negate) d1)
  = isOk (compareValue b (comparison "lessThan" a negate) d2) /\
  (truthy negate = false ->
   isOk (compareValue a (comparison "greaterThan" b negate) d1) = true ->
   isOk (compareValue a (comparison "lessThan" b negate) d2) = false) /\
  (toNumber stringToNumber a = None \/ toNumber stringToNumber b = None ->
   isOk (compareValue a (comparison "greaterThan" b negate) d1) = truthy negate /\
   isOk (compareValue a (comparison "lessThan" b negate) d2) = truthy negate).
Proof.
  rewrite !isOk_greaterThan, !isOk_lessThan.
  destruct (toNumber stringToNumber a) as [x|], (toNumber stringToNumber b) as [y|];
    cbn [num_gt num_lt]; destruct (truthy negate); cbn [negb];
    repeat split; try reflexivity; try discriminate;
    try (intros [?|?]; discriminate);
    try (match goal with H : _ \/ _ |- _ => destruct H; discriminate end).
  intros _ H. apply Z.ltb_lt in H. apply Z.ltb_ge. lia.
Qed.

End Engine.

End ComparatorFacts.

(** * Further properties of setVars extraction *)

Module SetVarsFacts.
Import Core.

Lemma trimEnd_idem s : trimEnd (trimEnd s) = trimEnd s.
Proof.
  induction s as [|c r IH]; [reflexivity|]. cbn [trimEnd].
  destruct (trimEnd r) as [|c' r'] eqn:E.
  - destruct (is_space c) eqn:Hc; [reflexivity|]. cbn [trimEnd]. rewrite Hc. reflexivity.
  - cbn [trimEnd]. cbn [trimEnd] in IH. rewrite IH. reflexivity.
Qed.

(** A string that is empty or starts with a character that is not
    white space. *)
Definition noLeadingSpace (s : string) : Prop :=
  match s with EmptyString => True | String c _ => is_space c = false end.

Lemma trimStart_noLeadingSpace s : noLeadingSpace (trimStart s).
Proof.
  induction s as [|c r IH]; cbn; [exact I|].
  destruct (is_space c) eqn:Hc; [exact IH|exact Hc].
Qed.

Lemma trimStart_id s : noLeadingSpace s -> trimStart s = s.
Proof. destruct s as [|c r]; cbn; [reflexivity|]. intros ->. reflexivity. Qed.

Lemma trimEnd_noLeadingSpace s : noLeadingSpace s -> noLeadingSpace (trimEnd s).
Proof.
  destruct s as [|c r]; cbn; [auto|]. intros Hc.
  destruct (trimEnd r); [rewrite Hc|]; exact Hc.
Qed.

Lemma trim_idem s : trim (trim s) = trim s.
Proof.
  unfold trim.
  rewrite (trimStart_id (trimEnd (trimStart s)))
    by apply trimEnd_noLeadingSpace, trimStart_noLeadingSpace.
  apply trimEnd_idem.
Qed.

Section Engine.

Variable regexp_exec : string -> string -> res (option (list value)).
Variable JSONPath : value -> value -> res (list value).
Variable JSON_parse : string -> res value.

Local Abbreviation extractValue := (extractValue regexp_exec JSONPath JSON_parse).
Local Abbreviation applyRule := (applyRule regexp_exec JSONPath JSON_parse).
Local Abbreviation applyRules := (applyRules regexp_exec JSONPath JSON_parse).
Local Abbreviation applySetVars := (applySetVars regexp_exec JSONPath JSON_parse).

Lemma applyRule_cases varName rule data kind env r env' :
  applyRule varName rule data kind env = (r, env') ->
  (exists m, r = Throw m /\ env' = env) \/
  (exists s, r = Ok tt /\ env' = <[varName := trim s]> env).
Proof.
  unfold Core.applyRule.
  destruct (extractValue varName rule data kind) as [v|m].
  - destruct (isNullish v); intros [= <- <-]; eauto.
  - intros [= <- <-]. eauto.
Qed.

Lemma applyRules_frame rules : forall data kind env r env' name,
  applyRules rules data kind env = (r, env') ->
  name ∉ map fst rules ->
  env' !! name = env !! name.
Proof.
  induction rules as [|[vn rule] rules IH]; intros data kind env r env' name;
    cbn [Core.applyRules].
  - intros [= <- <-] _. reflexivity.
  - intros H Hn. cbn [map fst] in Hn. apply not_elem_of_cons in Hn as [Hne Hn].
    destruct (applyRule vn rule data kind env) as [[[]|m] env1] eqn:E.
    + apply applyRule_cases in E as [(m & [=] & _)|(s & _ & ->)].
      rewrite (IH _ _ _ _ _ _ H Hn). apply lookup_insert_ne. congruence.
    + apply applyRule_cases in E as [(m' & _ & ->)|(s & [=] & _)].
      injection H as <- <-. reflexivity.
Qed.

Lemma applySetVars_rules setVars data kind env :
  applySetVars setVars data kind env
  = (if truthy setVars && String.eqb (typeof setVars) "object"
     then applyRules (entries setVars) data kind env
     else (Ok tt, env)).
Proof.
  unfold Core.applySetVars.
  destruct (truthy setVars), (String.eqb (typeof setVars) "object"); reflexivity.
Qed.

(** X11. Extraction only writes the variables it names: whether a
    setVars block succeeds or throws half-way, every variable whose
    name is not a key of the block keeps the value it had, and a block
    that is absent, null or not a mapping changes nothing and never
    throws. *)
Theorem applySetVars_frame
    (setVars data : value) (kind : string) (env env' : Env) (r : res unit) :
  applySetVars setVars data kind env = (r, env') ->
  (forall name, name ∉ map fst (entries setVars) -> env' !! name = env !! name) /\
  (truthy setVars = false \/ typeof setVars <> "object" -> r = Ok tt /\ env' = env).
Proof.
  rewrite applySetVars_rules. intros H. split.
  - intros name Hn. destruct (_ && _).
    + eapply applyRules_frame; eassumption.
    + injection H as <- <-. reflexivity.
  - intros Hno. destruct (truthy setVars); cbn [andb] in H.
    + destruct (String.eqb_spec (typeof setVars) "object") as [Ho|Ho].
      * destruct Hno as [?|Hn]; [discriminate|contradiction].
      * injection H as <- <-. auto.
    + injection H as <- <-. auto.
Qed.





End Engine.

End SetVarsFacts.

(** * Properties of environment-variable substitution *)

Module EnvVarFacts.
Import Core.

















End EnvVarFacts.

(** * Further properties of the wait poller *)

Module WaitFacts.
Import Core.

Section Engine.

Variable stringToNumber : string -> option Z.
Variable regexp_test : string -> string -> res bool.
Variable regexp_exec : string -> string -> res (option (list value)).
Variable JSONPath : value -> value -> res (list value).
Variable JSON_parse : string -> res value.
Variable X : Type.
Variable now : X -> Z.
Variable sleep : Z -> X -> X.
Variable execSync : string -> Env -> X -> res string * X.

Local Abbreviation applySetVars := (applySetVars regexp_exec JSONPath JSON_parse).
Local Abbreviation pollOnce :=
  (pollOnce stringToNumber regexp_test regexp_exec JSONPath JSON_parse X execSync).
Local Abbreviation waitLoop :=
  (waitLoop stringToNumber regexp_test regexp_exec JSONPath JSON_parse
     X now sleep execSync).
Local Abbreviation executeKubectlWait :=
  (executeKubectlWait stringToNumber regexp_test regexp_exec JSONPath JSON_parse
     X now sleep execSync).
Local Abbreviation toNumber := (toNumber stringToNumber).
Local Abbreviation times1000 := (times1000 stringToNumber).
Local Abbreviation delay := (WaitProps.delay stringToNumber).

(** The deadline computed on entry: [Date.now() + timeout * 1000]. *)
Definition deadlineOf (p : WaitPlan) (x : X) : option Z :=
  t ← times1000 (timeout p); Some (now x + t)%Z.

Lemma executeKubectlWait_loop fuel config setVars env x p :
  planWait config setVars env = Ok p ->
  executeKubectlWait fuel config setVars env x
  = waitLoop fuel p setVars (deadlineOf p x) 0 env x.
Proof. intros Hp. unfold Core.executeKubectlWait. rewrite Hp. reflexivity. Qed.

(** The two variable stores agree on every name that is not a key of
    the setVars block. *)
Definition agreeOutside (setVars : value) (env env' : Env) : Prop :=
  forall name, name ∉ map fst (entries setVars) -> env' !! name = env !! name.

Lemma agreeOutside_refl setVars env : agreeOutside setVars env env.
Proof. intros name _. reflexivity. Qed.

Lemma agreeOutside_trans setVars e1 e2 e3 :
  agreeOutside setVars e1 e2 -> agreeOutside setVars e2 e3 ->
  agreeOutside setVars e1 e3.
Proof. intros H1 H2 name Hn. rewrite (H2 name Hn). apply H1, Hn. Qed.

Lemma applySetVars_agree setVars data kind env r env' :
  applySetVars setVars data kind env = (r, env') ->
  agreeOutside setVars env env' /\ (truthy setVars = false -> env' = env).
Proof.
  rewrite SetVarsFacts.applySetVars_rules. intros H. split.
  - intros name Hn. destruct (_ && _).
    + eapply SetVarsFacts.applyRules_frame; eassumption.
    + injection H as <- <-. reflexivity.
  - intros Hf. rewrite Hf in H. injection H as <- <-. reflexivity.
Qed.

Lemma pollOnce_env p setVars env x :
  snd (fst (pollOnce p setVars env x)) = env \/
  truthy setVars = true /\
  exists v r,
    applySetVars setVars (VObj [("extractedValue", v)]) "wait" env
    = (r, snd (fst (pollOnce p setVars env x))) /\
    fst (fst (pollOnce p setVars env x)) = isOk r.
Proof.
  unfold Core.pollOnce.
  destruct (execSync (cmd p) env x) as [[stdout|m] x']; [|left; reflexivity].
  repeat (match goal with
          | |- context [match Core.applySetVars ?a ?b ?c ?s ?d ?k ?e with _ => _ end] =>
              destruct (Core.applySetVars a b c s d k e) as [[[]|?] ?] eqn:?
          | |- context [if ?c then _ else _] => destruct c eqn:?
          | |- context [match ?c with _ => _ end] => destruct c eqn:?
          end; cbn [fst snd]; try (left; reflexivity)).
  all: right; split; [reflexivity|]; eexists _, _; split; [eassumption|reflexivity].
Qed.

Lemma pollOnce_agree p setVars env x :
  agreeOutside setVars env (snd (fst (pollOnce p setVars env x))) /\
  (truthy setVars = false -> snd (fst (pollOnce p setVars env x)) = env).
Proof.
  destruct (pollOnce_env p setVars env x) as [->|(Hs & v & r & Ha & _)].
  - split; [apply agreeOutside_refl|reflexivity].
  - split; [eapply applySetVars_agree; exact Ha|]. rewrite Hs. discriminate.
Qed.

(** What is left of the loop after one pass. *)
Lemma waitLoop_unfold fuel p setVars deadline retryCount env x :
  waitLoop (S fuel) p setVars deadline retryCount env x
  = if num_lt (Some (now x)) deadline then
      if negb (strict_eq_prim (maxRetries p) VUndefined)
         && num_ge (Some retryCount) (toNumber (maxRetries p))
      then Some (Throw (retriesExhausted p), env, x)
      else
        if fst (fst (pollOnce p setVars env x))
        then Some (Ok true, snd (fst (pollOnce p setVars env x)),
                   snd (pollOnce p setVars env x))
        else waitLoop fuel p setVars deadline (retryCount + 1)
               (snd (fst (pollOnce p setVars env x)))
               (sleep (delay p) (snd (pollOnce p setVars env x)))
    else Some (Throw (timedOut p), env, x).
Proof.
  cbn [Core.waitLoop].
  destruct (pollOnce p setVars env x) as [[[] env'] x']; reflexivity.
Qed.

Lemma waitLoop_outcome p setVars deadline fuel : forall retryCount env x r env' x',
  waitLoop fuel p setVars deadline retryCount env x = Some (r, env', x') ->
  (r = Ok true \/
   r = Throw (retriesExhausted p) /\
     maxRetries p <> VUndefined /\
     (exists m, toNumber (maxRetries p) = Some m) \/
   r = Throw (timedOut p) /\ num_lt (Some (now x')) deadline = false) /\
  agreeOutside setVars env env' /\
  (truthy setVars = false -> env' = env).
Proof.
  induction fuel as [|fuel IH]; intros retryCount env x r env' x'; [discriminate|].
  rewrite waitLoop_unfold.
  destruct (num_lt (Some (now x)) deadline) eqn:Hlt.
  - destruct (negb _ && _) eqn:Hr.
    + intros [= <- <- <-]. split; [|split; [apply agreeOutside_refl|reflexivity]].
      right; left. apply andb_true_iff in Hr as [Hu Hge].
      split; [reflexivity|]. split.
      * intros E. rewrite E in Hu. discriminate.
      * destruct (toNumber (maxRetries p)) as [m|]; [|discriminate].
        exists m. reflexivity.
    + destruct (pollOnce_agree p setVars env x) as [Ha He].
      destruct (fst (fst (pollOnce p setVars env x))).
      * intros [= <- <- <-]. split; [left; reflexivity|]. split; assumption.
      * intros H. apply IH in H as (Hc & Ha' & He').
        split; [|split].
        -- exact Hc.
        -- eapply agreeOutside_trans; eassumption.
        -- intros Hf. rewrite (He' Hf). apply He, Hf.
  - intros [= <- <- <-]. split; [|split; [apply agreeOutside_refl|reflexivity]].
    right; right. split; [reflexivity|exact Hlt].
Qed.

(** X16. Whatever the cluster answers, a wait that ends has one of three
    outcomes: success, the retries-exhausted error (only with a
    numeric ceiling configured) or the time-out error (only once the
    clock is no longer before the deadline). No other error leaves the
    poller: a failing kubectl call, output that is not JSON, a
    comparator error and a setVars error are all retried. Variables
    that the setVars block does not name keep their values, and
    without a setVars block the variable store is unchanged. *)
Theorem wait_outcomes
    (fuel : nat) (config setVars : value) (env env' : Env) (x x' : X)
    (p : WaitPlan) (r : res bool) :
  planWait config setVars env = Ok p ->
  executeKubectlWait fuel config setVars env x = Some (r, env', x') ->
  (r = Ok true \/
   r = Throw (retriesExhausted p) /\ maxRetries p <> VUndefined /\
     (exists m, toNumber (maxRetries p) = Some m) \/
   r = Throw (timedOut p) /\ num_lt (Some (now x')) (deadlineOf p x) = false) /\
  (forall name, name ∉ map fst (entries setVars) -> env' !! name = env !! name) /\
  (truthy setVars = false -> env' = env).
Proof.
  intros Hp H. rewrite (executeKubectlWait_loop _ _ _ _ _ _ Hp) in H.
  apply waitLoop_outcome in H as (Hc & Ha & He).
  split; [exact Hc|split; assumption].
Qed.

(** X17. Configurations under which the cluster is never queried. A
    time-out that is zero, negative or not a number makes the wait
    fail at once with the time-out error; with a positive time-out, a
    retry ceiling that is zero, negative or null makes it fail at once
    with the retries-exhausted error. In both cases the variable store
    and the world are returned untouched. *)
Theorem wait_without_polling
    (fuel : nat) (config setVars : value) (env : Env) (x : X) (p : WaitPlan) :
  planWait config setVars env = Ok p ->
  ((times1000 (timeout p) = None \/
    exists t, times1000 (timeout p) = Some t /\ (t <= 0)%Z) ->
   executeKubectlWait (S fuel) config setVars env x
   = Some (Throw (timedOut p), env, x)) /\
  (forall t m,
     times1000 (timeout p) = Some t -> (0 < t)%Z ->
     maxRetries p <> VUndefined ->
     toNumber (maxRetries p) = Some m -> (m <= 0)%Z ->
     executeKubectlWait (S fuel) config setVars env x
     = Some (Throw (retriesExhausted p), env, x)).
Proof.
  intros Hp. rewrite (executeKubectlWait_loop _ _ _ _ _ _ Hp), waitLoop_unfold.
  unfold deadlineOf. split.
  - intros [->|(t & -> & Ht)]; [reflexivity|]. cbn [mbind option_bind num_lt].
    replace (now x <? now x + t)%Z with false by (symmetry; apply Z.ltb_ge; lia).
    reflexivity.
  - intros t m -> Ht Hu -> Hm. cbn [mbind option_bind num_lt num_ge].
    replace (now x <? now x + t)%Z with true by (symmetry; apply Z.ltb_lt; lia).
    replace (m <=? 0)%Z with true by (symmetry; apply Z.leb_le; lia).
    destruct (maxRetries p); try reflexivity. contradiction.
Qed.


Section Clock.

(** Time does not run backwards: a sleep lasts at least as long as
    asked, and a subprocess never returns before it was started. *)
Hypothesis sleep_clock :
  forall ms x, (now x <= now (sleep ms x))%Z /\ (now x + ms <= now (sleep ms x))%Z.
Hypothesis execSync_clock :
  forall cmd env x, (now x <= now (snd (execSync cmd env x)))%Z.



End Clock.


End Engine.

End WaitFacts.

(** * Properties of the validators *)

Module ValidatorFacts.
Import Core.




Section Engine.

Variable stringToNumber : string -> option Z.
Variable regexp_test : string -> string -> res bool.
Variable regexp_exec : string -> string -> res (option (list value)).
Variable JSONPath : value -> value -> res (list value).
Variable JSON_parse : string -> res value.

Local Abbreviation rawCompare := (rawCompare stringToNumber regexp_test).
Local Abbreviation compareValue := (compareValue stringToNumber regexp_test).
Local Abbreviation validateHeader := (validateHeader stringToNumber regexp_test).
Local Abbreviation validateOutputExpectations :=
  (validateOutputExpectations stringToNumber regexp_test).
Local Abbreviation validateSingleOutputExpectation :=
  (validateSingleOutputExpectation stringToNumber regexp_test).
Local Abbreviation validateJsonExpectations :=
  (validateJsonExpectations stringToNumber regexp_test JSONPath).
Local Abbreviation validateSingleJsonExpectation :=
  (validateSingleJsonExpectation stringToNumber regexp_test JSONPath).

(** The outcome of a comparison, apart from the text of its error:
    the raw result, flipped when [negate] is truthy. *)
Lemma compareValue_isOk actual comparison description :
  isOk (compareValue actual comparison description)
  = match rawCompare actual comparison with
    | Ok result => if truthy (getOpt comparison "negate") then negb result else result
    | Throw _ => false
    end.
Proof.
  unfold Core.compareValue.
  destruct (rawCompare actual comparison) as [result|m] eqn:E; [|reflexivity].
  cbn [mbind res_bind].
  assert (Hp : forall k, getProp comparison k = Ok (getOpt comparison k)).
  { intros k. unfold Core.rawCompare in E.
    destruct comparison; cbn in E |- *; try discriminate; reflexivity. }
  rewrite !Hp. cbn [mbind res_bind].
  destruct (truthy (getOpt comparison "negate")), result; reflexivity.
Qed.

Lemma rawCompare_reads actual c c' :
  getProp c "comparator" = getProp c' "comparator" ->
  getProp c "value" = getProp c' "value" ->
  rawCompare actual c = rawCompare actual c'.
Proof. intros H1 H2. unfold Core.rawCompare. rewrite H1, H2. reflexivity. Qed.

(** X20. Negation flips a comparison exactly. For every comparator,
    when the un-negated comparison can be evaluated, a truthy [negate]
    passes precisely when a falsy or absent one fails, so exactly one
    of the two forms passes; when it cannot be evaluated (an unknown
    comparator, a pattern that is not a regular expression) both forms
    fail. The description text plays no part in the outcome. *)
Theorem negate_flips
    (actual n : value) (kvs : list (string * value)) (d1 d2 : string) :
  assoc "negate" kvs = None ->
  truthy n = true ->
  (isOk (rawCompare actual (VObj kvs)) = true ->
   isOk (compareValue actual (VObj (kvs ++ [("negate", n)])) d1)
   = negb (isOk (compareValue actual (VObj kvs) d2))) /\
  (isOk (rawCompare actual (VObj kvs)) = false ->
   isOk (compareValue actual (VObj (kvs ++ [("negate", n)])) d1) = false /\
   isOk (compareValue actual (VObj kvs) d2) = false).
Proof.
  intros Hn Ht.
  assert (Ha : forall k, k <> "negate" ->
                 assoc k (kvs ++ [("negate", n)]) = assoc k kvs).
  { intros k Hk. clear Hn. induction kvs as [|[k' v'] kvs IH]; cbn [app assoc].
    - destruct (String.eqb_spec k "negate"); [contradiction|reflexivity].
    - destruct (String.eqb k k'); [reflexivity|exact IH]. }
  assert (Hb : assoc "negate" (kvs ++ [("negate", n)]) = Some n).
  { clear Ha.
    induction kvs as [|[k' v'] kvs IH]; cbn [app assoc] in Hn |- *; [reflexivity|].
    destruct (String.eqb "negate" k'); [discriminate|exact (IH Hn)]. }
  assert (Hr : rawCompare actual (VObj (kvs ++ [("negate", n)]))
               = rawCompare actual (VObj kvs)).
  { apply rawCompare_reads; cbn [getProp]; rewrite Ha; congruence. }
  rewrite !compareValue_isOk, Hr. cbn [getOpt]. rewrite Hb, Hn.
  cbn [default from_option id truthy]. rewrite Ht.
  destruct (rawCompare actual (VObj kvs)) as [result|m]; cbn [isOk].
  - split; [reflexivity|discriminate].
  - split; [discriminate|]. auto.
Qed.

(** X21. Header expectations are matched without regard to the case of
    the expected name: two expectations that differ only in the case
    of [name] have the same outcome on every response, since the
    header is looked up under the lower-cased name. *)
Theorem header_name_case_insensitive
    (responseHeaders : value) (n n' : string) (rest : list (string * value)) :
  toLowerCase n = toLowerCase n' ->
  isOk (validateHeader responseHeaders (VObj (("name", VStr n) :: rest)))
  = isOk (validateHeader responseHeaders (VObj (("name", VStr n') :: rest))).
Proof.
  intros Hl. unfold Core.validateHeader.
  cbn [getProp assoc]. change (String.eqb "name" "name") with true.
  cbn [default from_option id mbind res_bind]. rewrite <- Hl.
  destruct (getProp responseHeaders (toLowerCase n)) as [hv|m]; [|reflexivity].
  cbn [mbind res_bind].
  change (String.eqb "comparator" "name") with false. cbv iota.
  assert (He : forall d d',
             isOk (compareValue hv (VObj (("name", VStr n) :: rest)) d)
             = isOk (compareValue hv (VObj (("name", VStr n') :: rest)) d')).
  { intros d d'. rewrite !compareValue_isOk.
    rewrite (rawCompare_reads hv (VObj (("name", VStr n) :: rest))
               (VObj (("name", VStr n') :: rest))) by reflexivity.
    reflexivity. }
  destruct (is_str (default VUndefined (assoc "comparator" rest)) "exists");
    [apply He|].
  destruct hv; try apply He. reflexivity.
Qed.


End Engine.

End ValidatorFacts.

(** * Properties of the http and command executors *)

Module ExecutorFacts.
Import Core.

Section Engine.

Variable stringToNumber : string -> option Z.
Variable regexp_test : string -> string -> res bool.
Variable regexp_exec : string -> string -> res (option (list value)).
Variable JSONPath : value -> value -> res (list value).
Variable JSON_parse : string -> res value.
Variable X : Type.
Variable httpRequest : value -> Env -> X -> res value * X.
Variable runCommand : value -> Env -> X -> res value * X.

Local Abbreviation applySetVars := (applySetVars regexp_exec JSONPath JSON_parse).
Local Abbreviation validateHttpExpectations :=
  (validateHttpExpectations stringToNumber regexp_test JSONPath).
Local Abbreviation validateCommandExpectations :=
  (validateCommandExpectations stringToNumber regexp_test JSONPath).
Local Abbreviation executeHttpTest :=
  (executeHttpTest stringToNumber regexp_test regexp_exec JSONPath JSON_parse
     X httpRequest).
Local Abbreviation executeCommandTest :=
  (executeCommandTest stringToNumber regexp_test regexp_exec JSONPath JSON_parse
     X runCommand).

(** X23. An http test cannot pass without an [expect] block: when
    [expect] is absent or null the test fails and publishes nothing,
    whatever the response is. A command test is different: without
    [expect] and [setVars] it passes as soon as the command could be
    run, whatever its exit code and output. *)
Theorem http_test_requires_expect
    (test : value) (env : Env) (x : X) :
  isNullish (getOpt test "expect") = true ->
  (isOk (fst (fst (executeHttpTest test env x))) = false /\
   snd (fst (executeHttpTest test env x)) = env) /\
  (forall result x',
     truthy (getOpt test "setVars") = false ->
     typeof (getOpt test "command") <> "string" ->
     truthy (getOpt (getOpt test "command") "command") = true ->
     runCommand test env x = (Ok result, x') ->
     executeCommandTest test env x = (Ok true, env, x')).
Proof.
  intros Hn.
  assert (He : truthy (getOpt test "expect") = false).
  { destruct (getOpt test "expect"); try discriminate; reflexivity. }
  split.
  - unfold Core.executeHttpTest. cbv zeta. rewrite He.
    destruct (negb (truthy (getOpt test "http"))); [auto|].
    destruct (truthy (getOpt test "setVars")); cbn [andb negb]; [auto|].
    destruct (httpRequest test env x) as [[response|m] x']; [|auto].
    assert (Hv : exists m, validateHttpExpectations env response (getOpt test "expect")
                           = Throw m).
    { unfold Core.validateHttpExpectations.
      destruct (getOpt test "expect"); try discriminate; cbn; eauto. }
    destruct Hv as [m ->]. auto.
  - intros result x' Hs Ht Hc Hr. unfold Core.executeCommandTest. cbv zeta.
    rewrite Hs, He, Hc, Hr. cbn [andb negb].
    destruct (truthy (getOpt test "command")) eqn:Hcmd.
    + cbn [negb]. destruct (String.eqb_spec (typeof (getOpt test "command")) "string");
        [contradiction|reflexivity].
    + destruct (getOpt test "command"); cbn in Hc, Hcmd; discriminate.
Qed.




End Engine.

End ExecutorFacts.

(** * What the runner accepts *)

Module RunnerInputFacts.
Import Runner.

Section WithWorld.

Context {World : Type}.
Variable executeTest : value -> World -> res bool * World.
Variable now : World -> Z.
Variable pause : World -> World.

Local Abbreviation runSingleTest := (runSingleTest World executeTest now pause).
Local Abbreviation runLoop := (runLoop World executeTest now pause).
Local Abbreviation runTests := (runTests World executeTest now pause).

Lemma getProp_isOk (v : value) (k : string) :
  isOk (getProp v k) = negb (isNullish v).
Proof. destruct v; reflexivity. Qed.

Lemma testName_isOk (def : value) (i : nat) :
  isOk (testName def i) = negb (isNullish def).
Proof.
  unfold testName. destruct def; try reflexivity; cbn [getProp mbind res_bind];
    try reflexivity.
  destruct (truthy _); reflexivity.
Qed.

Lemma skipRest_isOk (defs : list value) : forall j,
  isOk (skipRest j defs) = forallb (fun d => negb (isNullish d)) defs.
Proof.
  induction defs as [|d defs IH]; intros j; [reflexivity|].
  cbn [skipRest forallb]. rewrite <- testName_isOk with (i := j).
  destruct (testName d j) as [nm|m]; [|reflexivity]. cbn [mbind res_bind isOk andb].
  rewrite <- (IH (S j)). destruct (skipRest (S j) defs); reflexivity.
Qed.

Lemma skipRest_length (defs : list value) : forall j rs,
  skipRest j defs = Ok rs -> length rs = length defs.
Proof.
  induction defs as [|d defs IH]; intros j rs; cbn [skipRest].
  - intros [= <-]. reflexivity.
  - destruct (testName d j); [|discriminate]. cbn [mbind res_bind].
    destruct (skipRest (S j) defs) as [rs'|] eqn:E; [|discriminate].
    intros [= <-]. cbn [length]. f_equal. eapply IH, E.
Qed.

Lemma runSingleTest_isOk (def : value) (i : nat) (w : World) :
  isOk (fst (runSingleTest def i w)) = negb (isNullish def).
Proof.
  unfold Runner.runSingleTest. rewrite <- (getProp_isOk def "retries").
  destruct (getProp def "retries") as [r|m] eqn:E; [|reflexivity].
  pose proof (testName_isOk def i) as Hn. rewrite <- (getProp_isOk def "retries"), E in Hn.
  destruct (testName def i) as [nm|m]; [|discriminate].
  destruct (Runner.attemptLoop _ _ _ _ _ _ _ _ _ _ _ _). reflexivity.
Qed.

Lemma runLoop_isOk (defs : list value) : forall i w,
  isOk (fst (runLoop i defs w)) = forallb (fun d => negb (isNullish d)) defs /\
  forall rs, fst (runLoop i defs w) = Ok rs -> length rs = length defs.
Proof.
  induction defs as [|d defs IH]; intros i w; cbn [Runner.runLoop forallb].
  - split; [reflexivity|]. intros rs [= <-]. reflexivity.
  - unfold normaliseDefinition.
    pose proof (runSingleTest_isOk d i w) as Hs.
    destruct (runSingleTest d i w) as [[result|m] w1]; cbn [fst isOk] in Hs |- *;
      rewrite <- Hs; [|split; [reflexivity|discriminate]].
    cbn [andb]. destruct (negb (passed result)).
    + cbn [fst]. pose proof (skipRest_isOk defs (S i)) as Hk.
      destruct (skipRest (S i) defs) as [rs|m] eqn:E; cbn [mbind res_bind].
      * split; [exact Hk|]. intros rs' [= <-]. cbn [length]. f_equal.
        eapply skipRest_length, E.
      * split; [exact Hk|discriminate].
    + destruct (IH (S i) w1) as [Hk Hl].
      destruct (runLoop (S i) defs w1) as [[rs|m] w2]; cbn [fst] in *.
      * split; [exact Hk|]. intros rs' [= <-]. cbn [length]. f_equal. auto.
      * split; [exact Hk|discriminate].
Qed.

(** X25. The runner rejects its input, instead of reporting results,
    exactly when the input is not a mapping or list, is an empty list,
    or has a null entry anywhere in the list, whether or not the run
    would have reached that entry. In every other case it returns a
    report with one result per definition: a test that cannot be
    executed counts as failed and never makes the run throw. *)
Theorem runTests_accepts (parsed : value) (w : World) :
  isOk (fst (runTests parsed w))
  = match parsed with
    | VArr defs => negb (length defs =? 0)%nat
                   && forallb (fun d => negb (isNullish d)) defs
    | VObj _ => true
    | _ => false
    end /\
  forall rr, fst (runTests parsed w) = Ok rr ->
    total rr = length (results rr) /\ (0 < total rr)%nat /\
    match parsed with VArr defs => total rr = length defs | _ => total rr = 1%nat end.
Proof.
  unfold Runner.runTests, parseTestDefinitions.
  destruct parsed as [| |b|n|s|defs|kvs]; try (split; [reflexivity|discriminate]).
  - destruct b; split; try reflexivity; discriminate.
  - destruct (truthy (VNum n)); split; try reflexivity; discriminate.
  - destruct (truthy (VStr s)); split; try reflexivity; discriminate.
  - cbn [truthy typeof negb orb]. change (String.eqb "object" "object") with true.
    cbn [negb]. destruct (length defs =? 0)%nat eqn:El;
      [split; [reflexivity|discriminate]|].
    apply Nat.eqb_neq in El. destruct (runLoop_isOk defs 0 w) as [Hk Hl].
    destruct (runLoop 0 defs w) as [[rs|m] w1]; cbn [fst negb andb] in *.
    + split; [exact Hk|]. intros rr [= <-]. cbn [total results].
      rewrite (Hl rs eq_refl). repeat split; lia.
    + split; [exact Hk|discriminate].
  - cbn [truthy typeof negb orb]. change (String.eqb "object" "object") with true.
    cbn [negb length Nat.eqb]. destruct (runLoop_isOk [VObj kvs] 0 w) as [Hk Hl].
    destruct (runLoop 0 [VObj kvs] w) as [[rs|m] w1]; cbn [fst] in *.
    + split; [reflexivity|]. intros rr [= <-]. cbn [total results].
      rewrite (Hl rs eq_refl). cbn. repeat split; lia.
    + discriminate Hk.
Qed.

End WithWorld.

End RunnerInputFacts.

(** * Properties of the command line *)

Module CliFacts.
Import Runner Cli.

Section WithWorld.

Context {World : Type}.
Variable executeTest : value -> World -> res bool * World.
Variable now : World -> Z.
Variable pause : World -> World.
Variable yaml_load : string -> res value.
Variable readInput : string -> World -> res string * World.

Local Abbreviation runTests := (runTests World executeTest now pause).
Local Abbreviation runYaml := (runYaml World executeTest now pause yaml_load).
Local Abbreviation main := (main World executeTest now pause yaml_load readInput).

Lemma runTests_no_failure parsed w rr w' :
  runTests parsed w = (Ok rr, w') ->
  n_failed rr = 0%nat ->
  n_passed rr = total rr /\ n_skipped rr = 0%nat /\
  Forall (fun r => passed r = true) (results rr).
Proof.
  unfold Runner.runTests.
  destruct (parseTestDefinitions parsed) as [defs|m]; [|discriminate].
  destruct (Runner.runLoop _ _ _ _ 0 defs w) as [[rs|m] w1] eqn:El; [|discriminate].
  intros [= <- <-]. cbn [n_failed n_skipped n_passed total results]. intros Hf.
  pose proof (RunnerFacts.runLoop_FailFast _ _ _ _ _ _ _ _ El) as Hff.
  destruct (RunnerFacts.FailFast_counts rs Hff) as (_ & H2 & H3).
  destruct (RunnerProps.runLoop_spec _ _ _ _ _ _ _ _ El) as (Hlen & _ & _).
  split; [rewrite H3 by exact Hf; exact Hlen|]. split.
  - destruct (count (fun r => skipped r) rs); [reflexivity|].
    rewrite H2 in Hf by lia. discriminate.
  - clear -Hff Hf. induction Hff as [|r rs [Hp Hs] _ IH|r rs [Hp Hs] _].
    + constructor.
    + unfold count in *. cbn [List.filter] in Hf. rewrite Hp, Hs in Hf.
      constructor; [exact Hp|apply IH, Hf].
    + unfold count in Hf. cbn [List.filter] in Hf. rewrite Hp, Hs in Hf.
      discriminate.
Qed.

(** X26. The exit code of the command line is 0 or 1. Asking for help
    gives 0 without reading or running anything, even when a file is
    given as well. Otherwise 0 means that the input was read, parsed
    and run and that every test it defines passed, none failed and
    none was skipped; a missing or empty input, an input the runner
    rejects and a failed test all give 1. *)
Theorem exit_code_zero_iff_all_passed
    (argv : list string) (w w' : World) (code : Z) :
  main argv w = (code, w') ->
  (code = 0%Z \/ code = 1%Z) /\
  (help (parseArgs argv) = true -> code = 0%Z /\ w' = w) /\
  (help (parseArgs argv) = false ->
   (code = 0%Z <->
    exists path content w1 rr,
      file (parseArgs argv) = Some path /\ path <> "" /\
      readInput path w = (Ok content, w1) /\ trim content <> "" /\
      runYaml content w1 = (Ok rr, w') /\
      n_failed rr = 0%nat /\ n_skipped rr = 0%nat /\ n_passed rr = total rr /\
      Forall (fun r => passed r = true) (results rr))).
Proof.
  unfold Cli.main. cbv zeta.
  destruct (help (parseArgs argv)) eqn:Hh.
  { intros [= <- <-]. split; [auto|]. split; [auto|discriminate]. }
  intros H. split; [|split; [discriminate|intros _]].
  - revert H. destruct (file (parseArgs argv)) as [[|c path]|];
      try (intros [= <- <-]; auto).
    destruct (readInput _ w) as [[content|m] w1]; [|intros [= <- <-]; auto].
    destruct (_ || _); [intros [= <- <-]; auto|].
    destruct (runYaml content w1) as [[rr|m] w2]; [|intros [= <- <-]; auto].
    intros [= <- <-]. destruct (0 <? n_failed rr)%nat; auto.
  - split.
    + intros ->. revert H.
      destruct (file (parseArgs argv)) as [[|c path]|]; try discriminate.
      destruct (readInput (String c path) w) as [[content|m] w1] eqn:Er;
        [|discriminate].
      destruct (String.eqb content "" || String.eqb (trim content) "") eqn:Eb;
        [discriminate|].
      destruct (runYaml content w1) as [[rr|m] w2] eqn:Ey; [|discriminate].
      destruct (0 <? n_failed rr)%nat eqn:Ef; [discriminate|].
      intros [= <-]. apply Nat.ltb_ge in Ef.
      assert (Hf : n_failed rr = 0%nat) by lia.
      assert (Hrun : exists parsed, runTests parsed w1 = (Ok rr, w2)).
      { unfold Cli.runYaml in Ey. destruct (yaml_load content) as [parsed|];
          [eauto|discriminate]. }
      destruct Hrun as [parsed Hrun].
      destruct (runTests_no_failure _ _ _ _ Hrun Hf) as (Hp & Hs & Ha).
      exists (String c path), content, w1, rr.
      apply orb_false_iff in Eb as [_ Eb]. apply String.eqb_neq in Eb.
      repeat split; auto; discriminate.
    + intros (path & content & w1 & rr & Hfile & Hpath & Hr & Ht & Hy & Hf & _).
      revert H. rewrite Hfile. destruct path as [|c path]; [contradiction|].
      rewrite Hr.
      assert (Eb : String.eqb content "" || String.eqb (trim content) "" = false).
      { apply orb_false_iff. split; apply String.eqb_neq; [|exact Ht].
        intros ->. apply Ht. reflexivity. }
      rewrite Eb, Hy, Hf. cbn. intros [= <-]. reflexivity.
Qed.

End WithWorld.

End CliFacts.

(** * Properties of LoadBalancer discovery *)

Module DiscoveryFacts.
Import Core Discovery.

Lemma getProp_present (v : value) (k : string) :
  isNullish v = false -> getProp v k = Ok (getOpt v k).
Proof. destruct v; try discriminate; reflexivity. Qed.

(** No element of [ps] has [wanted] under [key]. *)
Definition noneHas (key : string) (wanted : value) (ps : list value) : Prop :=
  Forall (fun p => strict_eq_prim (getOpt p key) wanted = false) ps.

Lemma find_miss key wanted ps :
  Forall (fun p => isNullish p = false) ps ->
  noneHas key wanted ps ->
  find key wanted ps = Ok VUndefined.
Proof.
  induction 1 as [|p ps Hp _ IH]; intros Hn; [reflexivity|].
  apply Forall_cons in Hn as [Hm Hn]. cbn [find].
  rewrite (getProp_present _ _ Hp). cbn [mbind res_bind]. rewrite Hm. exact (IH Hn).
Qed.

Lemma find_hit key wanted pre p post :
  Forall (fun q => isNullish q = false) pre ->
  noneHas key wanted pre ->
  isNullish p = false ->
  strict_eq_prim (getOpt p key) wanted = true ->
  find key wanted (pre ++ p :: post) = Ok p.
Proof.
  induction 1 as [|q pre Hq _ IH]; intros Hn Hp Hw; cbn [app find].
  - rewrite (getProp_present _ _ Hp). cbn [mbind res_bind]. rewrite Hw. reflexivity.
  - apply Forall_cons in Hn as [Hm Hn].
    rewrite (getProp_present _ _ Hq). cbn [mbind res_bind]. rewrite Hm.
    exact (IH Hn Hp Hw).
Qed.

Lemma has_truthy p key wanted :
  strict_eq_prim (getOpt p key) wanted = true ->
  wanted <> VUndefined ->
  truthy p = true /\ isNullish p = false.
Proof.
  destruct p; cbn [getOpt]; try (destruct wanted; try discriminate; congruence).
  intros _ _. split; reflexivity.
Qed.

Lemma strict_eq_num v n : strict_eq_prim v (VNum n) = true -> v = VNum n.
Proof.
  destruct v; try discriminate. cbn. intros H. apply Z.eqb_eq in H. congruence.
Qed.

(** The first element that has [wanted] under [key], if any. *)
Lemma first_hit key wanted ps :
  noneHas key wanted ps \/
  exists pre p post, ps = pre ++ p :: post /\ noneHas key wanted pre /\
                     strict_eq_prim (getOpt p key) wanted = true.
Proof.
  induction ps as [|q ps IH]; [left; constructor|].
  destruct (strict_eq_prim (getOpt q key) wanted) eqn:E.
  - right. exists [], q, ps. repeat split; [constructor|exact E].
  - destruct IH as [Hn|(pre & p & post & -> & Hn & Hw)].
    + left. constructor; assumption.
    + right. exists (q :: pre), p, post. repeat split; [constructor; assumption|exact Hw].
Qed.

(** X27. How the port of a discovered service is chosen, on a service
    whose port list has no null entry. A numeric [port] is first read
    as a port number: if any listed port has that number it is the
    result, even when the number is also a valid position in the
    list. Only when no port has that number is it read as a position,
    and a number that is neither is rejected. A textual [port] selects
    the first port with that name; without [port] the first listed
    port is used; and a [port] of any other kind is not rejected but
    leaves the port undefined. *)
Theorem port_selection (ps : list value) :
  Forall (fun p => isNullish p = false) ps ->
  (forall n p,
     p ∈ ps -> getOpt p "port" = VNum n ->
     selectPort (VArr ps) (VNum n) = Ok (VNum n)) /\
  (forall n,
     noneHas "port" (VNum n) ps ->
     selectPort (VArr ps) (VNum n)
     = match ps !! Z.to_nat n with
       | Some p => if (0 <=? n)%Z then Ok (getOpt p "port")
                   else Throw ("Port " +:+ pretty n +:+ " not found in service")
       | None => Throw ("Port " +:+ pretty n +:+ " not found in service")
       end) /\
  (forall s pre p post,
     ps = pre ++ p :: post -> noneHas "name" (VStr s) pre ->
     getOpt p "name" = VStr s ->
     selectPort (VArr ps) (VStr s) = Ok (getOpt p "port")) /\
  (forall s,
     noneHas "name" (VStr s) ps ->
     selectPort (VArr ps) (VStr s)
     = Throw ("Port with name " +:+ quoted s +:+ " not found in service")) /\
  (forall p rest, ps = p :: rest ->
     selectPort (VArr ps) VUndefined = Ok (getOpt p "port")) /\
  (forall spec,
     typeof spec <> "number" -> typeof spec <> "string" -> spec <> VUndefined ->
     selectPort (VArr ps) spec = Ok VUndefined).
Proof.
  intros Hps. repeat apply conj.
  - intros n q Hq Hport.
    destruct (first_hit "port" (VNum n) ps) as [Hn|(pre & p & post & -> & Hn & Hw)].
    { unfold noneHas in Hn. rewrite Forall_forall in Hn. specialize (Hn q Hq).
      rewrite Hport in Hn. cbn in Hn. rewrite Z.eqb_refl in Hn. discriminate. }
    apply Forall_app in Hps as [Hpre Hp]. apply Forall_cons in Hp as [Hp _].
    unfold selectPort. rewrite (find_hit _ _ _ _ _ Hpre Hn Hp Hw).
    cbn [mbind res_bind].
    destruct (has_truthy _ _ _ Hw) as [-> _]; [discriminate|].
    rewrite (getProp_present _ _ Hp), (strict_eq_num _ _ Hw). reflexivity.
  - intros n Hn. unfold selectPort. rewrite (find_miss _ _ _ Hps Hn).
    cbn [mbind res_bind truthy toString].
    destruct (Z.leb_spec 0 n) as [H0|H0]; cbn [andb].
    + destruct (Z.ltb_spec n (Z.of_nat (length ps))) as [Hl|Hl].
      * destruct (ps !! Z.to_nat n) as [p|] eqn:E.
        -- cbn [default from_option id]. apply getProp_present.
           eapply Forall_lookup_1 in Hps; [exact Hps|exact E].
        -- apply lookup_ge_None in E. lia.
      * rewrite (proj2 (lookup_ge_None ps (Z.to_nat n))) by lia. reflexivity.
    + destruct (ps !! Z.to_nat n); reflexivity.
  - intros s pre p post -> Hn Hw.
    apply Forall_app in Hps as [Hpre Hp]. apply Forall_cons in Hp as [Hp _].
    assert (Hw' : strict_eq_prim (getOpt p "name") (VStr s) = true).
    { rewrite Hw. cbn. apply String.eqb_refl. }
    unfold selectPort. rewrite (find_hit _ _ _ _ _ Hpre Hn Hp Hw').
    cbn [mbind res_bind].
    destruct (has_truthy _ _ _ Hw') as [-> _]; [discriminate|].
    apply getProp_present, Hp.
  - intros s Hn. unfold selectPort. rewrite (find_miss _ _ _ Hps Hn). reflexivity.
  - intros p rest ->. apply Forall_cons in Hps as [Hp _].
    cbn [selectPort first head default from_option id]. apply getProp_present, Hp.
  - intros spec H1 H2 H3. destruct spec; try reflexivity; contradiction.
Qed.

Section WithWorld.

Variable JSON_parse : string -> res value.
Variable X : Type.
Variable execSync : string -> Env -> X -> res string * X.

Local Abbreviation discover :=
  (discoverServiceLoadBalancerIpAndPort JSON_parse X execSync).
Local Abbreviation readService := (readService JSON_parse).

Lemma includes_prefix (needle rest : string) : includes needle (needle +:+ rest) = true.
Proof.
  apply ComparatorFacts.includes_spec. exists "", rest. reflexivity.
Qed.

Lemma includes_infix (pre needle rest : string) :
  includes needle (pre +:+ needle +:+ rest) = true.
Proof. apply ComparatorFacts.includes_spec. eauto. Qed.

(** X28. Every error of the discovery names its origin. An error that
    leaves [discoverServiceLoadBalancerIpAndPort] after the kubectl
    query was issued mentions a port or the load balancer: an error
    raised while reading the answer that does neither (kubectl
    failing, an answer that is not JSON, a service without ports) is
    wrapped in "Failed to discover LoadBalancer IP and port: ...",
    and one that does is passed on unchanged. The world is the one the
    kubectl query left. *)
Theorem discovery_errors_are_tagged
    (selector portSpec : value) (env : Env) (x x' : X) (args : SelectorArgs)
    (m : string) :
  truthy selector = true ->
  getOpt selector "kind" = VStr "Service" ->
  buildSelectorArgs env selector = Ok args ->
  discover selector portSpec env x = (Throw m, x') ->
  let cmd := "kubectl " +:+ contextArg args +:+ " " +:+ namespaceArg args
             +:+ " get " +:+ kindArg args +:+ " " +:+ selectorArg args
             +:+ " -o json" in
  x' = snd (execSync cmd env x) /\
  (includes "Port" m = true \/ includes "LoadBalancer" m = true) /\
  (forall inner,
     (fst (execSync cmd env x) = Throw inner \/
      exists result, fst (execSync cmd env x) = Ok result /\
                     readService selector portSpec result = Throw inner) ->
     m = if includes "Port" inner || includes "LoadBalancer" inner then inner
         else "Failed to discover LoadBalancer IP and port: " +:+ inner).
Proof.
  intros Hs Hk Ha H cmd. unfold discoverServiceLoadBalancerIpAndPort in H.
  rewrite Hs, Hk, Ha in H. cbn [negb orb is_str] in H.
  change (String.eqb "Service" "Service") with true in H.
  cbn [negb] in H. cbv zeta in H. fold cmd in H.
  assert (Hre : forall A (r : res A) msg, rethrow r = Throw msg ->
            (includes "Port" msg = true \/ includes "LoadBalancer" msg = true) /\
            exists inner, r = Throw inner /\
              msg = if includes "Port" inner || includes "LoadBalancer" inner then inner
                    else "Failed to discover LoadBalancer IP and port: " +:+ inner).
  { intros A [a|inner] msg; cbn [rethrow]; [discriminate|].
    destruct (includes "Port" inner || includes "LoadBalancer" inner) eqn:E;
      intros [= <-].
    - split; [apply orb_true_iff, E|]. exists inner. rewrite E. auto.
    - split; [right; exact (includes_infix "Failed to discover " "LoadBalancer"
                              (" IP and port: " +:+ inner))|].
      exists inner. rewrite E. auto. }
  destruct (execSync cmd env x) as [[result|e] y] eqn:Ex; injection H as H <-;
    cbn [fst snd]; (split; [reflexivity|]).
  - destruct (Hre _ (readService selector portSpec result) _ H)
      as (Ht & inner & Hi & ->).
    split; [exact Ht|].
    intros inner' [?|(result' & [= <-] & Hr)]; [discriminate|].
    rewrite Hi in Hr. injection Hr as <-. reflexivity.
  - destruct (Hre _ (@Throw value e) _ H) as (Ht & inner & Hi & ->).
    split; [exact Ht|].
    intros inner' [[= <-]|(result' & ? & _)]; [|discriminate].
    injection Hi as <-. reflexivity.
Qed.

End WithWorld.

End DiscoveryFacts.

(** * Properties of the parsing of curl output *)

Module CurlFacts.
Import Curl.

(** The first line of the response part of the output. *)
Definition statusLine (curlOutput : string) : string :=
  default "" (head (splitLines (trim (beforeMarker "---RESPONSE_END---" curlOutput)))).

Fixpoint noDot (s : string) : bool :=
  match s with
  | EmptyString => true
  | String c r => negb (Ascii.eqb c ".") && noDot r
  end.

Fixpoint allDigits (s : string) : bool :=
  match s with
  | EmptyString => true
  | String c r => is_digit c && allDigits r
  end.

(** The string is empty or starts with a character outside [f]. *)
Definition stopsAt (f : ascii -> bool) (s : string) : bool :=
  match s with
  | EmptyString => true
  | String c _ => negb (f c)
  end.

Lemma span_noDot f s : noDot s = true -> noDot (snd (span f s)) = true.
Proof.
  induction s as [|c r IH]; [reflexivity|]. cbn [span]. intros H.
  destruct (f c); [|exact H].
  cbn [noDot] in H. apply andb_true_iff in H as [_ H].
  destruct (span f r) as [a b]. exact (IH H).
Qed.

Lemma versionAndCode_noDot s : noDot s = true -> versionAndCode s = None.
Proof.
  intros H. unfold versionAndCode.
  pose proof (span_noDot is_digit s H) as Hb.
  destruct (span is_digit s) as [[|a0 a] b]; [reflexivity|].
  destruct b as [|c b]; [reflexivity|].
  cbn [snd noDot] in Hb. apply andb_true_iff in Hb as [Hc _].
  destruct (Ascii.eqb_spec c "."); [discriminate|].
  destruct c as [[] [] [] [] [] [] [] []]; try reflexivity. contradiction.
Qed.

Lemma substring_noDot s : forall n m,
  noDot s = true -> noDot (String.substring n m s) = true.
Proof.
  induction s as [|c r IH]; intros n m H; [destruct n, m; reflexivity|].
  cbn [noDot] in H. apply andb_true_iff in H as [Hc Hr].
  destruct n as [|n]; cbn [String.substring].
  - destruct m as [|m]; [reflexivity|]. cbn [noDot]. rewrite Hc. exact (IH 0%nat m Hr).
  - exact (IH n m Hr).
Qed.

Lemma statusMatch_noDot line : noDot line = true -> statusMatch line = None.
Proof.
  induction line as [|c r IH]; intros H.
  - reflexivity.
  - cbn [statusMatch].
    rewrite (versionAndCode_noDot _ (substring_noDot _ _ _ H)).
    cbn [noDot] in H. apply andb_true_iff in H as [_ H].
    destruct (String.prefix _ _); exact (IH H).
Qed.

Lemma span_digits f ds : forall rest,
  (forall c, In c (list_ascii_of_string ds) -> f c = true) ->
  stopsAt f rest = true ->
  span f (ds +:+ rest) = (ds, rest).
Proof.
  induction ds as [|c ds IH]; intros rest Hd Hr.
  - rewrite ComparatorFacts.append_nil. destruct rest as [|c r]; [reflexivity|].
    cbn [stopsAt] in Hr. cbn [span]. destruct (f c); [discriminate|reflexivity].
  - rewrite ComparatorFacts.append_cons. cbn [span].
    rewrite (Hd c) by (left; reflexivity).
    rewrite (IH rest); [reflexivity| |exact Hr].
    intros c' Hc'. apply Hd. right. exact Hc'.
Qed.

Lemma allDigits_In ds :
  allDigits ds = true -> forall c, In c (list_ascii_of_string ds) -> is_digit c = true.
Proof.
  induction ds as [|d ds IH]; cbn [allDigits list_ascii_of_string In]; [tauto|].
  intros H c [<-|Hc]; apply andb_true_iff in H as [Hd Hs]; auto.
Qed.

Lemma substring_all s : String.substring 0 (String.length s) s = s.
Proof. induction s as [|c r IH]; cbn; [|rewrite IH]; reflexivity. Qed.

(** X29. The status code is only read from a status line with a dotted
    protocol version. From [HTTP/<major>.<minor> <code>] the code is
    taken; a first line without a dot, such as the [HTTP/2 404] that
    curl prints for an HTTP/2 response, leaves the status code at its
    default of 200 whatever the server answered. *)
Theorem curl_status_line (curlOutput : string) (r : Response) :
  parseCurlResponse curlOutput = Ok r ->
  (noDot (statusLine curlOutput) = true -> statusCode r = 200%Z) /\
  (forall major minor code rest,
     statusLine curlOutput
     = "HTTP/" +:+ major +:+ "." +:+ minor +:+ " " +:+ code +:+ rest ->
     allDigits major = true -> major <> "" ->
     allDigits minor = true -> minor <> "" ->
     allDigits code = true -> code <> "" ->
     stopsAt is_digit rest = true ->
     statusCode r = parseInt code).
Proof.
  unfold parseCurlResponse, statusLine. cbv zeta.
  set (data := trim (beforeMarker "---RESPONSE_END---" curlOutput)).
  destruct (String.eqb data ""); [discriminate|].
  destruct (parseHeaders (drop 1 (splitLines data)) ∅) as [hs bodyLines].
  intros [= <-]. cbn [statusCode].
  destruct (splitLines data) as [|line0 rest0]; cbn [head default from_option id].
  - split; [reflexivity|]. intros major minor code rest H. discriminate H.
  - split.
    + intros H. rewrite (statusMatch_noDot _ H). destruct (startsWith _ _); reflexivity.
    + intros major minor code rest -> Hmaj Hmaj0 Hmin Hmin0 Hcode Hcode0 Hrest.
      set (tail := major +:+ "." +:+ minor +:+ " " +:+ code +:+ rest).
      change ("HTTP/" +:+ tail)
        with (String "H" (String "T" (String "T" (String "P" (String "/" tail))))).
      assert (Hpre : String.prefix "HTTP/"
                       (String "H" (String "T" (String "T" (String "P" (String "/" tail)))))
                     = true).
      { apply ComparatorFacts.prefix_spec. exists tail. reflexivity. }
      unfold startsWith. rewrite Hpre. cbn [statusMatch]. rewrite Hpre.
      replace (String.substring 5 _ _) with tail.
      2:{ cbn [String.length Nat.sub String.substring]. rewrite Nat.sub_0_r.
          symmetry. apply substring_all. }
      unfold tail, versionAndCode.
      rewrite (span_digits is_digit major) by (try apply allDigits_In; auto).
      destruct major as [|m0 major']; [contradiction|].
      change ("." +:+ minor +:+ " " +:+ code +:+ rest)
        with (String "." (minor +:+ " " +:+ code +:+ rest)).
      cbv iota beta.
      rewrite (span_digits is_digit minor) by (try apply allDigits_In; auto).
      destruct minor as [|n0 minor']; [contradiction|].
      change (" " +:+ code +:+ rest) with (String " " (code +:+ rest)).
      cbn [span is_space]. change (is_space " ") with true. cbv iota.
      assert (Hsp : span is_space (code +:+ rest) = ("", code +:+ rest)).
      { destruct code as [|c0 code']; [contradiction|].
        rewrite ComparatorFacts.append_cons. cbn [span].
        cbn [allDigits] in Hcode. apply andb_true_iff in Hcode as [Hc0 _].
        replace (is_space c0) with false; [reflexivity|].
        destruct c0 as [[] [] [] [] [] [] [] []]; try reflexivity; discriminate. }
      rewrite Hsp.
      rewrite (span_digits is_digit code) by (try apply allDigits_In; auto).
      destruct code as [|c0 code']; [contradiction|]. reflexivity.
Qed.

Lemma lower_char_idem c : lower_char (lower_char c) = lower_char c.
Proof. destruct c as [[] [] [] [] [] [] [] []]; reflexivity. Qed.

Lemma toLowerCase_idem s : toLowerCase (toLowerCase s) = toLowerCase s.
Proof.
  induction s as [|c r IH]; [reflexivity|]. cbn [toLowerCase].
  rewrite lower_char_idem, IH. reflexivity.
Qed.

(** The header names are lower-case and the values trimmed. *)
Definition normalised (headers : gmap string string) : Prop :=
  forall k v, headers !! k = Some v -> toLowerCase k = k /\ trim v = v.

Lemma parseHeaders_normalised lines : forall hs,
  normalised hs -> normalised (fst (parseHeaders lines hs)).
Proof.
  induction lines as [|line rest IH]; intros hs Hn; cbn [parseHeaders]; [exact Hn|].
  destruct (String.eqb (trim line) ""); [exact Hn|].
  destruct (splitColon line) as [[[|c name] value]|]; try (apply IH, Hn).
  apply IH. intros k v. destruct (decide (k = toLowerCase (trim (String c name)))) as [->|Hk].
  - rewrite lookup_insert_eq. intros [= <-].
    split; [apply toLowerCase_idem|apply SetVarsFacts.trim_idem].
  - rewrite lookup_insert_ne by congruence. apply Hn.
Qed.

(** X30. What the parser hands on is normalised: every header name is
    in lower case, so that a later lookup under the lower-cased name
    finds it, every header value and the body are trimmed, and the
    parser fails only when the output has no response part, that is
    when nothing but white space precedes the end marker. *)
Theorem curl_response_normalised (curlOutput : string) :
  (trim (beforeMarker "---RESPONSE_END---" curlOutput) <> "" ->
   exists r, parseCurlResponse curlOutput = Ok r /\
             (forall k v, headers r !! k = Some v -> toLowerCase k = k /\ trim v = v) /\
             trim (body r) = body r) /\
  (trim (beforeMarker "---RESPONSE_END---" curlOutput) = "" ->
   parseCurlResponse curlOutput = Throw "No response data found in curl output").
Proof.
  unfold parseCurlResponse. cbv zeta.
  set (data := trim (beforeMarker "---RESPONSE_END---" curlOutput)).
  split.
  - intros Hne. apply String.eqb_neq in Hne. rewrite Hne.
    pose proof (parseHeaders_normalised (drop 1 (splitLines data)) ∅) as Hn.
    destruct (parseHeaders (drop 1 (splitLines data)) ∅) as [hs bodyLines].
    eexists. split; [reflexivity|]. cbn [headers body]. split.
    + apply Hn. intros k v. rewrite lookup_empty. discriminate.
    + apply SetVarsFacts.trim_idem.
  - intros ->. reflexivity.
Qed.

End CurlFacts.

(** * Worked instances of the further properties *)

Module MoreExamples.
Import Core Runner.

Lemma runTests_at_most_one_failure_witness :
  (n_failed Examples.batch_result <= 1)%nat /\
  RunnerFacts.FailFast (results Examples.batch_result).
Proof.
  destruct (RunnerFacts.runTests_at_most_one_failure
              Sim.runnerExecuteTest Sim.runnerNow Sim.runnerPause
              Examples.batch (∅, 0%Z) (∅, 530%Z) Examples.batch_result)
    as (H1 & _ & _ & H4).
  - vm_compute. reflexivity.
  - split; assumption.
Defined.

(** Two tests that both pass on the simulated endpoint. *)
Definition passing : list value := [Sim.httpTest "a" 200 0; Sim.httpTest "b" 200 2].

Lemma runTests_all_pass_witness :
  exists rr,
    Sim.runTests (VArr passing) (∅, 0%Z) = (Ok rr, (∅, 20%Z)) /\
    n_passed rr = 2%nat /\ n_failed rr = 0%nat /\ n_skipped rr = 0%nat.
Proof.
  destruct (RunnerFacts.runTests_all_pass
              Sim.runnerExecuteTest Sim.runnerNow Sim.runnerPause
              passing (∅, 0%Z) (∅, 20%Z))
    as (rr & Hrun & _ & Hp & Hf & Hs & _).
  - discriminate.
  - eapply RunnerProps.AllPass_cons; [vm_compute; reflexivity|reflexivity|].
    eapply RunnerProps.AllPass_cons; [vm_compute; reflexivity|reflexivity|].
    apply RunnerProps.AllPass_nil.
  - exists rr. repeat split; assumption.
Defined.

Lemma runSingleTest_attempts_witness :
  attempts Examples.failed_b = 2%Z /\
  exists msg w1 w2,
    Sim.runnerExecuteTest (Sim.httpTest "b" 404 1) w1 = (Throw msg, w2) /\
    error Examples.failed_b = Some msg.
Proof.
  apply (RunnerFacts.runSingleTest_attempts
           Sim.runnerExecuteTest Sim.runnerNow Sim.runnerPause
           (Sim.httpTest "b" 404 1) 1 (∅, 10%Z) (∅, 530%Z) Examples.failed_b).
  - vm_compute. reflexivity.
  - vm_compute. discriminate.
  - reflexivity.
Defined.

Lemma runSingleTest_negative_retries_witness :
  exists r,
    Runner.runSingleTest Sim.World Sim.runnerExecuteTest Sim.runnerNow Sim.runnerPause
      (VObj [("name", VStr "never"); ("retries", VNum (-1))]) 0 (∅, 0%Z)
    = (Ok r, (∅, 0%Z)) /\
    passed r = false /\ error r = Some "Unknown error" /\ attempts r = 0%Z.
Proof.
  destruct (RunnerFacts.runSingleTest_negative_retries
              Sim.runnerExecuteTest Sim.runnerNow Sim.runnerPause
              [("name", VStr "never"); ("retries", VNum (-1))] 0 (∅, 0%Z) (-1)%Z)
    as (r & Hr & Hp & _ & He & Ha & _).
  - reflexivity.
  - lia.
  - exists r. repeat split; assumption.
Defined.

Lemma wf_ab : DeepCompareProps.wf (VObj Examples.ab).
Proof.
  split; [apply (bool_decide_unpack _); vm_compute; reflexivity|cbn; tauto].
Defined.

Lemma wf_ba : DeepCompareProps.wf (VObj Examples.ba).
Proof.
  split; [apply (bool_decide_unpack _); vm_compute; reflexivity|cbn; tauto].
Defined.

Lemma deepCompare_refl_sym_witness :
  deepCompare (VObj Examples.ab) (VObj Examples.ab) = true /\
  deepCompare (VObj Examples.ab) (VObj Examples.ba)
  = deepCompare (VObj Examples.ba) (VObj Examples.ab).
Proof.
  exact (DeepCompareFacts.deepCompare_refl_sym
           (VObj Examples.ab) (VObj Examples.ba) wf_ab wf_ba).
Defined.

Lemma deepCompare_trans_witness :
  deepCompare (VObj Examples.ab) (VObj Examples.ab) = true.
Proof.
  exact (DeepCompareFacts.deepCompare_trans
           (VObj Examples.ab) (VObj Examples.ba) (VObj Examples.ab)
           wf_ab wf_ba wf_ab eq_refl eq_refl).
Defined.

Lemma deepCompare_key_order_witness :
  deepCompare (VObj Examples.ab) (VObj Examples.ba) = true.
Proof.
  apply (DeepCompareFacts.deepCompare_key_order Examples.ab Examples.ba wf_ab).
  apply Permutation_swap.
Defined.

Definition containsErr : value :=
  VObj [("comparator", VStr "contains"); ("value", VStr "err"); ("negate", VBool true)].

Lemma contains_is_substring_witness :
  isOk (compareValue Sim.stringToNumber MiniRegExp.test (VStr "all good") containsErr
          "stdout") = true <->
  ~ exists pre post, "all good" = pre +:+ "err" +:+ post.
Proof.
  exact (ComparatorFacts.contains_is_substring
           Sim.stringToNumber MiniRegExp.test (VStr "all good") containsErr
           "stdout" "all good" eq_refl eq_refl).
Defined.

Lemma unknown_comparator_throws_witness :
  compareValue Sim.stringToNumber MiniRegExp.test (VNum 1)
    (VObj [("comparator", VStr "equal"); ("value", VNum 1)]) "Value"
  = Throw "Unknown comparator: equal".
Proof.
  exact (ComparatorFacts.unknown_comparator_throws
           Sim.stringToNumber MiniRegExp.test (VNum 1)
           (VObj [("comparator", VStr "equal"); ("value", VNum 1)]) (VStr "equal")
           "Value" eq_refl eq_refl).
Defined.

Lemma numeric_comparators_mirror_witness :
  isOk (compareValue Sim.stringToNumber MiniRegExp.test VUndefined
          (comparison "greaterThan" (VNum 3) (VBool true)) "Value") = true /\
  isOk (compareValue Sim.stringToNumber MiniRegExp.test VUndefined
          (comparison "lessThan" (VNum 3) (VBool true)) "Value") = true.
Proof.
  apply (proj2 (proj2 (ComparatorFacts.numeric_comparators_mirror
                         Sim.stringToNumber MiniRegExp.test
                         VUndefined (VNum 3) (VBool true) "Value" "Value"))).
  left. reflexivity.
Defined.

Definition captureId : list (string * value) :=
  [("ID", VObj [("jsonPath", VStr "$.id")])].

Definition setVarsOn (setVars : value) (env : Env) : res unit * Env :=
  applySetVars MiniRegExp.exec MiniJSONPath.eval Sim.JSON_parse
    setVars Examples.response42 "http" env.

Lemma applySetVars_frame_witness :
  snd (setVarsOn (VObj captureId) (<["KEEP" := "x"]> ∅)) !! "KEEP" = Some "x".
Proof.
  destruct (SetVarsFacts.applySetVars_frame
              MiniRegExp.exec MiniJSONPath.eval Sim.JSON_parse
              (VObj captureId) Examples.response42 "http" (<["KEEP" := "x"]> ∅)
              (snd (setVarsOn (VObj captureId) (<["KEEP" := "x"]> ∅))) (Ok tt))
    as [Hframe _].
  - vm_compute. reflexivity.
  - rewrite (Hframe "KEEP"); [reflexivity|].
    apply (bool_decide_unpack _). vm_compute. reflexivity.
Defined.






Definition cappedWait : list (string * value) :=
  [("timeoutSeconds", VNum 60); ("maxRetries", VNum 2)].

(** The wait of [Examples.waitConfig] on a cluster whose pod is in
    [phase]. *)
Definition waitOn (phase : string) (fuel : nat) (polling : list (string * value))
    (setVars : value) :=
  executeKubectlWait Sim.stringToNumber MiniRegExp.test MiniRegExp.exec
    MiniJSONPath.eval Sim.JSON_parse Sim.X Sim.now Sim.sleep (Sim.execSync phase)
    fuel (Examples.waitConfig polling) setVars ∅ 0%Z.

Lemma wait_outcomes_witness :
  waitOn "Pending" 3 cappedWait VUndefined
  = Some (Throw (retriesExhausted (Examples.plan cappedWait)), ∅, 4000%Z) /\
  maxRetries (Examples.plan cappedWait) <> VUndefined.
Proof.
  assert (H : waitOn "Pending" 3 cappedWait VUndefined
              = Some (Throw (retriesExhausted (Examples.plan cappedWait)), ∅, 4000%Z))
    by (vm_compute; reflexivity).
  split; [exact H|].
  destruct (WaitFacts.wait_outcomes
              Sim.stringToNumber MiniRegExp.test MiniRegExp.exec
              MiniJSONPath.eval Sim.JSON_parse Sim.X Sim.now Sim.sleep
              (Sim.execSync "Pending") 3 (Examples.waitConfig cappedWait) VUndefined
              ∅ ∅ 0%Z 4000%Z (Examples.plan cappedWait) _ eq_refl H)
    as [[Hc|[(_ & Hm & _)|(Hc & _)]] _].
  - discriminate Hc.
  - exact Hm.
  - vm_compute in Hc. discriminate Hc.
Defined.

Lemma wait_without_polling_witness :
  waitOn "Running" 1 [("timeoutSeconds", VNum 0)] VUndefined
  = Some (Throw (timedOut (Examples.plan [("timeoutSeconds", VNum 0)])), ∅, 0%Z) /\
  waitOn "Running" 1 [("maxRetries", VNum 0)] VUndefined
  = Some (Throw (retriesExhausted (Examples.plan [("maxRetries", VNum 0)])), ∅, 0%Z).
Proof.
  split.
  - apply (proj1 (WaitFacts.wait_without_polling
                    Sim.stringToNumber MiniRegExp.test MiniRegExp.exec
                    MiniJSONPath.eval Sim.JSON_parse Sim.X Sim.now Sim.sleep
                    (Sim.execSync "Running") 0
                    (Examples.waitConfig [("timeoutSeconds", VNum 0)]) VUndefined ∅ 0%Z
                    (Examples.plan [("timeoutSeconds", VNum 0)]) eq_refl)).
    right. exists 0%Z. split; [reflexivity|lia].
  - apply (proj2 (WaitFacts.wait_without_polling
                    Sim.stringToNumber MiniRegExp.test MiniRegExp.exec
                    MiniJSONPath.eval Sim.JSON_parse Sim.X Sim.now Sim.sleep
                    (Sim.execSync "Running") 0
                    (Examples.waitConfig [("maxRetries", VNum 0)]) VUndefined ∅ 0%Z
                    (Examples.plan [("maxRetries", VNum 0)]) eq_refl)
             60000%Z 0%Z);
      [reflexivity|lia|discriminate|reflexivity|lia].
Defined.




Lemma negate_flips_witness :
  isOk (compareValue Sim.stringToNumber MiniRegExp.test (VNum 1)
          (VObj [("comparator", VStr "lessThan"); ("value", VNum 3);
                 ("negate", VBool true)]) "Value")
  = negb (isOk (compareValue Sim.stringToNumber MiniRegExp.test (VNum 1)
                  Examples.lessThan3 "Value")).
Proof.
  apply (proj1 (ValidatorFacts.negate_flips
                  Sim.stringToNumber MiniRegExp.test (VNum 1) (VBool true)
                  [("comparator", VStr "lessThan"); ("value", VNum 3)]
                  "Value" "Value" eq_refl eq_refl)).
  reflexivity.
Defined.

Definition jsonHeaders : value := VObj [("content-type", VStr "application/json")].

Definition containsJson : list (string * value) :=
  [("comparator", VStr "contains"); ("value", VStr "json")].

Lemma header_name_case_insensitive_witness :
  isOk (validateHeader Sim.stringToNumber MiniRegExp.test jsonHeaders
          (VObj (("name", VStr "Content-Type") :: containsJson)))
  = isOk (validateHeader Sim.stringToNumber MiniRegExp.test jsonHeaders
            (VObj (("name", VStr "content-type") :: containsJson))).
Proof.
  apply (ValidatorFacts.header_name_case_insensitive
           Sim.stringToNumber MiniRegExp.test jsonHeaders
           "Content-Type" "content-type" containsJson).
  reflexivity.
Defined.



(** An http test with no [expect] block, and a command test with
    none. *)
Definition bareHttp : value :=
  VObj [("http", VObj [("url", VStr "http://svc"); ("path", VStr "/")]);
        ("source", VObj [("type", VStr "local")])].

Definition bareCommand : value :=
  VObj [("command", VObj [("command", VStr "exit 3")]);
        ("source", VObj [("type", VStr "local")])].

Lemma http_test_requires_expect_witness :
  isOk (fst (fst (executeHttpTest Sim.stringToNumber MiniRegExp.test MiniRegExp.exec
                    MiniJSONPath.eval Sim.JSON_parse Sim.X
                    (Sim.httpRequest 200 (VObj [])) bareHttp ∅ 0%Z))) = false /\
  executeCommandTest Sim.stringToNumber MiniRegExp.test MiniRegExp.exec
    MiniJSONPath.eval Sim.JSON_parse Sim.X (Sim.runCommand "") bareCommand ∅ 0%Z
  = (Ok true, ∅, 10%Z).
Proof.
  split.
  - apply (ExecutorFacts.http_test_requires_expect
             Sim.stringToNumber MiniRegExp.test MiniRegExp.exec
             MiniJSONPath.eval Sim.JSON_parse Sim.X
             (Sim.httpRequest 200 (VObj [])) (Sim.runCommand "") bareHttp ∅ 0%Z eq_refl).
  - apply (proj2 (ExecutorFacts.http_test_requires_expect
                    Sim.stringToNumber MiniRegExp.test MiniRegExp.exec
                    MiniJSONPath.eval Sim.JSON_parse Sim.X
                    (Sim.httpRequest 200 (VObj [])) (Sim.runCommand "") bareCommand
                    ∅ 0%Z eq_refl)
             (VObj [("stdout", VStr ""); ("stderr", VStr ""); ("exitCode", VNum 0);
                    ("output", VStr "")]) 10%Z);
      [reflexivity|discriminate|reflexivity|reflexivity].
Defined.



Lemma runTests_accepts_witness :
  isOk (fst (Sim.runTests (VArr [Sim.httpTest "a" 200 0; VNull]) (∅, 0%Z))) = false /\
  isOk (fst (Sim.runTests (VArr [Sim.httpTest "a" 500 0; VStr "oops"]) (∅, 0%Z))) = true.
Proof.
  split.
  - exact (proj1 (RunnerInputFacts.runTests_accepts
                    Sim.runnerExecuteTest Sim.runnerNow Sim.runnerPause
                    (VArr [Sim.httpTest "a" 200 0; VNull]) (∅, 0%Z))).
  - exact (proj1 (RunnerInputFacts.runTests_accepts
                    Sim.runnerExecuteTest Sim.runnerNow Sim.runnerPause
                    (VArr [Sim.httpTest "a" 500 0; VStr "oops"]) (∅, 0%Z))).
Defined.

(** A command line on a file system whose every file holds the suite
    [passing]. *)
Definition yaml_load (text : string) : res value :=
  if String.eqb text "suite" then Ok (VArr passing) else Throw "bad indentation".

Definition readInput (path : string) (w : Sim.World) : res string * Sim.World :=
  (Ok "suite", w).

Definition cli (argv : list string) : Z * Sim.World :=
  Cli.main Sim.World Sim.runnerExecuteTest Sim.runnerNow Sim.runnerPause
    yaml_load readInput argv (∅, 0%Z).

Lemma exit_code_zero_iff_all_passed_witness :
  cli ["node"; "cli.js"; "-f"; "tests.yaml"] = (0%Z, (∅, 20%Z)) /\
  (exists rr,
     Cli.runYaml Sim.World Sim.runnerExecuteTest Sim.runnerNow Sim.runnerPause
       yaml_load "suite" (∅, 0%Z) = (Ok rr, (∅, 20%Z)) /\
     n_passed rr = total rr) /\
  cli ["node"; "cli.js"; "-h"; "-f"; "tests.yaml"] = (0%Z, (∅, 0%Z)).
Proof.
  assert (H : cli ["node"; "cli.js"; "-f"; "tests.yaml"] = (0%Z, (∅, 20%Z)))
    by (vm_compute; reflexivity).
  split; [exact H|]. split.
  - destruct (CliFacts.exit_code_zero_iff_all_passed
                Sim.runnerExecuteTest Sim.runnerNow Sim.runnerPause yaml_load readInput
                ["node"; "cli.js"; "-f"; "tests.yaml"] (∅, 0%Z) (∅, 20%Z) 0%Z H)
      as (_ & _ & Hzero).
    destruct (proj1 (Hzero eq_refl) eq_refl)
      as (path & content & w1 & rr & _ & _ & Hread & _ & Hrun & _ & _ & Hp & _).
    injection Hread as <- <-. exists rr. split; assumption.
  - destruct (cli ["node"; "cli.js"; "-h"; "-f"; "tests.yaml"]) as [code w'] eqn:E.
    destruct (CliFacts.exit_code_zero_iff_all_passed
                Sim.runnerExecuteTest Sim.runnerNow Sim.runnerPause yaml_load readInput
                ["node"; "cli.js"; "-h"; "-f"; "tests.yaml"] (∅, 0%Z) w' code E)
      as (_ & Hhelp & _).
    destruct (Hhelp eq_refl) as [-> ->]. reflexivity.
Defined.

Definition servicePorts : list value :=
  [VObj [("name", VStr "admin"); ("port", VNum 1)];
   VObj [("name", VStr "http"); ("port", VNum 80)]].

Lemma port_selection_witness :
  Discovery.selectPort (VArr servicePorts) (VNum 1) = Ok (VNum 1) /\
  Discovery.selectPort (VArr servicePorts) (VNum 0) = Ok (VNum 1) /\
  Discovery.selectPort (VArr servicePorts) (VStr "http") = Ok (VNum 80) /\
  Discovery.selectPort (VArr servicePorts) (VBool true) = Ok VUndefined.
Proof.
  destruct (DiscoveryFacts.port_selection servicePorts)
    as (Hnum & Hidx & Hname & _ & _ & Hother).
  - repeat constructor.
  - split; [|split; [|split]].
    + apply (Hnum 1%Z (VObj [("name", VStr "admin"); ("port", VNum 1)]));
        [left|reflexivity].
    + apply (Hidx 0%Z). repeat constructor.
    + apply (Hname "http" [VObj [("name", VStr "admin"); ("port", VNum 1)]]
               (VObj [("name", VStr "http"); ("port", VNum 80)]) []);
        [reflexivity|repeat constructor|reflexivity].
    + apply Hother; discriminate.
Defined.

(** A service that has an address but lists no port. *)
Definition webService : value :=
  VObj [("kind", VStr "Service"); ("metadata", VObj [("name", VStr "web")])].

Definition noPorts : value :=
  VObj [("status",
         VObj [("loadBalancer",
                VObj [("ingress", VArr [VObj [("ip", VStr "10.0.0.1")]])])]);
        ("spec", VObj [])].

Definition discoverWeb : res value * Sim.X :=
  Discovery.discoverServiceLoadBalancerIpAndPort
    (fun _ => Ok noPorts) Sim.X (Sim.execSync "Running") webService VUndefined ∅ 0%Z.

Lemma discovery_errors_are_tagged_witness :
  discoverWeb
  = (Throw ("Failed to discover LoadBalancer IP and port: "
            +:+ "No ports defined for service default/web"), 0%Z) /\
  includes "LoadBalancer"
    ("Failed to discover LoadBalancer IP and port: "
     +:+ "No ports defined for service default/web") = true.
Proof.
  assert (H : discoverWeb
              = (Throw ("Failed to discover LoadBalancer IP and port: "
                        +:+ "No ports defined for service default/web"), 0%Z))
    by (vm_compute; reflexivity).
  split; [exact H|].
  destruct (DiscoveryFacts.discovery_errors_are_tagged
              (fun _ => Ok noPorts) Sim.X (Sim.execSync "Running")
              webService VUndefined ∅ 0%Z 0%Z
              (mkSelectorArgs "service" "" "web" "") _ eq_refl eq_refl eq_refl H)
    as (_ & [Hp|Hl] & _).
  - vm_compute in Hp. discriminate Hp.
  - exact Hl.
Defined.

Definition nl : string := String "010" "".

Definition http2Output : string :=
  "HTTP/2 404" +:+ nl +:+ "Content-Type: text/plain" +:+ nl +:+ nl
  +:+ "missing" +:+ nl +:+ "---RESPONSE_END---" +:+ nl.

Definition http1Output : string :=
  "HTTP/1.1 404 Not Found" +:+ nl +:+ "Content-Type: text/plain" +:+ nl +:+ nl
  +:+ "missing" +:+ nl +:+ "---RESPONSE_END---" +:+ nl.

Definition parsed (curlOutput : string) : Curl.Response :=
  match Curl.parseCurlResponse curlOutput with
  | Ok r => r
  | Throw _ => Curl.mkResponse 0 ∅ ""
  end.

Lemma curl_status_line_witness :
  Curl.statusCode (parsed http2Output) = 200%Z /\
  Curl.statusCode (parsed http1Output) = 404%Z.
Proof.
  split.
  - apply (proj1 (CurlFacts.curl_status_line http2Output (parsed http2Output)
                    ltac:(vm_compute; reflexivity))).
    vm_compute. reflexivity.
  - apply (proj2 (CurlFacts.curl_status_line http1Output (parsed http1Output)
                    ltac:(vm_compute; reflexivity))
             "1" "1" "404" " Not Found");
      try reflexivity; discriminate.
Defined.

Lemma curl_response_normalised_witness :
  exists r,
    Curl.parseCurlResponse http1Output = Ok r /\
    (forall k v, Curl.headers r !! k = Some v -> toLowerCase k = k /\ trim v = v) /\
    trim (Curl.body r) = Curl.body r.
Proof.
  apply (proj1 (CurlFacts.curl_response_normalised http1Output)).
  vm_compute. discriminate.
Defined.

End MoreExamples.
